(** * visual-breakdown: frame sampling, batched analysis and similarity

    A shallow embedding of the pipeline of the repository
    (video_utils.py, gpt_utils.py, similarity_analyzer.py, youtube_utils.py,
    batch_processor.py, youtube_batch_analyzer.py) and the properties its
    specification states.

    Conventions of the embedding.
    - A Python [float] is the rational it denotes ([Q], kept reduced) and
      [int(x)] truncates toward zero.  The functions compute with exact
      products and quotients; where the rounding of IEEE doubles decides
      what the program does, the same lines are run with the arithmetic of
      [Binary64], which rounds as Python does.
    - A Python [str] is a [string] of ASCII characters.
    - A raised exception is a value: a function that may raise returns
      [res A]; the external collaborators (decoder, image writer, oracle,
      downloader) are arguments of the functions that use them.
    - Side effects on collaborators are recorded in an event trace. *)

From Stdlib Require Import ZArith QArith Qround Qabs Qminmax List String Ascii Bool Lia.
From Stdlib Require Import DecimalString DecimalN Sorted.
From Stdlib Require SpecFloat.
Import ListNotations.
Open Scope Z_scope.

(** ** Python primitives used by the sources *)
Module Py.

(** Exceptions derived from [Exception], by class, with their message. *)
Inductive exn : Type :=
| ValueError (msg : string)
| ZeroDivisionError (msg : string)
| FileNotFoundError (msg : string)
| OtherError (msg : string).

(** [str(e)] *)
Definition str_exn (e : exn) : string :=
  match e with
  | ValueError m | ZeroDivisionError m | FileNotFoundError m | OtherError m => m
  end.

(** The outcome of a call: a returned value or a raised exception. *)
Inductive res (A : Type) : Type :=
| Return (a : A)
| Raise (e : exn).
Arguments Return {A} a.
Arguments Raise {A} e.

(** [int(x)] for a float [x]: truncation toward zero. *)
Definition int_of_float (x : Q) : Z := Z.quot (Qnum x) (Zpos (Qden x)).

(** [float(n)] and float arithmetic, kept in lowest terms. *)
Definition float_of_int (n : Z) : Q := inject_Z n.
Definition fmul (x y : Q) : Q := Qred (x * y).
Definition fdiv (x y : Q) : Q := Qred (x / y).

(** [min(a, b)]: [b] when [b < a], else [a]. *)
Definition fmin (a b : Q) : Q :=
  match b ?= a with Lt => b | _ => a end%Q.

(** [x == 0.0] *)
Definition fzero (x : Q) : bool := Z.eqb (Qnum x) 0.

(** [list(range(n))]: empty when [n <= 0]. *)
Definition range (n : Z) : list Z := map Z.of_nat (seq 0 (Z.to_nat n)).

(** [list(enumerate(l, start))] *)
Fixpoint enumerate_from {A : Type} (start : Z) (l : list A) : list (Z * A) :=
  match l with
  | [] => []
  | x :: l' => (start, x) :: enumerate_from (start + 1) l'
  end.
Definition enumerate {A : Type} (l : list A) : list (Z * A) := enumerate_from 0 l.

(** [sum(l)] *)
Definition sum (l : list Z) : Z := fold_right Z.add 0 l.

(** [l[:k]] for a list [l]: a negative [k] counts from the end. *)
Definition slice_to {A : Type} (l : list A) (k : Z) : list A :=
  if k <? 0 then firstn (Z.to_nat (Z.of_nat (List.length l) + k)) l
  else firstn (Z.to_nat k) l.

(** Decimal digits of a natural number. *)
Definition digits (n : Z) : string := NilZero.string_of_uint (N.to_uint (Z.to_N n)).

(** ["{:02d}".format(n)]: at least two characters, zero padded after the sign. *)
Definition fmt_02d (n : Z) : string :=
  if n <? 0 then ("-" ++ digits (- n))%string
  else if n <? 10 then ("0" ++ digits n)%string
  else digits n.

(** [round(x)]: the nearest integer, ties to the even one. *)
Definition round_half_even (x : Q) : Z :=
  let f := Qfloor x in
  match (x - inject_Z f ?= 1 # 2)%Q with
  | Lt => f
  | Gt => f + 1
  | Eq => if Z.even f then f else f + 1
  end.

(** ["{:.2f}".format(x)] *)
Definition fmt_2f (x : Q) : string :=
  let n := round_half_even (Qabs x * inject_Z 100) in
  let whole := digits (n / 100) in
  let cents := fmt_02d (n mod 100) in
  let body := (whole ++ "." ++ cents)%string in
  if Qnum x <? 0 then ("-" ++ body)%string else body.

(** ["{:.1f}".format(x)] *)
Definition fmt_1f (x : Q) : string :=
  let n := round_half_even (Qabs x * inject_Z 10) in
  let body := (digits (n / 10) ++ "." ++ digits (n mod 10))%string in
  if Qnum x <? 0 then ("-" ++ body)%string else body.

(** [str(n)] for an [int]. *)
Definition str_int (n : Z) : string :=
  if n <? 0 then ("-" ++ digits (- n))%string else digits n.

(** [list(range(start, stop, step))] for [start = 0]; [range] raises
    [ValueError] on a zero step. *)
Definition range_step (stop step : Z) : res (list Z) :=
  if step =? 0 then Raise (ValueError "range() arg 3 must not be zero")
  else if step <? 0 then Return (map (fun k => k * step) (range ((- stop - step - 1) / (- step))))
  else Return (map (fun k => k * step) (range ((stop + step - 1) / step))).

(** [list(range(a, b))] *)
Definition range_from (a b : Z) : list Z := map (fun k => a + k) (range (b - a)).

(** [l[a:b]] for [0 <= a <= b]. *)
Definition slice {A : Type} (l : list A) (a b : Z) : list A :=
  firstn (Z.to_nat (b - a)) (skipn (Z.to_nat a) l).

(** [str.startswith] and [str.endswith] for a one-character argument. *)
Definition starts_with_char (c : ascii) (s : string) : bool :=
  match s with
  | String c' _ => Ascii.eqb c c'
  | EmptyString => false
  end.
Fixpoint ends_with_char (c : ascii) (s : string) : bool :=
  match s with
  | EmptyString => false
  | String c' EmptyString => Ascii.eqb c c'
  | String _ s' => ends_with_char c s'
  end.



(** [s.removeprefix(pre)], or [None] when [s] does not start with [pre]. *)
Fixpoint strip_prefix (pre s : string) : option string :=
  match pre, s with
  | EmptyString, _ => Some s
  | String a pre', String b s' => if Ascii.eqb a b then strip_prefix pre' s' else None
  | String _ _, EmptyString => None
  end.



(** [os.path.join(a, b)] on POSIX. *)
Definition os_path_join (a b : string) : string :=
  if starts_with_char "/" b then b
  else if (String.eqb a "" || ends_with_char "/" a)%bool then (a ++ b)%string
  else (a ++ "/" ++ b)%string.

End Py.
Import Py.

(** ** IEEE double arithmetic

    Python's [float] is the binary64 format.  The product and the quotient
    of two floats are the exact results rounded to the nearest double (ties
    to even), as [SpecFloat] of the Standard Library defines them; a
    rational stands for the double nearest to it. *)
Module Binary64.

Definition prec : Z := 53.
Definition emax : Z := 1024.

(** The double nearest to an integer. *)
Definition of_Z (n : Z) : SpecFloat.spec_float :=
  SpecFloat.binary_normalize prec emax n 0 false.

(** The rational a finite double denotes. *)
Definition to_Q (x : SpecFloat.spec_float) : Q :=
  match x with
  | SpecFloat.S754_finite s m e =>
      let v := match e with
               | Z0 => inject_Z (Zpos m)
               | Zpos _ => inject_Z (Zpos m * 2 ^ e)
               | Zneg p => Qmake (Zpos m) (2 ^ p)
               end in
      if s then Qopp v else v
  | _ => 0%Q
  end.

(** The double nearest to a rational. *)
Definition of_Q (x : Q) : SpecFloat.spec_float :=
  SpecFloat.SFdiv prec emax (of_Z (Qnum x)) (of_Z (Zpos (Qden x))).

(** [x * y] and [x / y] on floats. *)
Definition fmul (x y : Q) : Q :=
  Qred (to_Q (SpecFloat.SFmul prec emax (of_Q x) (of_Q y))).
Definition fdiv (x y : Q) : Q :=
  Qred (to_Q (SpecFloat.SFdiv prec emax (of_Q x) (of_Q y))).

End Binary64.

(** ** video_utils.py *)
Module VideoUtils.

(** What the sampler does to its collaborators, in order. *)
Inductive event : Type :=
| Makedirs (dir : string)            (* os.makedirs(dir, exist_ok=True) *)
| Open (path : string)               (* cv2.VideoCapture(path) *)
| Seek (frame_index : Z)             (* cap.set(CAP_PROP_POS_FRAMES, i) *)
| Read                               (* cap.read() *)
| Imwrite (path : string)            (* cv2.imwrite(path, frame) *)
| Release.                           (* cap.release() *)

(** The dict [get_video_info] returns (lines 183-190). *)
Record video_info : Type := {
  fps : Q;
  total_frames : Z;
  duration_seconds : Q;
  width : Z;
  height : Z;
  resolution : string
}.

Section Sampler.

(** A decoded picture; the sampler only passes it on to the writer. *)
Variable Frame : Type.

(** What [cv2.VideoCapture(video_path)] gives: whether the stream opened, the
    measured properties, and the pictures by index ([None] where decoding
    fails; reading past the end fails too). *)
Record VideoCapture : Type := {
  isOpened : bool;
  CAP_PROP_FPS : Q;
  CAP_PROP_FRAME_COUNT : Q;
  CAP_PROP_FRAME_WIDTH : Q;
  CAP_PROP_FRAME_HEIGHT : Q;
  pictures : list (option Frame)
}.

(** [cv2.imwrite(path, frame)]: whether the file was written. *)
Variable imwrite : string -> Frame -> bool.

(** [cap.set(CAP_PROP_POS_FRAMES, i); cap.read()] *)
Definition read_at (cap : VideoCapture) (i : Z) : option Frame :=
  if i <? 0 then None
  else match nth_error (pictures cap) (Z.to_nat i) with
       | Some (Some f) => Some f
       | _ => None
       end.

(** Lines 33-34: the number of frames in the analysis window, with exact
    products and quotients.  In doubles the product of line 34 can fall just
    below the integer it has here, and the count is then one less:
    [analysis_frames_with] below, run with the arithmetic of [Binary64]. *)
Definition analysis_frames (fps : Q) (total_frames : Z) (max_duration : Q) : Z :=
  let duration := fdiv (float_of_int total_frames) fps in
  let analysis_duration := fmin duration max_duration in
  int_of_float (fmul fps analysis_duration).

(** Lines 40-45: the indices to extract. *)
Definition frame_indices (analysis_frames max_frames : Z) : list Z :=
  if analysis_frames <=? max_frames then range analysis_frames
  else map (fun i => int_of_float
                       (fdiv (float_of_int (i * analysis_frames))
                             (float_of_int max_frames)))
           (range max_frames).

(** Line 62 *)
Definition frame_filename (i : Z) (timestamp : Q) : string :=
  ("frame_" ++ fmt_02d (i + 1) ++ "_" ++ fmt_2f timestamp ++ "s.jpg")%string.

(** Lines 52-71: the extraction loop over [enumerate(frame_indices)]; gives
    the events of the loop and the frames appended to [extracted_frames]. *)
Fixpoint extract_loop (cap : VideoCapture) (output_dir : string) (fps : Q)
    (todo : list (Z * Z)) : list event * list (Q * string) :=
  match todo with
  | [] => ([], [])
  | (i, frame_index) :: rest =>
      let '(evs, out) := extract_loop cap output_dir fps rest in
      match read_at cap frame_index with
      | None => (Seek frame_index :: Read :: evs, out)
      | Some frame =>
          let timestamp := fdiv (float_of_int frame_index) fps in
          let frame_path := os_path_join output_dir (frame_filename i timestamp) in
          (Seek frame_index :: Read :: Imwrite frame_path :: evs,
           if imwrite frame_path frame then (timestamp, frame_path) :: out else out)
      end
  end.

(** The loop read as a filter and a map over [enumerate(frame_indices)]: the
    slots whose picture decodes and is written, and the pair appended for one. *)
Definition sampled (output_dir : string) (fps : Q) (slot : Z * Z) : Q * string :=
  let timestamp := fdiv (float_of_int (snd slot)) fps in
  (timestamp, os_path_join output_dir (frame_filename (fst slot) timestamp)).

Definition kept (cap : VideoCapture) (output_dir : string) (fps : Q) (slot : Z * Z) : bool :=
  match read_at cap (snd slot) with
  | Some frame => imwrite (snd (sampled output_dir fps slot)) frame
  | None => false
  end.


(** Lines 6-75. *)
Definition extract_fixed_frames (cap : VideoCapture) (video_path output_dir : string)
    (max_frames : Z) (max_duration : Q) : list event * res (list (Q * string)) :=
  let start := [Makedirs output_dir; Open video_path] in
  if negb (isOpened cap) then
    (start, Raise (ValueError ("Error: Could not open video file " ++ video_path)))
  else
    let fps := CAP_PROP_FPS cap in
    let total_frames := int_of_float (CAP_PROP_FRAME_COUNT cap) in
    if fzero fps then (start, Raise (ZeroDivisionError "float division by zero"))
    else
      let n := analysis_frames fps total_frames max_duration in
      let '(evs, extracted_frames) :=
        extract_loop cap output_dir fps (enumerate (frame_indices n max_frames)) in
      (start ++ evs ++ [Release], Return extracted_frames).

(** *** The fixed-count sampler with its float arithmetic as a parameter

    The definitions above compute with exact rationals.  Python computes
    with doubles: below are the same lines with the product [mul] and the
    quotient [div] of floats left open.  With [fmul] and [fdiv] they are
    the definitions above; with the arithmetic of [Binary64] they are what
    Python evaluates. *)
Section Arithmetic.

Variable mul div : Q -> Q -> Q.

(** Lines 30-34 *)
Definition analysis_frames_with (fps : Q) (total_frames : Z) (max_duration : Q) : Z :=
  let duration := div (float_of_int total_frames) fps in
  let analysis_duration := fmin duration max_duration in
  int_of_float (mul fps analysis_duration).

(** Lines 40-45 *)
Definition frame_indices_with (analysis_frames max_frames : Z) : list Z :=
  if analysis_frames <=? max_frames then range analysis_frames
  else map (fun i => int_of_float
                       (div (float_of_int (i * analysis_frames))
                            (float_of_int max_frames)))
           (range max_frames).

(** Lines 52-71 *)
Fixpoint extract_loop_with (cap : VideoCapture) (output_dir : string) (fps : Q)
    (todo : list (Z * Z)) : list event * list (Q * string) :=
  match todo with
  | [] => ([], [])
  | (i, frame_index) :: rest =>
      let '(evs, out) := extract_loop_with cap output_dir fps rest in
      match read_at cap frame_index with
      | None => (Seek frame_index :: Read :: evs, out)
      | Some frame =>
          let timestamp := div (float_of_int frame_index) fps in
          let frame_path := os_path_join output_dir (frame_filename i timestamp) in
          (Seek frame_index :: Read :: Imwrite frame_path :: evs,
           if imwrite frame_path frame then (timestamp, frame_path) :: out else out)
      end
  end.

(** Lines 6-75 *)
Definition extract_fixed_frames_with (cap : VideoCapture) (video_path output_dir : string)
    (max_frames : Z) (max_duration : Q) : list event * res (list (Q * string)) :=
  let start := [Makedirs output_dir; Open video_path] in
  if negb (isOpened cap) then
    (start, Raise (ValueError ("Error: Could not open video file " ++ video_path)))
  else
    let fps := CAP_PROP_FPS cap in
    let total_frames := int_of_float (CAP_PROP_FRAME_COUNT cap) in
    if fzero fps then (start, Raise (ZeroDivisionError "float division by zero"))
    else
      let n := analysis_frames_with fps total_frames max_duration in
      let '(evs, extracted_frames) :=
        extract_loop_with cap output_dir fps (enumerate (frame_indices_with n max_frames)) in
      (start ++ evs ++ [Release], Return extracted_frames).

End Arithmetic.

(** The sampler as Python runs it. *)
Definition extract_fixed_frames_binary64 :=
  extract_fixed_frames_with Binary64.fmul Binary64.fdiv.

(** Lines 19-20 before the rest: [os.makedirs(output_dir, exist_ok=True)] can
    raise (a file in the way, no permission), and then nothing is opened;
    [makedirs path] is [Some e] when it raises [e].  [extract_fixed_frames]
    above is the function from line 22 on, the directory being there. *)
Definition extract_fixed_frames_fs (makedirs : string -> option exn) (cap : VideoCapture)
    (video_path output_dir : string) (max_frames : Z) (max_duration : Q)
    : list event * res (list (Q * string)) :=
  match makedirs output_dir with
  | Some e => ([Makedirs output_dir], Raise e)
  | None => extract_fixed_frames cap video_path output_dir max_frames max_duration
  end.

(** Line 119 *)
Definition interval_filename (timestamp : Q) : string :=
  ("frame_" ++ fmt_2f timestamp ++ "s.jpg")%string.

(** Lines 111-130: the scan of [extract_frames]; [remaining] is what the
    decoder has not yet delivered, [frame_count] the count of frames read. *)
Fixpoint scan_loop (output_dir : string) (fps : Q) (frame_interval : Z)
    (remaining : list (option Frame)) (frame_count : Z)
    : list event * res (list (Q * string)) :=
  match remaining with
  | [] | None :: _ => ([Read], Return [])
  | Some frame :: rest =>
      if frame_interval =? 0 then
        ([Read], Raise (ZeroDivisionError "integer modulo by zero"))
      else if frame_count mod frame_interval =? 0 then
        let timestamp := fdiv (float_of_int frame_count) fps in
        let frame_path := os_path_join output_dir (interval_filename timestamp) in
        let '(evs, r) := scan_loop output_dir fps frame_interval rest (frame_count + 1) in
        (Read :: Imwrite frame_path :: evs,
         match r with
         | Return out =>
             Return (if imwrite frame_path frame then (timestamp, frame_path) :: out else out)
         | Raise e => Raise e
         end)
      else
        let '(evs, r) := scan_loop output_dir fps frame_interval rest (frame_count + 1) in
        (Read :: evs, r)
  end.

(** The pictures a sequential scan delivers before the first failed read. *)
Fixpoint readable (pics : list (option Frame)) : list Frame :=
  match pics with
  | Some frame :: rest => frame :: readable rest
  | _ => []
  end.

(** The scan read as a filter and a map over the delivered pictures with
    their index: the pair appended for a frame, and whether it is appended. *)
Definition interval_sampled (output_dir : string) (fps : Q) (slot : Z * Frame)
    : Q * string :=
  let timestamp := fdiv (float_of_int (fst slot)) fps in
  (timestamp, os_path_join output_dir (interval_filename timestamp)).

Definition interval_kept (output_dir : string) (fps : Q) (frame_interval : Z)
    (slot : Z * Frame) : bool :=
  (fst slot mod frame_interval =? 0) &&
  imwrite (snd (interval_sampled output_dir fps slot)) (snd slot).

(** Lines 78-134. *)
Definition extract_frames (cap : VideoCapture) (video_path output_dir : string)
    (interval_seconds : Q) : list event * res (list (Q * string)) :=
  let start := [Makedirs output_dir; Open video_path] in
  if negb (isOpened cap) then
    (start, Raise (ValueError ("Error: Could not open video file " ++ video_path)))
  else
    let fps := CAP_PROP_FPS cap in
    if fzero fps then (start, Raise (ZeroDivisionError "float division by zero"))
    else
      let frame_interval := int_of_float (fmul fps interval_seconds) in
      match scan_loop output_dir fps frame_interval (pictures cap) 0 with
      | (evs, Return extracted_frames) => (start ++ evs ++ [Release], Return extracted_frames)
      | (evs, Raise e) => (start ++ evs, Raise e)
      end.

(** Lines 137-158; [exists] is [os.path.exists(video_path)]. *)
Definition validate_video_file (exists_ : bool) (cap : VideoCapture) : bool :=
  if negb exists_ then false else isOpened cap.

(** Lines 161-190.  [duration_seconds] is the exact quotient; Python returns
    the double nearest to it. *)
Definition get_video_info (cap : VideoCapture) (video_path : string) : res video_info :=
  if negb (isOpened cap) then
    Raise (ValueError ("Could not open video file " ++ video_path))
  else
    let fps := CAP_PROP_FPS cap in
    let total_frames := int_of_float (CAP_PROP_FRAME_COUNT cap) in
    let width := int_of_float (CAP_PROP_FRAME_WIDTH cap) in
    let height := int_of_float (CAP_PROP_FRAME_HEIGHT cap) in
    if fzero fps then Raise (ZeroDivisionError "float division by zero")
    else
      Return {| fps := fps;
                total_frames := total_frames;
                duration_seconds := fdiv (float_of_int total_frames) fps;
                width := width;
                height := height;
                resolution := (str_int width ++ "x" ++ str_int height)%string |}.

End Sampler.


(** Number of [cap.read()] calls in a trace, and whether it seeks. *)
Definition reads (evs : list event) : nat :=
  List.length (filter (fun e => match e with Read => true | _ => false end) evs).
Definition seeks (evs : list event) : bool :=
  existsb (fun e => match e with Seek _ => true | _ => false end) evs.

(** The frame indices the decoder was positioned at, and the files written,
    in the order of the trace. *)
Fixpoint seek_positions (evs : list event) : list Z :=
  match evs with
  | [] => []
  | Seek i :: evs' => i :: seek_positions evs'
  | _ :: evs' => seek_positions evs'
  end.

Fixpoint written_paths (evs : list event) : list string :=
  match evs with
  | [] => []
  | Imwrite p :: evs' => p :: written_paths evs'
  | _ :: evs' => written_paths evs'
  end.

(** Whether the capture handle is still held after a run: it was opened and
    no [Release] followed. *)
Fixpoint handle_held (held : bool) (evs : list event) : bool :=
  match evs with
  | [] => held
  | Open _ :: evs' => handle_held true evs'
  | Release :: evs' => handle_held false evs'
  | _ :: evs' => handle_held held evs'
  end.

Arguments isOpened {Frame} _.
Arguments CAP_PROP_FPS {Frame} _.
Arguments CAP_PROP_FRAME_COUNT {Frame} _.
Arguments CAP_PROP_FRAME_WIDTH {Frame} _.
Arguments CAP_PROP_FRAME_HEIGHT {Frame} _.
Arguments pictures {Frame} _.
Arguments read_at {Frame} cap i.
Arguments extract_loop {Frame} imwrite cap output_dir fps todo.
Arguments kept {Frame} imwrite cap output_dir fps slot.
Arguments extract_fixed_frames {Frame} imwrite cap video_path output_dir max_frames max_duration.
Arguments extract_fixed_frames_fs {Frame} imwrite makedirs cap video_path output_dir
  max_frames max_duration.
Arguments extract_loop_with {Frame} imwrite div cap output_dir fps todo.
Arguments extract_fixed_frames_with {Frame} imwrite mul div cap video_path output_dir
  max_frames max_duration.
Arguments extract_fixed_frames_binary64 {Frame} imwrite cap video_path output_dir
  max_frames max_duration.
Arguments scan_loop {Frame} imwrite output_dir fps frame_interval remaining frame_count.
Arguments extract_frames {Frame} imwrite cap video_path output_dir interval_seconds.
Arguments readable {Frame} pics.
Arguments validate_video_file {Frame} exists_ cap.
Arguments get_video_info {Frame} cap video_path.
Arguments interval_sampled {Frame} output_dir fps slot.
Arguments interval_kept {Frame} imwrite output_dir fps frame_interval slot.

End VideoUtils.

Import VideoUtils.

(** ** The vision and text oracle (the OpenAI client) *)
Module Oracle.

(** One [chat.completions.create] request: the model, the text of the single
    user message, the image attached to it (a data URL) if any, and the
    response budget. *)
Record request : Type := {
  req_model : string;
  req_text : string;
  req_image_url : option string;
  req_max_tokens : Z
}.

(** What the callers read off a response: [choices[0].message.content] and
    [usage.total_tokens]. *)
Record response : Type := {
  content : string;
  total_tokens : Z
}.

(** The service is outside the program: its answer to a request may depend
    on how many requests were made before it.  An answer is a response or
    an exception (transport, quota, malformed response). *)
Definition service : Type := nat -> request -> res response.

(** Computations that call the oracle thread the log of requests made. *)
Definition M (A : Type) : Type := list request -> A * list request.

Definition ret {A : Type} (a : A) : M A := fun log => (a, log).

Definition bind {A B : Type} (m : M A) (k : A -> M B) : M B :=
  fun log => let '(a, log') := m log in k a log'.

(** [await client.chat.completions.create(...)] *)
Definition create (svc : service) (req : request) : M (res response) :=
  fun log => (svc (List.length log) req, log ++ [req]).

(** A [for] loop that collects one value per item, in order. *)
Fixpoint mapM {A B : Type} (f : A -> M B) (items : list A) : M (list B) :=
  match items with
  | [] => ret []
  | item :: rest =>
      bind (f item) (fun y => bind (mapM f rest) (fun ys => ret (y :: ys)))
  end.

(** The tokens of the responses given to the requests [reqs], the first of
    them being request number [n]; an exception counts for nothing. *)
Fixpoint answered_tokens (svc : service) (n : nat) (reqs : list request) : Z :=
  match reqs with
  | [] => 0
  | req :: rest =>
      match svc n req with
      | Return response => total_tokens response
      | Raise _ => 0
      end + answered_tokens svc (S n) rest
  end.

End Oracle.

Declare Scope oracle_scope.
Delimit Scope oracle_scope with oracle.
Notation "x <- m ;; k" := (Oracle.bind m (fun x => k))
  (at level 61, m at next level, right associativity) : oracle_scope.

(** ** gpt_utils.py *)
Module GptUtils.
Import Oracle.
Local Open Scope oracle_scope.

(** The dict [analyze_frame_async] returns: on success the keys [success],
    [description], [tokens_used], [model]; on failure [success], [error],
    [description].  An absent key is [None]. *)
Record analysis : Type := {
  a_success : bool;
  a_description : string;
  a_tokens_used : option Z;
  a_model : option string;
  a_error : option string
}.

(** One entry of the result list: the frame's metadata and the analysis
    spread into it. *)
Record frame_result : Type := {
  timestamp : Q;
  frame_path : string;
  frame_number : Z;
  success : bool;
  description : string;
  tokens_used : option Z;
  model : option string;
  error : option string
}.

(** The dict [generate_comprehensive_summary] returns. *)
Record summary_result : Type := {
  s_success : bool;
  s_error : option string;
  s_summary : option string;
  s_tokens_used : option Z;
  s_frames_analyzed : option Z;
  s_model : option string
}.

Section Analyzer.

(** The image files: [None] where [os.path.exists] is false, otherwise the
    outcome of reading the file and encoding it in base 64. *)
Variable files : string -> option (res string).

(** The oracle behind [self.async_client]. *)
Variable svc : service.

(** The text of [FRAME_ANALYSIS_PROMPT] (lines 9-25) and of the summary
    prompt (lines 301-336) as a function of what is interpolated into it. *)
Variable FRAME_ANALYSIS_PROMPT : string.
Variable summary_prompt : VideoUtils.video_info -> list string -> string.

(** Lines 48-62 *)
Definition encode_image_to_base64 (image_path : string) : res string :=
  match files image_path with
  | None => Raise (FileNotFoundError ("Image file not found: " ++ image_path))
  | Some r => r
  end.

(** Lines 215-220: the [except Exception] handler. *)
Definition analysis_failed (e : exn) : analysis :=
  {| a_success := false;
     a_description := "Error analyzing frame: " ++ str_exn e;
     a_tokens_used := None; a_model := None;
     a_error := Some (str_exn e) |}.

(** Lines 183-203: the request for one frame. *)
Definition frame_request (base64_image : string) : request :=
  {| req_model := "gpt-4o";
     req_text := FRAME_ANALYSIS_PROMPT;
     req_image_url := Some ("data:image/jpeg;base64," ++ base64_image)%string;
     req_max_tokens := 1000 |}.

(** Lines 208-213: the dict returned on success. *)
Definition analysis_done (response : response) : analysis :=
  {| a_success := true;
     a_description := content response;
     a_tokens_used := Some (total_tokens response);
     a_model := Some "gpt-4o"%string;
     a_error := None |}.

(** Lines 164-220, called with the default prompt. *)
Definition analyze_frame_async (image_path : string) : M analysis :=
  match encode_image_to_base64 image_path with
  | Raise e => ret (analysis_failed e)
  | Return base64_image =>
      r <- create svc (frame_request base64_image) ;;
      match r with
      | Raise e => ret (analysis_failed e)
      | Return response => ret (analysis_done response)
      end
  end.

(** Lines 255-260: [{timestamp, frame_path, frame_number, **analysis_result}] *)
Definition with_metadata (ts : Q) (path : string) (frame_idx : Z) (a : analysis)
    : frame_result :=
  {| timestamp := ts; frame_path := path; frame_number := frame_idx + 1;
     success := a_success a; description := a_description a;
     tokens_used := a_tokens_used a; model := a_model a; error := a_error a |}.

(** Lines 239-262: one batch.  The tasks of a batch are started in order, so
    their requests are issued in the order of the frames; [asyncio.gather]
    returns the results in the order of its arguments. *)
Definition analyze_batch (i : Z) (batch : list (Q * string)) : M (list frame_result) :=
  let batch_tasks := map (fun '(j, (ts, path)) => (ts, path, i + j)) (enumerate batch) in
  batch_results <- mapM (fun '(_, path, _) => analyze_frame_async path) batch_tasks ;;
  ret (map (fun '((ts, path, frame_idx), analysis_result) =>
              with_metadata ts path frame_idx analysis_result)
         (combine batch_tasks batch_results)).

(** Lines 238-274: the loop over the batch starts. *)
Fixpoint batches_loop (frame_data : list (Q * string)) (batch_size : Z)
    (starts : list Z) : M (list frame_result) :=
  match starts with
  | [] => ret []
  | i :: rest =>
      here <- analyze_batch i (slice frame_data i (i + batch_size)) ;;
      later <- batches_loop frame_data batch_size rest ;;
      ret (here ++ later)
  end.

(** Lines 222-274, without a progress callback. *)
Definition analyze_multiple_frames_async (frame_data : list (Q * string))
    (batch_size : Z) : M (res (list frame_result)) :=
  let total_frames := Z.of_nat (List.length frame_data) in
  match range_step total_frames batch_size with
  | Raise e => ret (Raise e)
  | Return starts =>
      results <- batches_loop frame_data batch_size starts ;;
      ret (Return results)
  end.

(** The scheduler read frame by frame: the analysis of a frame whose request,
    if it makes one, is the [n]-th of the log; the requests the frames make;
    and the results for frames numbered from [start]. *)
Definition analysis_of (image_path : string) (n : nat) : analysis :=
  match encode_image_to_base64 image_path with
  | Raise e => analysis_failed e
  | Return base64_image =>
      match svc n (frame_request base64_image) with
      | Raise e => analysis_failed e
      | Return response => analysis_done response
      end
  end.

Definition requests_of (image_path : string) : list request :=
  match encode_image_to_base64 image_path with
  | Raise _ => []
  | Return base64_image => [frame_request base64_image]
  end.

Fixpoint results_from (start : Z) (n : nat) (frame_data : list (Q * string))
    : list frame_result :=
  match frame_data with
  | [] => []
  | (ts, path) :: rest =>
      with_metadata ts path start (analysis_of path n)
        :: results_from (start + 1) (n + List.length (requests_of path)) rest
  end.

(** The number of requests in the log when frame [k] of [frame_data] is
    analysed, the log holding [n] requests at the start. *)
Definition call_number (n : nat) (frame_data : list (Q * string)) (k : nat) : nat :=
  n + List.length (flat_map (fun f => requests_of (snd f)) (firstn k frame_data)).

(** A result that records the exception [e]: lines 216-220. *)
Definition records_failure (r : frame_result) (e : exn) : Prop :=
  success r = false /\ error r = Some (str_exn e) /\
  description r = ("Error analyzing frame: " ++ str_exn e)%string /\
  tokens_used r = None.

(** A result that carries the oracle's response: lines 208-213. *)
Definition records_response (r : frame_result) (response : response) : Prop :=
  success r = true /\ error r = None /\
  description r = content response /\
  tokens_used r = Some (total_tokens response).

(** Line 289 *)
Definition description_line (r : frame_result) : string :=
  ("Frame " ++ str_int (frame_number r) ++ " (" ++ fmt_1f (timestamp r) ++ "s): "
     ++ description r)%string.

(** Lines 276-366 *)
Definition generate_comprehensive_summary (frame_analyses : list frame_result)
    (info : VideoUtils.video_info) : M summary_result :=
  let successful_descriptions :=
    map description_line (filter success frame_analyses) in
  match successful_descriptions with
  | [] =>
      ret {| s_success := false;
             s_error := Some "No successful frame analyses to summarize"%string;
             s_summary := None; s_tokens_used := None;
             s_frames_analyzed := None; s_model := None |}
  | _ :: _ =>
      r <- create svc {| req_model := "gpt-4o";
                         req_text := summary_prompt info successful_descriptions;
                         req_image_url := None;
                         req_max_tokens := 1500 |} ;;
      match r with
      | Return response =>
          ret {| s_success := true; s_error := None;
                 s_summary := Some (content response);
                 s_tokens_used := Some (total_tokens response);
                 s_frames_analyzed :=
                   Some (Z.of_nat (List.length successful_descriptions));
                 s_model := Some "gpt-4o"%string |}
      | Raise e =>
          ret {| s_success := false; s_error := Some (str_exn e);
                 s_summary := Some ("Error generating summary: " ++ str_exn e)%string;
                 s_tokens_used := None; s_frames_analyzed := None; s_model := None |}
      end
  end.

(** Line 80 and line 180: [custom_prompt if custom_prompt else
    FRAME_ANALYSIS_PROMPT]; an empty string is falsy. *)
Definition chosen_prompt (custom_prompt : option string) : string :=
  match custom_prompt with
  | Some p => if String.eqb p "" then FRAME_ANALYSIS_PROMPT else p
  | None => FRAME_ANALYSIS_PROMPT
  end.

(** Lines 64-120: the synchronous analyzer, with its [custom_prompt]
    argument.  [self.client] and [self.async_client] reach the same service. *)
Definition analyze_frame (image_path : string) (custom_prompt : option string)
    : M analysis :=
  match encode_image_to_base64 image_path with
  | Raise e => ret (analysis_failed e)
  | Return base64_image =>
      let prompt := chosen_prompt custom_prompt in
      r <- create svc {| req_model := "gpt-4o";
                         req_text := prompt;
                         req_image_url :=
                           Some ("data:image/jpeg;base64," ++ base64_image)%string;
                         req_max_tokens := 1000 |} ;;
      match r with
      | Raise e => ret (analysis_failed e)
      | Return response => ret (analysis_done response)
      end
  end.

(** A call [progress_callback(current, total, result)]. *)
Definition progress_call : Type := (Z * Z * frame_result)%type.

(** Lines 136-160: the sequential loop over [enumerate(frame_data)]; gives
    the results and the calls made to the progress callback when one is
    passed. *)
Fixpoint analyze_frames_loop (total_frames : Z) (todo : list (Z * (Q * string)))
    : M (list frame_result * list progress_call) :=
  match todo with
  | [] => ret ([], [])
  | (i, (ts, path)) :: rest =>
      analysis_result <- analyze_frame path None ;;
      let result := with_metadata ts path i analysis_result in
      later <- analyze_frames_loop total_frames rest ;;
      ret (result :: fst later, (i + 1, total_frames, result) :: snd later)
  end.

(** Lines 122-162 *)
Definition analyze_multiple_frames (frame_data : list (Q * string))
    : M (list frame_result * list progress_call) :=
  analyze_frames_loop (Z.of_nat (List.length frame_data)) (enumerate frame_data).

(** Lines 239-272 with a progress callback: after the batch is gathered the
    callback is called once per result, in the order of the batch. *)
Definition analyze_batch_cb (total_frames i : Z) (batch : list (Q * string))
    : M (list frame_result * list progress_call) :=
  let batch_tasks := map (fun '(j, (ts, path)) => (ts, path, i + j)) (enumerate batch) in
  batch_results <- mapM (fun '(_, path, _) => analyze_frame_async path) batch_tasks ;;
  let results :=
    map (fun '((ts, path, frame_idx), analysis_result) =>
           with_metadata ts path frame_idx analysis_result)
      (combine batch_tasks batch_results) in
  ret (results,
       map (fun '((_, _, frame_idx), result) => (frame_idx + 1, total_frames, result))
         (combine batch_tasks results)).

Fixpoint batches_loop_cb (frame_data : list (Q * string)) (batch_size : Z)
    (starts : list Z) : M (list frame_result * list progress_call) :=
  match starts with
  | [] => ret ([], [])
  | i :: rest =>
      here <- analyze_batch_cb (Z.of_nat (List.length frame_data)) i
                (slice frame_data i (i + batch_size)) ;;
      later <- batches_loop_cb frame_data batch_size rest ;;
      ret (fst here ++ fst later, snd here ++ snd later)
  end.

(** Lines 222-274 with a progress callback. *)
Definition analyze_multiple_frames_async_cb (frame_data : list (Q * string))
    (batch_size : Z) : M (res (list frame_result * list progress_call)) :=
  let total_frames := Z.of_nat (List.length frame_data) in
  match range_step total_frames batch_size with
  | Raise e => ret (Raise e)
  | Return starts =>
      out <- batches_loop_cb frame_data batch_size starts ;;
      ret (Return out)
  end.

End Analyzer.

End GptUtils.

(** ** youtube_utils.py *)
Module YoutubeUtils.

(** The dict [get_video_info] returns (lines 189-197). *)
Record yt_info : Type := {
  id : string;
  title : string;
  duration : option Z;
  uploader : option string;
  view_count : option Z;
  upload_date : option string;
  info_url : string
}.

(** One entry of the download results (lines 282-300): the keys [error] and
    [duration_limited_to] may be absent. *)
Record download_result : Type := {
  url : string;
  success : bool;
  error : option string;
  video_path : option string;
  info : option yt_info;
  duration_limited_to : option Z
}.

(** A download result is a success with a file and metadata, or a failure
    with an error message. *)
Definition well_formed (r : download_result) : Prop :=
  if success r
  then error r = None /\ video_path r <> None /\ info r <> None
  else video_path r = None /\
       (error r = Some "Failed to get video info"%string \/
        error r = Some "Download failed"%string).

(** [[\w-]] on ASCII text: letters, digits, underscore and hyphen. *)
Definition is_id_char (c : ascii) : bool :=
  let n := nat_of_ascii c in
  ((48 <=? n) && (n <=? 57) || (65 <=? n) && (n <=? 90) ||
   (97 <=? n) && (n <=? 122) || (n =? 95) || (n =? 45))%nat.

(** An optional group [(?:pre)?] at the head of a pattern. *)
Definition skip_optional (pre s : string) : string :=
  match strip_prefix pre s with
  | Some rest => rest
  | None => s
  end.

(** [re.match] of [(?:https?://)?(?:www\.)?] followed by the literal [lit]
    and [[\w-]+].  Each optional group starts with a character the text after
    it cannot start with, so taking a group whenever it matches loses no
    match. *)
Definition matches_pattern (lit url : string) : bool :=
  let after_scheme :=
    match strip_prefix "https://" url with
    | Some rest => rest
    | None => skip_optional "http://" url
    end in
  match strip_prefix lit (skip_optional "www." after_scheme) with
  | Some (String c _) => is_id_char c
  | _ => false
  end.

(** Lines 127-145 *)
Definition is_valid_youtube_url (url : string) : bool :=
  existsb (fun lit => matches_pattern lit url)
    ["youtube.com/watch?v="; "youtu.be/"; "youtube.com/embed/"; "youtube.com/v/";
     "youtube.com/shorts/"]%string.

(** Lines 147-166 *)
Definition validate_urls (urls : list string) : list string * list string :=
  (filter is_valid_youtube_url urls,
   filter (fun u => negb (is_valid_youtube_url u)) urls).

(** The longest prefix of [s] made of [[\w-]] characters: what a greedy
    [[\w-]{n,}] takes. *)
Fixpoint id_run (s : string) : string :=
  match s with
  | String c s' => if is_id_char c then String c (id_run s') else EmptyString
  | EmptyString => EmptyString
  end.

(** A match of [lit([\w-]{6,})] at the start of [s], for the first literal
    of [lits] that gives one: its group 1. *)
Fixpoint match_here (lits : list string) (s : string) : option string :=
  match lits with
  | [] => None
  | lit :: more =>
      match strip_prefix lit s with
      | Some rest =>
          if (6 <=? String.length (id_run rest))%nat then Some (id_run rest)
          else match_here more s
      | None => match_here more s
      end
  end.

(** [re.search]: group 1 of the leftmost match. *)
Fixpoint search_id (lits : list string) (s : string) : option string :=
  match match_here lits s with
  | Some vid => Some vid
  | None =>
      match s with
      | String _ s' => search_id lits s'
      | EmptyString => None
      end
  end.

(** Lines 50-73: the patterns are tried in this order. *)
Definition extract_video_id (url : string) : option string :=
  match search_id ["?v="; "&v="]%string url with
  | Some vid => Some vid
  | None =>
      match search_id ["youtu.be/"]%string url with
      | Some vid => Some vid
      | None =>
          match search_id ["/shorts/"]%string url with
          | Some vid => Some vid
          | None =>
              match search_id ["/embed/"]%string url with
              | Some vid => Some vid
              | None => search_id ["/v/"]%string url
              end
          end
      end
  end.

(** Lines 75-81 *)
Definition normalize_to_watch_url (url : string) : string :=
  match extract_video_id url with
  | Some vid => ("https://www.youtube.com/watch?v=" ++ vid)%string
  | None => url
  end.

(** [n] characters of [[0-9A-Za-z_-]] at the head of [s]: what
    [[0-9A-Za-z_-]{n}] takes. *)
Fixpoint id_take (n : nat) (s : string) : option string :=
  match n, s with
  | O, _ => Some EmptyString
  | S n', String c s' =>
      if is_id_char c then option_map (String c) (id_take n' s') else None
  | S _, EmptyString => None
  end.

(** A match of [(?:lit1|lit2|...)([0-9A-Za-z_-]{11})] at the start of [s]:
    its group 1. *)
Fixpoint match_exact (lits : list string) (s : string) : option string :=
  match lits with
  | [] => None
  | lit :: more =>
      match strip_prefix lit s with
      | Some rest =>
          match id_take 11 rest with
          | Some vid => Some vid
          | None => match_exact more s
          end
      | None => match_exact more s
      end
  end.

Fixpoint search_exact (lits : list string) (s : string) : option string :=
  match match_exact lits s with
  | Some vid => Some vid
  | None =>
      match s with
      | String _ s' => search_exact lits s'
      | EmptyString => None
      end
  end.

(** Lines 343-352: the first pattern that is found decides. *)
Fixpoint first_found (patterns : list (list string)) (url : string) : option string :=
  match patterns with
  | [] => None
  | lits :: rest =>
      match search_exact lits url with
      | Some vid => Some vid
      | None => first_found rest url
      end
  end.

(** Lines 330-352.  The [.*] that ends the first pattern matches whatever
    follows and does not change group 1. *)
Definition extract_video_id_from_url (url : string) : option string :=
  first_found [["v="; "/"]; ["embed/"]; ["youtu.be/"]; ["shorts/"]]%string url.

Section Downloader.

(** The media retrieval behind [yt_dlp]: the metadata found for a URL
    ([None] when every attempt raised, lines 168-202) and the file a download
    leaves ([None] on failure, lines 204-247). *)
Variable get_video_info : string -> option yt_info.
Variable download_video : string -> Z -> option string.

(** Lines 279-305: the entry for one valid URL. *)
Definition download_one (url : string) (duration_seconds : Z) : download_result :=
  match get_video_info url with
  | None =>
      {| url := url; success := false; error := Some "Failed to get video info"%string;
         video_path := None; info := None; duration_limited_to := None |}
  | Some info =>
      let video_path := download_video url duration_seconds in
      {| url := url;
         success := match video_path with Some _ => true | None => false end;
         error := match video_path with
                  | Some _ => None
                  | None => Some "Download failed"%string
                  end;
         video_path := video_path;
         info := Some info;
         duration_limited_to := Some duration_seconds |}
  end.

(** Lines 249-315 *)
Definition download_multiple_videos (urls : list string) (duration_seconds max_videos : Z)
    : list download_result :=
  let '(valid_urls, invalid_urls) := validate_urls urls in
  let valid_urls :=
    if Z.of_nat (List.length valid_urls) >? max_videos
    then slice_to valid_urls max_videos else valid_urls in
  map (fun url => download_one url duration_seconds) valid_urls.

End Downloader.

End YoutubeUtils.

(** ** similarity_analyzer.py *)
Module SimilarityAnalyzer.
Import Oracle.
Local Open Scope oracle_scope.

(** [breakdown_data] as [batch_processor.process_single_video] builds it
    (lines 222-240), without the time of generation. *)
Record processing_settings : Type := {
  max_frames_per_video : Z;
  ps_duration_seconds : Z;
  total_frames_extracted : Z;
  successful_analyses : Z;
  ps_batch_size : Z;
  model_used : string;
  ps_total_tokens_used : Z
}.

Record breakdown : Type := {
  video_file : string;
  video_info : VideoUtils.video_info;
  youtube_info : YoutubeUtils.yt_info;
  settings : processing_settings;
  frame_analyses : list GptUtils.frame_result;
  video_summary : GptUtils.summary_result
}.

(** A video result: the download result spread into it, and the keys
    [process_single_video] adds (absent ones are [None]). *)
Record video_result : Type := {
  download : YoutubeUtils.download_result;
  breakdown_success : option bool;
  breakdown_error : option string;
  breakdown_data : option breakdown;
  breakdown_path : option string;
  frames_extracted : option Z;
  frames_analyzed : option Z;
  vr_total_tokens : option Z;
  vr_video_index : option Z
}.

(** An entry of [prepare_video_summaries] (lines 56-64). *)
Record video_summary_info : Type := {
  video_index : Z;
  url : string;
  title : string;
  duration_analyzed : Q;
  n_frames_analyzed : Z;
  summary : string;
  frame_descriptions : list (Q * string)
}.

(** An entry of [pairwise_comparisons] (lines 312-329). *)
Record comparison : Type := {
  video1_index : Z;
  video2_index : Z;
  video1_title : string;
  video2_title : string;
  comparison_text : string;
  tokens_used : Z
}.

(** The dict of [analyze_similarities_async]. *)
Record similarity_result : Type := {
  sr_success : bool;
  sr_error : option string;
  sr_analysis : option string;
  sr_tokens_used : option Z;
  sr_videos_analyzed : option Z;
  sr_videos_compared : option Z;
  sr_video_titles : option (list string);
  sr_model : option string
}.

(** The dict of [generate_pairwise_comparisons]. *)
Record pairwise_result : Type := {
  pr_success : bool;
  pr_error : option string;
  pairwise_comparisons : list comparison;
  total_pairs : option Z;
  total_tokens_used : option Z;
  pr_videos_analyzed : option Z
}.

(** Lines 46-74: the entry for the video at position [i], if its breakdown
    succeeded. *)
Definition prepare_one (i : Z) (r : video_result) : option video_summary_info :=
  match breakdown_success r with
  | Some true =>
      let frames :=
        match breakdown_data r with Some b => frame_analyses b | None => [] end in
      Some
        {| video_index := i + 1;
           url := YoutubeUtils.url (download r);
           title := match YoutubeUtils.info (download r) with
                    | Some info => YoutubeUtils.title info
                    | None => "Unknown Title"
                    end;
           duration_analyzed :=
             match breakdown_data r with
             | Some b => VideoUtils.duration_seconds (video_info b)
             | None => 0
             end;
           n_frames_analyzed := Z.of_nat (List.length frames);
           summary :=
             match breakdown_data r with
             | Some b =>
                 if GptUtils.s_success (video_summary b)
                 then match GptUtils.s_summary (video_summary b) with
                      | Some text => text
                      | None => ""
                      end
                 else ""
             | None => ""
             end;
           frame_descriptions :=
             map (fun f => (GptUtils.timestamp f, GptUtils.description f))
               (filter GptUtils.success frames) |}
  | _ => None
  end.

(** The videos the similarity engine keeps: [breakdown_success] is true. *)
Definition succeeded (r : video_result) : bool :=
  match breakdown_success r with
  | Some true => true
  | _ => false
  end.

(** A video result is a success, or a failure with an error message. *)
Definition settled (r : video_result) : Prop :=
  succeeded r = true \/
  (breakdown_success r = Some false /\ exists msg, breakdown_error r = Some msg).

(** Lines 34-76 *)
Fixpoint prepare_from (i : Z) (video_results : list video_result)
    : list video_summary_info :=
  match video_results with
  | [] => []
  | r :: rest =>
      match prepare_one i r with
      | Some s => s :: prepare_from (i + 1) rest
      | None => prepare_from (i + 1) rest
      end
  end.

Definition prepare_video_summaries (video_results : list video_result)
    : list video_summary_info :=
  prepare_from 0 video_results.

(** Lines 280-283: the pairs [(i, summaries[i]), (j, summaries[j])] of the
    nested loops [for i in range(n): for j in range(i + 1, n)], in the order
    the loops visit them. *)
Fixpoint pairs_from (i : Z) (summaries : list video_summary_info)
    : list ((Z * video_summary_info) * (Z * video_summary_info)) :=
  match summaries with
  | [] => []
  | video1 :: rest =>
      map (fun jv => ((i, video1), jv)) (enumerate_from (i + 1) rest)
        ++ pairs_from (i + 1) rest
  end.

Section Analyzer.

Variable svc : service.

(** The text of the prompts (lines 184-257 and 285-301) as functions of the
    summaries interpolated into them. *)
Variable create_similarity_prompt : list video_summary_info -> string.
Variable pair_prompt : video_summary_info -> video_summary_info -> string.

(** Lines 78-129 *)
Definition analyze_similarities_async (video_results : list video_result)
    : M similarity_result :=
  let summaries := prepare_video_summaries video_results in
  if (List.length summaries <? 2)%nat then
    ret {| sr_success := false;
           sr_error := Some "Need at least 2 successfully analyzed videos for comparison"%string;
           sr_analysis := None; sr_tokens_used := None;
           sr_videos_analyzed := Some (Z.of_nat (List.length summaries));
           sr_videos_compared := None; sr_video_titles := None; sr_model := None |}
  else
    r <- create svc {| req_model := "gpt-4o";
                       req_text := create_similarity_prompt summaries;
                       req_image_url := None;
                       req_max_tokens := 2000 |} ;;
    match r with
    | Return response =>
        ret {| sr_success := true; sr_error := None;
               sr_analysis := Some (content response);
               sr_tokens_used := Some (total_tokens response);
               sr_videos_analyzed := None;
               sr_videos_compared := Some (Z.of_nat (List.length summaries));
               sr_video_titles := Some (map title summaries);
               sr_model := Some "gpt-4o"%string |}
    | Raise e =>
        ret {| sr_success := false; sr_error := Some (str_exn e);
               sr_analysis := None; sr_tokens_used := None;
               sr_videos_analyzed := None;
               sr_videos_compared := Some (Z.of_nat (List.length summaries));
               sr_video_titles := None; sr_model := None |}
    end.

(** Lines 285-308: the request for one pair. *)
Definition pair_request (video1 video2 : video_summary_info) : request :=
  {| req_model := "gpt-4o";
     req_text := pair_prompt video1 video2;
     req_image_url := None;
     req_max_tokens := 300 |}.

(** Lines 310-329: the entry for one pair, from the oracle's answer. *)
Definition comparison_of (p : (Z * video_summary_info) * (Z * video_summary_info))
    (answer : res response) : comparison :=
  let '((i, video1), (j, video2)) := p in
  {| video1_index := i + 1;
     video2_index := j + 1;
     video1_title := title video1;
     video2_title := title video2;
     comparison_text :=
       match answer with
       | Return response => content response
       | Raise e => ("Error: " ++ str_exn e)%string
       end;
     tokens_used :=
       match answer with
       | Return response => total_tokens response
       | Raise e => 0
       end |}.

(** Lines 282-329: the body of the inner loop. *)
Definition compare_pair (p : (Z * video_summary_info) * (Z * video_summary_info))
    : M comparison :=
  r <- create svc (pair_request (snd (fst p)) (snd (snd p))) ;;
  ret (comparison_of p r).

(** The loop read pair by pair: the entries for the pairs [ps] when the log
    holds [n] requests before the first of them. *)
Fixpoint comparisons_from (n : nat)
    (ps : list ((Z * video_summary_info) * (Z * video_summary_info))) : list comparison :=
  match ps with
  | [] => []
  | p :: rest =>
      comparison_of p (svc n (pair_request (snd (fst p)) (snd (snd p))))
        :: comparisons_from (S n) rest
  end.

(** Lines 259-339 *)
Definition generate_pairwise_comparisons (video_results : list video_result)
    : M pairwise_result :=
  let summaries := prepare_video_summaries video_results in
  if (List.length summaries <? 2)%nat then
    ret {| pr_success := false;
           pr_error := Some "Need at least 2 successfully analyzed videos for comparison"%string;
           pairwise_comparisons := []; total_pairs := None;
           total_tokens_used := None; pr_videos_analyzed := None |}
  else
    comparisons <- mapM compare_pair (pairs_from 0 summaries) ;;
    ret {| pr_success := true; pr_error := None;
           pairwise_comparisons := comparisons;
           total_pairs := Some (Z.of_nat (List.length comparisons));
           total_tokens_used := Some (sum (map tokens_used comparisons));
           pr_videos_analyzed := Some (Z.of_nat (List.length summaries)) |}.

End Analyzer.

End SimilarityAnalyzer.

(** ** batch_processor.py *)
Module BatchProcessor.
Import Oracle YoutubeUtils SimilarityAnalyzer.
Local Open Scope oracle_scope.

(** What [analyze_video_similarities] returns: the combined dict
    (lines 291-298), or the failure dict of its handler (lines 308-311). *)
Record similarity_analysis : Type := {
  comprehensive_analysis : option similarity_result;
  pairwise : option pairwise_result;
  sa_total_tokens_used : option Z;
  sa_success : option bool;
  sa_error : option string
}.

(** The final report (lines 339-361), without the clock readings of its
    metadata. *)
Record report : Type := {
  total_urls_provided : Z;
  successful_downloads : Z;
  n_successful_analyses : Z;
  sum_frames_extracted : Z;
  sum_frames_analyzed : Z;
  sum_tokens_used : Z;
  estimated_cost_usd : Q;
  download_results : list download_result;
  video_analyses : list video_result;
  similarity : similarity_analysis;
  video_titles : list string
}.

(** What [process_youtube_urls] returns: the failure dict of lines 92-96, or
    the final report. *)
Inductive batch_outcome : Type :=
| NoDownloads (error : string) (download_results : list download_result)
| Done (final_report : report).

Section Processor.

(** The collaborators: the downloader, the file system and decoder, the
    image writer, the image files and the oracle, the prompt texts, and the
    writer of JSON files ([Some e] when writing raises [e]).  [makedirs path]
    is [Some e] when [os.makedirs(path, exist_ok=True)] raises [e]. *)
Variable get_video_info : string -> option yt_info.
Variable download_video : string -> Z -> option string.
Variable Frame : Type.
Variable path_exists : string -> bool.
Variable makedirs : string -> option exn.
Variable VideoCapture : string -> VideoUtils.VideoCapture Frame.
Variable imwrite : string -> Frame -> bool.
Variable files : string -> option (res string).
Variable svc : service.
Variable FRAME_ANALYSIS_PROMPT : string.
Variable summary_prompt : VideoUtils.video_info -> list string -> string.
Variable create_similarity_prompt : list video_summary_info -> string.
Variable pair_prompt : video_summary_info -> video_summary_info -> string.
Variable write_json : string -> option exn.

(** [self.output_dir] and the directories of lines 51-54. *)
Variable output_dir : string.
Definition frames_dir : string := os_path_join output_dir "frames".
Definition breakdowns_dir : string := os_path_join output_dir "individual_breakdowns".
Definition similarity_dir : string := os_path_join output_dir "similarity_analysis".

(** [{**download_result, 'breakdown_success': False, 'breakdown_error': msg}] *)
Definition breakdown_failed (d : download_result) (msg : string) : video_result :=
  {| download := d; breakdown_success := Some false; breakdown_error := Some msg;
     breakdown_data := None; breakdown_path := None; frames_extracted := None;
     frames_analyzed := None; vr_total_tokens := None; vr_video_index := None |}.

(** Lines 216-219 *)
Definition tokens_of_frames (frame_analyses : list GptUtils.frame_result) : Z :=
  sum (map (fun r => match GptUtils.tokens_used r with Some t => t | None => 0 end)
         (filter GptUtils.success frame_analyses)).

Definition tokens_of_summary (video_summary : GptUtils.summary_result) : Z :=
  if GptUtils.s_success video_summary
  then match GptUtils.s_tokens_used video_summary with Some t => t | None => 0 end
  else 0.

(** Lines 145-269.  Every exception raised in the body is caught by the
    handler of lines 263-269 and becomes a failed result.  Line 182 creates
    the frame directory and line 20 of video_utils.py creates it again:
    [makedirs] answers by the path, so the second call succeeds when the
    first did. *)
Definition process_single_video (d : download_result)
    (duration_seconds max_frames_per_video batch_size video_index : Z)
    : M video_result :=
  match YoutubeUtils.video_path d with
  | None =>
      ret (breakdown_failed d
             "stat: path should be string, bytes, os.PathLike or integer, not NoneType")
  | Some video_path =>
      let cap := VideoCapture video_path in
      if negb (VideoUtils.validate_video_file (path_exists video_path) cap) then
        ret (breakdown_failed d "Video file validation failed")
      else
        match VideoUtils.get_video_info cap video_path with
        | Raise e => ret (breakdown_failed d (str_exn e))
        | Return detailed_info =>
            match YoutubeUtils.info d with
            | None => ret (breakdown_failed d "'NoneType' object is not subscriptable")
            | Some video_info =>
                let video_id := YoutubeUtils.id video_info in
                let video_frames_dir :=
                  os_path_join frames_dir
                    ("video_" ++ str_int video_index ++ "_" ++ video_id) in
                match makedirs video_frames_dir with
                | Some e => ret (breakdown_failed d (str_exn e))
                | None =>
                match snd (VideoUtils.extract_fixed_frames_fs imwrite makedirs cap
                             video_path video_frames_dir max_frames_per_video
                             (float_of_int duration_seconds)) with
                | Raise e => ret (breakdown_failed d (str_exn e))
                | Return [] => ret (breakdown_failed d "No frames were extracted")
                | Return ((_ :: _) as extracted_frames) =>
                    analysed <- GptUtils.analyze_multiple_frames_async files svc
                                  FRAME_ANALYSIS_PROMPT extracted_frames batch_size ;;
                    match analysed with
                    | Raise e => ret (breakdown_failed d (str_exn e))
                    | Return frame_analyses =>
                        video_summary <- GptUtils.generate_comprehensive_summary svc
                                           summary_prompt frame_analyses detailed_info ;;
                        let successful_analyses :=
                          Z.of_nat (List.length (filter GptUtils.success frame_analyses)) in
                        let total_tokens :=
                          tokens_of_frames frame_analyses + tokens_of_summary video_summary in
                        let breakdown_data :=
                          {| video_file := video_path;
                             video_info := detailed_info;
                             youtube_info := video_info;
                             settings :=
                               {| max_frames_per_video := max_frames_per_video;
                                  ps_duration_seconds := duration_seconds;
                                  total_frames_extracted :=
                                    Z.of_nat (List.length extracted_frames);
                                  successful_analyses := successful_analyses;
                                  ps_batch_size := batch_size;
                                  model_used := "gpt-4o";
                                  ps_total_tokens_used := total_tokens |};
                             frame_analyses := frame_analyses;
                             video_summary := video_summary |} in
                        let breakdown_path :=
                          os_path_join breakdowns_dir
                            ("video_" ++ str_int video_index ++ "_" ++ video_id
                               ++ "_breakdown.json") in
                        match write_json breakdown_path with
                        | Some e => ret (breakdown_failed d (str_exn e))
                        | None =>
                            ret {| download := d;
                                   breakdown_success := Some true;
                                   breakdown_error := None;
                                   breakdown_data := Some breakdown_data;
                                   breakdown_path := Some breakdown_path;
                                   frames_extracted :=
                                     Some (Z.of_nat (List.length extracted_frames));
                                   frames_analyzed := Some successful_analyses;
                                   vr_total_tokens := Some total_tokens;
                                   vr_video_index := Some video_index |}
                        end
                    end
                end
                end
            end
        end
  end.

(** Lines 271-311 *)
Definition analyze_video_similarities (video_results : list video_result)
    : M similarity_analysis :=
  similarity_result <- analyze_similarities_async svc create_similarity_prompt
                         video_results ;;
  pairwise_result <- generate_pairwise_comparisons svc pair_prompt video_results ;;
  match write_json (os_path_join similarity_dir "similarity_analysis.json") with
  | Some e =>
      ret {| comprehensive_analysis := None; pairwise := None;
             sa_total_tokens_used := None;
             sa_success := Some false; sa_error := Some (str_exn e) |}
  | None =>
      ret {| comprehensive_analysis := Some similarity_result;
             pairwise := Some pairwise_result;
             sa_total_tokens_used :=
               Some (match sr_tokens_used similarity_result with Some t => t | None => 0 end
                     + match total_tokens_used pairwise_result with
                       | Some t => t
                       | None => 0
                       end);
             sa_success := None; sa_error := None |}
  end.

(** [sum(r.get(key, 0) for r in successful_videos)] *)
Definition sum_of (key : video_result -> option Z) (l : list video_result) : Z :=
  sum (map (fun r => match key r with Some n => n | None => 0 end) l).

(** Lines 313-363 *)
Definition generate_final_report (download_results : list download_result)
    (video_results : list video_result) (similarity_result : similarity_analysis)
    : report :=
  let successful_videos := filter succeeded video_results in
  let total_tokens_used :=
    sum_of vr_total_tokens successful_videos
    + match sa_total_tokens_used similarity_result with Some t => t | None => 0 end in
  {| total_urls_provided := Z.of_nat (List.length download_results);
     successful_downloads :=
       Z.of_nat (List.length (filter YoutubeUtils.success download_results));
     n_successful_analyses := Z.of_nat (List.length successful_videos);
     sum_frames_extracted := sum_of frames_extracted successful_videos;
     sum_frames_analyzed := sum_of frames_analyzed successful_videos;
     sum_tokens_used := total_tokens_used;
     estimated_cost_usd := fmul (float_of_int total_tokens_used) (15 # 1000000);
     download_results := download_results;
     video_analyses := video_results;
     similarity := similarity_result;
     video_titles :=
       map (fun r => match YoutubeUtils.info (download r) with
                     | Some info => YoutubeUtils.title info
                     | None => "Unknown"%string
                     end) successful_videos |}.

(** Lines 59-143 *)
Definition process_youtube_urls (urls : list string)
    (duration_seconds max_videos max_frames_per_video batch_size : Z)
    : M (res batch_outcome) :=
  let download_results :=
    download_multiple_videos get_video_info download_video urls duration_seconds
      max_videos in
  let successful_downloads := filter YoutubeUtils.success download_results in
  match successful_downloads with
  | [] => ret (Return (NoDownloads "No videos were successfully downloaded" download_results))
  | _ :: _ =>
      video_results <-
        mapM (fun '(i, download_result) =>
                process_single_video download_result duration_seconds
                  max_frames_per_video batch_size i)
          (enumerate_from 1 successful_downloads) ;;
      similarity_result <- analyze_video_similarities video_results ;;
      let final_report :=
        generate_final_report download_results video_results similarity_result in
      match write_json (os_path_join output_dir "batch_analysis_report.json") with
      | Some e => ret (Raise e)
      | None => ret (Return (Done final_report))
      end
  end.

End Processor.

End BatchProcessor.

(** ** youtube_batch_analyzer.py *)
Module YoutubeBatchAnalyzer.

(** The ASCII characters [str.strip()] removes: tab, line feed, vertical
    tab, form feed, carriage return, the separators 28 to 31 and the space. *)
Definition is_space (c : ascii) : bool :=
  let n := nat_of_ascii c in
  ((9 <=? n) && (n <=? 13) || (28 <=? n) && (n <=? 31) || (n =? 32))%nat.

Fixpoint lstrip (s : string) : string :=
  match s with
  | String c s' => if is_space c then lstrip s' else s
  | EmptyString => EmptyString
  end.

Fixpoint rstrip (s : string) : string :=
  match s with
  | String c s' =>
      match rstrip s' with
      | EmptyString => if is_space c then EmptyString else String c EmptyString
      | kept => String c kept
      end
  | EmptyString => EmptyString
  end.

(** A string that does not start with white space. *)
Definition head_kept (s : string) : Prop :=
  match s with
  | String c _ => is_space c = false
  | EmptyString => True
  end.

(** [line.strip()] *)
Definition strip (s : string) : string := rstrip (lstrip s).

(** Line 39: [url and not url.startswith('#')] *)
Definition is_url_line (url : string) : bool :=
  (negb (String.eqb url "") && negb (starts_with_char "#" url))%bool.

(** Lines 25-46.  [file] is what opening and reading the file gives: the
    lines of [f.readlines()], or the exception raised; both handlers return
    the empty list. *)
Definition read_urls_from_file (file : res (list string)) : list string :=
  match file with
  | Return lines => filter is_url_line (map strip lines)
  | Raise _ => []
  end.

End YoutubeBatchAnalyzer.

(** ** The specification's own formulas, for comparison with the code *)
Module Spec.

(** Section 4.1, step 1:
    [analysisFrameCount = floor(frameRate * min(videoDuration, maxDurationSeconds))]. *)
Definition analysisFrameCount (frameRate videoDuration maxDurationSeconds : Q) : Z :=
  Qfloor (frameRate * Qmin videoDuration maxDurationSeconds).

(** Section 4.1, interval sampling: the step [round(frameRate * intervalSeconds)]. *)
Definition interval_step (frameRate intervalSeconds : Q) : Z :=
  round_half_even (frameRate * intervalSeconds).

(** Section 4.1, step 3: [index(i) = floor(i * analysisFrameCount / maxFrames)]. *)
Definition index (analysisFrameCount maxFrames i : Z) : Z :=
  i * analysisFrameCount / maxFrames.



End Spec.

(** ** Concrete videos used to run the sampler *)
Module Examples.

(** A writer that always succeeds; pictures are numbered. *)
Definition write_ok (path : string) (frame : nat) : bool := true.

(** Three frames at 1 frame per second; the second does not decode. *)
Definition cap_gap : VideoCapture nat :=
  {| isOpened := true; CAP_PROP_FPS := 1; CAP_PROP_FRAME_COUNT := 3;
     CAP_PROP_FRAME_WIDTH := 640; CAP_PROP_FRAME_HEIGHT := 360;
     pictures := [Some 0%nat; None; Some 2%nat] |}.

(** Twenty-nine frames at 25 frames per second, all of them decodable. *)
Definition cap_25 : VideoCapture nat :=
  {| isOpened := true; CAP_PROP_FPS := 25; CAP_PROP_FRAME_COUNT := 29;
     CAP_PROP_FRAME_WIDTH := 640; CAP_PROP_FRAME_HEIGHT := 360;
     pictures := map Some (seq 0 29) |}.

(** Two frames at 1.75 frames per second. *)
Definition cap_slow : VideoCapture nat :=
  {| isOpened := true; CAP_PROP_FPS := 7 # 4; CAP_PROP_FRAME_COUNT := 2;
     CAP_PROP_FRAME_WIDTH := 640; CAP_PROP_FRAME_HEIGHT := 360;
     pictures := [Some 0%nat; Some 1%nat] |}.

(** An opened stream with no frame: zero duration at 30 frames per second. *)
Definition cap_empty : VideoCapture nat :=
  {| isOpened := true; CAP_PROP_FPS := 30; CAP_PROP_FRAME_COUNT := 0;
     CAP_PROP_FRAME_WIDTH := 640; CAP_PROP_FRAME_HEIGHT := 360; pictures := [] |}.

(** An opened stream whose frame rate is reported as zero. *)
Definition cap_no_rate : VideoCapture nat :=
  {| isOpened := true; CAP_PROP_FPS := 0; CAP_PROP_FRAME_COUNT := 30;
     CAP_PROP_FRAME_WIDTH := 640; CAP_PROP_FRAME_HEIGHT := 360;
     pictures := map Some (seq 0 30) |}.

(** A file that does not open. *)
Definition cap_closed : VideoCapture nat :=
  {| isOpened := false; CAP_PROP_FPS := 0; CAP_PROP_FRAME_COUNT := 0;
     CAP_PROP_FRAME_WIDTH := 0; CAP_PROP_FRAME_HEIGHT := 0; pictures := [] |}.

(** Three sampled frames; the file of the second is missing, and the oracle
    fails on the second request it receives. *)
Definition frames_demo : list (Q * string) :=
  [(0%Q, "f/frame_01_0.00s.jpg"%string); (1%Q, "f/frame_02_1.00s.jpg"%string);
   (2%Q, "f/frame_03_2.00s.jpg"%string); (3%Q, "f/frame_04_3.00s.jpg"%string)].

Definition files_demo (path : string) : option (res string) :=
  if String.eqb path "f/frame_02_1.00s.jpg" then None else Some (Return "QUJD"%string).

Definition svc_demo : Oracle.service :=
  fun n req =>
    if Nat.eqb n 1 then Raise (OtherError "Request timed out.")
    else Return {| Oracle.content := "A person at a desk."; Oracle.total_tokens := 321 |}.

(** Four requested URLs: the second is no YouTube URL, the download of the
    third fails. *)
Definition url_a : string := "https://www.youtube.com/watch?v=aaaaaa".
Definition url_b : string := "https://vimeo.com/123456".
Definition url_c : string := "https://youtu.be/cccccc".
Definition url_d : string := "https://www.youtube.com/shorts/dddddd".
Definition urls_demo : list string := [url_a; url_b; url_c; url_d].

Definition info_demo (u : string) : option YoutubeUtils.yt_info :=
  let entry id title :=
    Some {| YoutubeUtils.id := id; YoutubeUtils.title := title;
            YoutubeUtils.duration := Some 42; YoutubeUtils.uploader := None;
            YoutubeUtils.view_count := None; YoutubeUtils.upload_date := None;
            YoutubeUtils.info_url := u |} in
  if String.eqb u url_a then entry "aaaaaa"%string "First"%string
  else if String.eqb u url_c then entry "cccccc"%string "Third"%string
  else if String.eqb u url_d then entry "dddddd"%string "Fourth"%string
  else None.

Definition download_demo (u : string) (duration_seconds : Z) : option string :=
  if String.eqb u url_a then Some "/tmp/youtube_downloads/aaaaaa_First.mp4"%string
  else if String.eqb u url_d then Some "/tmp/youtube_downloads/dddddd_Fourth.mp4"%string
  else None.

(** Every downloaded file opens as the three-frame video [cap_gap]; every
    image and JSON file can be written and read back. *)
Definition world_capture (path : string) : VideoCapture nat := cap_gap.
Definition world_files (path : string) : option (res string) := Some (Return "QUJD"%string).
Definition world_json (path : string) : option exn := None.
Definition world_makedirs (path : string) : option exn := None.
Definition prompt_of_summary (info : video_info) (lines : list string) : string :=
  String.concat (String (ascii_of_nat 10) "") lines.
Definition prompt_of_videos (l : list SimilarityAnalyzer.video_summary_info) : string :=
  String.concat ", " (map SimilarityAnalyzer.title l).
Definition prompt_of_pair (a b : SimilarityAnalyzer.video_summary_info) : string :=
  (SimilarityAnalyzer.title a ++ " / " ++ SimilarityAnalyzer.title b)%string.

(** Frame results that all failed, and video results: one that succeeded
    with a summary, one whose breakdown failed. *)
Definition failed_frames : list GptUtils.frame_result :=
  map (fun k =>
         GptUtils.with_metadata (float_of_int k) "f/frame.jpg" k
           (GptUtils.analysis_failed (OtherError "Connection error.")))
    (range 3).

Definition video_done (u title text : string) : SimilarityAnalyzer.video_result :=
  {| SimilarityAnalyzer.download :=
       {| YoutubeUtils.url := u; YoutubeUtils.success := true;
          YoutubeUtils.error := None;
          YoutubeUtils.video_path := Some "/tmp/youtube_downloads/v.mp4"%string;
          YoutubeUtils.info :=
            Some {| YoutubeUtils.id := "vvvvvv"; YoutubeUtils.title := title;
                    YoutubeUtils.duration := None; YoutubeUtils.uploader := None;
                    YoutubeUtils.view_count := None; YoutubeUtils.upload_date := None;
                    YoutubeUtils.info_url := u |};
          YoutubeUtils.duration_limited_to := Some 20 |};
     SimilarityAnalyzer.breakdown_success := Some true;
     SimilarityAnalyzer.breakdown_error := None;
     SimilarityAnalyzer.breakdown_data :=
       Some {| SimilarityAnalyzer.video_file := "/tmp/youtube_downloads/v.mp4";
               SimilarityAnalyzer.video_info :=
                 {| fps := 1; total_frames := 3; duration_seconds := 3;
                    width := 640; height := 360; resolution := "640x360" |};
               SimilarityAnalyzer.youtube_info :=
                 {| YoutubeUtils.id := "vvvvvv"; YoutubeUtils.title := title;
                    YoutubeUtils.duration := None; YoutubeUtils.uploader := None;
                    YoutubeUtils.view_count := None; YoutubeUtils.upload_date := None;
                    YoutubeUtils.info_url := u |};
               SimilarityAnalyzer.settings :=
                 {| SimilarityAnalyzer.max_frames_per_video := 20;
                    SimilarityAnalyzer.ps_duration_seconds := 20;
                    SimilarityAnalyzer.total_frames_extracted := 0;
                    SimilarityAnalyzer.successful_analyses := 0;
                    SimilarityAnalyzer.ps_batch_size := 5;
                    SimilarityAnalyzer.model_used := "gpt-4o";
                    SimilarityAnalyzer.ps_total_tokens_used := 0 |};
               SimilarityAnalyzer.frame_analyses := [];
               SimilarityAnalyzer.video_summary :=
                 {| GptUtils.s_success := true; GptUtils.s_error := None;
                    GptUtils.s_summary := Some text; GptUtils.s_tokens_used := Some 100;
                    GptUtils.s_frames_analyzed := Some 0;
                    GptUtils.s_model := Some "gpt-4o"%string |} |};
     SimilarityAnalyzer.breakdown_path := None;
     SimilarityAnalyzer.frames_extracted := Some 0;
     SimilarityAnalyzer.frames_analyzed := Some 0;
     SimilarityAnalyzer.vr_total_tokens := Some 100;
     SimilarityAnalyzer.vr_video_index := None |}.

Definition video_broken (u : string) : SimilarityAnalyzer.video_result :=
  {| SimilarityAnalyzer.download := SimilarityAnalyzer.download (video_done u "Broken" "");
     SimilarityAnalyzer.breakdown_success := Some false;
     SimilarityAnalyzer.breakdown_error := Some "No frames were extracted"%string;
     SimilarityAnalyzer.breakdown_data := None;
     SimilarityAnalyzer.breakdown_path := None;
     SimilarityAnalyzer.frames_extracted := None;
     SimilarityAnalyzer.frames_analyzed := None;
     SimilarityAnalyzer.vr_total_tokens := None;
     SimilarityAnalyzer.vr_video_index := None |}.

(** Three succeeded videos with a broken one between them. *)
Definition videos_demo : list SimilarityAnalyzer.video_result :=
  [video_done url_a "First" "A talk."; video_broken url_c;
   video_done url_d "Fourth" "A walk."; video_done url_a "Again" "A talk."].

(** The batch run on this world, starting with an empty request log. *)
Definition batch_demo : res BatchProcessor.batch_outcome * list Oracle.request :=
  BatchProcessor.process_youtube_urls info_demo download_demo nat (fun _ => true) world_makedirs
    world_capture write_ok world_files svc_demo "Describe the frame." prompt_of_summary
    prompt_of_videos prompt_of_pair world_json "batch_outputs" urls_demo 20 10 20 5 [].

End Examples.

(** * Properties *)

(** ** Facts about the Python primitives *)
Section PyFacts.

Lemma int_of_float_nonneg (x : Q) : (0 <= x)%Q -> int_of_float x = Qfloor x.
Proof.
  destruct x as [n d]. unfold Qle, int_of_float, Qfloor. simpl. intros H.
  apply Z.quot_div_nonneg; lia.
Qed.

Lemma int_of_float_nonpos (x : Q) : (x <= 0)%Q -> int_of_float x = Qceiling x.
Proof.
  destruct x as [n d]. unfold Qle, int_of_float, Qceiling, Qfloor. simpl. intros H.
  replace n with (- (- n)) at 1 by lia.
  rewrite Z.quot_opp_l by lia. f_equal.
  apply Z.quot_div_nonneg; lia.
Qed.

Lemma int_of_float_comp (x y : Q) : (x == y)%Q -> int_of_float x = int_of_float y.
Proof.
  intros E. destruct (Qlt_le_dec x 0) as [L | L].
  - apply Qlt_le_weak in L.
    assert (L' : (y <= 0)%Q) by now rewrite <- E.
    rewrite (int_of_float_nonpos x L), (int_of_float_nonpos y L').
    now rewrite E.
  - assert (L' : (0 <= y)%Q) by now rewrite <- E.
    rewrite (int_of_float_nonneg x L), (int_of_float_nonneg y L').
    now rewrite E.
Qed.

Lemma int_of_float_sign (x : Q) : (x <= 0)%Q -> Qfloor x <= int_of_float x <= 0.
Proof.
  intros H. rewrite (int_of_float_nonpos x H). split.
  - rewrite Zle_Qle. apply Qle_floor_ceiling.
  - change 0 with (Qceiling 0). now apply Qceiling_resp_le.
Qed.

Lemma fmin_Qmin (a b : Q) : (fmin a b == Qmin a b)%Q.
Proof.
  unfold fmin. destruct (b ?= a)%Q eqn:C.
  - apply Qeq_alt in C. rewrite C. now rewrite Q.min_id.
  - apply Qlt_alt in C. rewrite Q.min_r; [reflexivity | now apply Qlt_le_weak].
  - apply Qgt_alt in C. rewrite Q.min_l; [reflexivity | now apply Qlt_le_weak].
Qed.

Lemma int_of_fdiv (n m : Z) :
  0 <= n -> 0 < m -> int_of_float (fdiv (float_of_int n) (float_of_int m)) = n / m.
Proof.
  intros Hn Hm. unfold fdiv, float_of_int.
  rewrite (int_of_float_comp _ (inject_Z n / inject_Z m)) by apply Qred_correct.
  rewrite int_of_float_nonneg.
  - symmetry. apply Zdiv_Qdiv.
  - apply Qle_shift_div_l.
    + change 0%Q with (inject_Z 0). rewrite <- Zlt_Qlt. exact Hm.
    + rewrite Qmult_0_l. change 0%Q with (inject_Z 0). rewrite <- Zle_Qle. exact Hn.
Qed.

Lemma range_nonpos (n : Z) : n <= 0 -> range n = [].
Proof.
  intros H. unfold range. replace (Z.to_nat n) with 0%nat by lia. reflexivity.
Qed.

Lemma in_range (n k : Z) : In k (range n) <-> 0 <= k < n.
Proof.
  unfold range. rewrite in_map_iff. split.
  - intros [i [<- Hi]]. apply in_seq in Hi. lia.
  - intros H. exists (Z.to_nat k). split; [lia | apply in_seq; lia].
Qed.

Lemma length_range (n : Z) : Z.of_nat (List.length (range n)) = Z.max 0 n.
Proof. unfold range. rewrite length_map, length_seq. lia. Qed.

Lemma string_app_assoc (a b c : string) : ((a ++ b) ++ c = a ++ (b ++ c))%string.
Proof. induction a as [| x a IH]; cbn [append]; [reflexivity | now rewrite IH]. Qed.












End PyFacts.

(** ** Frame Sampler: index selection *)
Section IndexSelection.

Lemma analysis_frames_value (fps : Q) (total_frames : Z) (max_duration : Q) :
  analysis_frames fps total_frames max_duration =
  int_of_float (fps * Qmin (float_of_int total_frames / fps) max_duration).
Proof.
  unfold analysis_frames, fmul, fdiv. apply int_of_float_comp.
  rewrite Qred_correct, fmin_Qmin. now rewrite Qred_correct.
Qed.

Lemma frame_indices_dense (n max_frames : Z) :
  n <= max_frames -> frame_indices n max_frames = range n.
Proof. intros H. unfold frame_indices. now rewrite (proj2 (Z.leb_le _ _) H). Qed.

Lemma frame_indices_sparse (n max_frames : Z) :
  0 < max_frames < n ->
  frame_indices n max_frames = map (Spec.index n max_frames) (range max_frames).
Proof.
  intros H. unfold frame_indices.
  rewrite (proj2 (Z.leb_gt _ _)) by lia.
  apply map_ext_in. intros i Hi. apply in_range in Hi.
  apply int_of_fdiv; nia.
Qed.




End IndexSelection.

(** ** Frame Sampler: the extracted collection *)
Section Collection.

Variable Frame : Type.
Variable imwrite : string -> Frame -> bool.

Lemma extract_loop_out (cap : VideoCapture Frame) (output_dir : string) (fps : Q)
    (todo : list (Z * Z)) :
  snd (extract_loop imwrite cap output_dir fps todo) =
  map (sampled output_dir fps) (filter (kept imwrite cap output_dir fps) todo).
Proof.
  induction todo as [| [i frame_index] rest IH]; [reflexivity |].
  cbn [extract_loop filter]. unfold kept at 1. cbn [snd fst sampled].
  destruct (extract_loop imwrite cap output_dir fps rest) as [evs out].
  cbn [snd] in IH. subst out.
  destruct (read_at cap frame_index) as [frame |]; [| reflexivity].
  cbn [snd]. now destruct (imwrite _ frame).
Qed.

(** With exact products and quotients the sampler with open arithmetic is
    the sampler of the embedding. *)
Lemma extract_loop_with_exact (cap : VideoCapture Frame) (output_dir : string) (fps : Q)
    (todo : list (Z * Z)) :
  extract_loop_with imwrite fdiv cap output_dir fps todo
  = extract_loop imwrite cap output_dir fps todo.
Proof.
  induction todo as [| [i frame_index] rest IH]; [reflexivity |].
  cbn [extract_loop_with extract_loop]. now rewrite IH.
Qed.

Lemma extract_fixed_frames_with_exact (cap : VideoCapture Frame)
    (video_path output_dir : string) (max_frames : Z) (max_duration : Q) :
  extract_fixed_frames_with imwrite fmul fdiv cap video_path output_dir max_frames
    max_duration
  = extract_fixed_frames imwrite cap video_path output_dir max_frames max_duration.
Proof.
  unfold extract_fixed_frames_with, extract_fixed_frames.
  now rewrite extract_loop_with_exact.
Qed.

Lemma sorted_filter {A : Type} (R : A -> A -> Prop) (f : A -> bool) (l : list A) :
  StronglySorted R l -> StronglySorted R (filter f l).
Proof.
  induction 1 as [| x l Hl IH Hx]; cbn [filter]; [constructor |].
  destruct (f x); [| exact IH].
  constructor; [exact IH |].
  apply Forall_forall. intros y Hy. apply filter_In in Hy.
  rewrite Forall_forall in Hx. now apply Hx.
Qed.

Lemma sorted_map {A B : Type} (R : B -> B -> Prop) (g : A -> B) (l : list A) :
  StronglySorted (fun a b => R (g a) (g b)) l -> StronglySorted R (map g l).
Proof.
  induction 1 as [| x l Hl IH Hx]; cbn [map]; constructor; [exact IH |].
  apply Forall_forall. intros y Hy. apply in_map_iff in Hy.
  destruct Hy as [a [<- Ha]]. rewrite Forall_forall in Hx. now apply Hx.
Qed.

Lemma sorted_weaken {A : Type} (R R' : A -> A -> Prop) (l : list A) :
  (forall a b, R a b -> R' a b) -> StronglySorted R l -> StronglySorted R' l.
Proof.
  intros H. induction 1 as [| x l Hl IH Hx]; constructor; [exact IH |].
  eapply Forall_impl; [| exact Hx]. intros a. apply H.
Qed.



Lemma enumerate_from_lookup {A : Type} (l : list A) :
  forall (start j : Z) (x : A),
  In (j, x) (enumerate_from start l) ->
  start <= j < start + Z.of_nat (List.length l) /\
  nth_error l (Z.to_nat (j - start)) = Some x.
Proof.
  induction l as [| y l IH]; intros start j x H; [contradiction |].
  cbn [enumerate_from] in H. destruct H as [H | H].
  - injection H as <- <-. cbn [List.length]. split; [lia |].
    now replace (Z.to_nat (start - start)) with 0%nat by lia.
  - destruct (IH _ _ _ H) as [B N]. cbn [List.length]. split; [lia |].
    replace (Z.to_nat (j - start)) with (S (Z.to_nat (j - (start + 1)))) by lia.
    exact N.
Qed.

Lemma length_enumerate_from {A : Type} (start : Z) (l : list A) :
  List.length (enumerate_from start l) = List.length l.
Proof. revert start. induction l; intros; cbn; auto. Qed.

Lemma map_fst_enumerate_from {A : Type} (start : Z) (l : list A) :
  map fst (enumerate_from start l) =
  map (fun k => start + k) (range (Z.of_nat (List.length l))).
Proof.
  unfold range. rewrite Nat2Z.id. revert start.
  induction l as [| x l IH]; intros start; [reflexivity |].
  cbn [enumerate_from map List.length seq fst]. f_equal; [lia |].
  rewrite IH. rewrite <- seq_shift, !map_map. apply map_ext. intros k. lia.
Qed.



Lemma length_frame_indices (n max_frames : Z) :
  Z.of_nat (List.length (frame_indices n max_frames)) <= Z.max 0 max_frames.
Proof.
  unfold frame_indices. destruct (Z.leb_spec n max_frames) as [H | H].
  - rewrite length_range. lia.
  - rewrite length_map, length_range. lia.
Qed.

Lemma fdiv_lt (a b : Z) (fps : Q) :
  (0 < fps)%Q -> a < b -> (fdiv (float_of_int a) fps < fdiv (float_of_int b) fps)%Q.
Proof.
  intros Hf Hab. unfold fdiv, float_of_int. rewrite !Qred_correct.
  unfold Qdiv. apply Qmult_lt_compat_r.
  - now apply Qinv_lt_0_compat.
  - now rewrite <- Zlt_Qlt.
Qed.


(** What a run on an opened capture with a nonzero frame rate does. *)
Lemma extract_fixed_frames_opened (cap : VideoCapture Frame)
    (video_path output_dir : string) (max_frames : Z) (max_duration : Q) :
  isOpened cap = true -> fzero (CAP_PROP_FPS cap) = false ->
  let fps := CAP_PROP_FPS cap in
  let n := analysis_frames fps (int_of_float (CAP_PROP_FRAME_COUNT cap)) max_duration in
  let todo := enumerate (frame_indices n max_frames) in
  extract_fixed_frames imwrite cap video_path output_dir max_frames max_duration =
  ([Makedirs output_dir; Open video_path]
     ++ fst (extract_loop imwrite cap output_dir fps todo) ++ [Release],
   Return (map (sampled output_dir fps) (filter (kept imwrite cap output_dir fps) todo))).
Proof.
  intros Ho Hz fps n todo. unfold extract_fixed_frames. rewrite Ho, Hz. cbn [negb].
  fold fps. fold n. fold todo.
  rewrite <- extract_loop_out.
  now destruct (extract_loop imwrite cap output_dir fps todo).
Qed.

Lemma fzero_pos (x : Q) : (0 < x)%Q -> fzero x = false.
Proof.
  destruct x as [a d]. unfold Qlt, fzero. cbn [Qnum Qden]. intros H.
  apply Z.eqb_neq. lia.
Qed.




(** C8, as the code has it. A video that cannot be opened is refused with
    the explicit error before anything is selected or decoded; an opened
    video with a positive frame rate and no frame (zero duration) raises no
    error: nothing is decoded or written, the handle is released and the
    empty list is returned. *)
Theorem unopened_and_zero_duration (cap : VideoCapture Frame)
    (video_path output_dir : string) (max_frames : Z) (max_duration : Q) :
  (isOpened cap = false ->
     extract_fixed_frames imwrite cap video_path output_dir max_frames max_duration =
     ([Makedirs output_dir; Open video_path],
      Raise (ValueError ("Error: Could not open video file " ++ video_path)))) /\
  (isOpened cap = true -> (0 < CAP_PROP_FPS cap)%Q ->
   int_of_float (CAP_PROP_FRAME_COUNT cap) = 0 ->
     extract_fixed_frames imwrite cap video_path output_dir max_frames max_duration =
     ([Makedirs output_dir; Open video_path; Release], Return [])).
Proof.
  split.
  - intros Ho. unfold extract_fixed_frames. now rewrite Ho.
  - intros Ho Hfps Hcount.
    rewrite extract_fixed_frames_opened by auto using fzero_pos. cbv zeta.
    rewrite Hcount.
    set (n := analysis_frames (CAP_PROP_FPS cap) 0 max_duration).
    assert (Hn : n <= 0).
    { subst n. rewrite analysis_frames_value.
      set (x := (CAP_PROP_FPS cap * Qmin (float_of_int 0 / CAP_PROP_FPS cap) max_duration)%Q).
      assert (Hx : (x <= 0)%Q).
      { subst x. rewrite <- (Qmult_0_r (CAP_PROP_FPS cap)).
        apply Qmult_le_l; [exact Hfps |].
        eapply Qle_trans; [apply Q.le_min_l |].
        unfold float_of_int, Qdiv. rewrite Qmult_0_l. apply Qle_refl. }
      now apply int_of_float_sign. }
    assert (E : frame_indices n max_frames = []).
    { unfold frame_indices. destruct (Z.leb_spec n max_frames) as [H | H].
      - now apply range_nonpos.
      - rewrite range_nonpos by lia. reflexivity. }
    rewrite E. reflexivity.
Qed.

(** C10. On an opened video with a positive frame rate, a request for
    [max_frames <= 0] raises nothing: no index is selected, no frame is
    decoded or written, the handle is released and the empty list returned. *)
Theorem nonpositive_max_frames (cap : VideoCapture Frame)
    (video_path output_dir : string) (max_frames : Z) (max_duration : Q) :
  isOpened cap = true -> (0 < CAP_PROP_FPS cap)%Q -> max_frames <= 0 ->
  frame_indices (analysis_frames (CAP_PROP_FPS cap)
                   (int_of_float (CAP_PROP_FRAME_COUNT cap)) max_duration) max_frames = [] /\
  extract_fixed_frames imwrite cap video_path output_dir max_frames max_duration =
  ([Makedirs output_dir; Open video_path; Release], Return []).
Proof.
  intros Ho Hfps Hmax.
  assert (E : forall n, frame_indices n max_frames = []).
  { intros n. unfold frame_indices. destruct (Z.leb_spec n max_frames) as [H | H].
    - apply range_nonpos. lia.
    - rewrite range_nonpos by lia. reflexivity. }
  split; [apply E |].
  rewrite extract_fixed_frames_opened by auto using fzero_pos. cbv zeta.
  rewrite E. reflexivity.
Qed.

(** The handle is released on every normal return. *)
Lemma released_on_return (cap : VideoCapture Frame) (video_path output_dir : string)
    (max_frames : Z) (max_duration : Q) (evs : list event) (frames : list (Q * string)) :
  extract_fixed_frames imwrite cap video_path output_dir max_frames max_duration
    = (evs, Return frames) ->
  exists evs', evs = evs' ++ [Release].
Proof.
  unfold extract_fixed_frames.
  destruct (negb (isOpened cap)); [discriminate |].
  destruct (fzero (CAP_PROP_FPS cap)); [discriminate |].
  destruct (extract_loop _ _ _ _ _) as [evs0 out]. intros H. injection H as <- _.
  exists ([Makedirs output_dir; Open video_path] ++ evs0). now rewrite <- app_assoc.
Qed.

End Collection.

(** ** Frame Sampler: interval sampling *)
Section Interval.

Variable Frame : Type.
Variable imwrite : string -> Frame -> bool.

Lemma scan_loop_value (output_dir : string) (fps : Q) (frame_interval : Z)
    (pics : list (option Frame)) (frame_count : Z) :
  frame_interval <> 0 ->
  let '(evs, r) := scan_loop imwrite output_dir fps frame_interval pics frame_count in
  r = Return (map (interval_sampled output_dir fps)
                (filter (interval_kept imwrite output_dir fps frame_interval)
                   (enumerate_from frame_count (readable pics)))) /\
  reads evs = S (List.length (readable pics)) /\
  seeks evs = false.
Proof.
  intros Hstep. revert frame_count.
  induction pics as [| [frame |] rest IH]; intros frame_count;
    cbn [scan_loop readable enumerate_from filter map]; auto.
  rewrite (proj2 (Z.eqb_neq _ _) Hstep).
  specialize (IH (frame_count + 1)).
  destruct (scan_loop imwrite output_dir fps frame_interval rest (frame_count + 1))
    as [evs r].
  destruct IH as [-> [Hr Hs]].
  assert (K : interval_kept imwrite output_dir fps frame_interval (frame_count, frame) =
              (frame_count mod frame_interval =? 0) &&
              imwrite (os_path_join output_dir
                         (interval_filename (fdiv (float_of_int frame_count) fps))) frame)
    by reflexivity.
  rewrite K. clear K.
  destruct (frame_count mod frame_interval =? 0); cbn [andb].
  - split; [| split].
    + now destruct (imwrite _ frame).
    + unfold reads in *. cbn [filter List.length]. now rewrite Hr.
    + exact Hs.
  - split; [reflexivity | split].
    + unfold reads in *. cbn [filter List.length]. now rewrite Hr.
    + exact Hs.
Qed.

(** C7, as the code has it. On an opened video with a positive frame rate,
    with [step = int(fps * interval_seconds)] (truncated, not rounded) and
    [step] not zero: the frames returned are exactly the delivered frames
    whose index is a multiple of [step] and whose file was written, in
    order; the decoder is read once per delivered frame and once more at the
    end, never positioned; the handle is released.  No bound is put on the
    number of frames. *)
Theorem interval_sampling (cap : VideoCapture Frame) (video_path output_dir : string)
    (interval_seconds : Q) :
  isOpened cap = true -> (0 < CAP_PROP_FPS cap)%Q ->
  let fps := CAP_PROP_FPS cap in
  let step := int_of_float (fmul fps interval_seconds) in
  step <> 0 ->
  exists evs,
    extract_frames imwrite cap video_path output_dir interval_seconds =
      ([Makedirs output_dir; Open video_path] ++ evs ++ [Release],
       Return (map (interval_sampled output_dir fps)
                 (filter (fun slot => (fst slot mod step =? 0) &&
                            imwrite (snd (interval_sampled output_dir fps slot)) (snd slot))
                    (enumerate (readable (pictures cap)))))) /\
    reads evs = S (List.length (readable (pictures cap))) /\
    seeks evs = false.
Proof.
  intros Ho Hfps fps step Hstep. unfold extract_frames.
  rewrite Ho, (fzero_pos _ Hfps). cbn [negb]. fold fps. fold step.
  pose proof (scan_loop_value output_dir fps step (pictures cap) 0 Hstep) as H.
  destruct (scan_loop imwrite output_dir fps step (pictures cap) 0) as [evs r].
  destruct H as [-> [Hr Hs]]. exists evs. auto.
Qed.

End Interval.

(** ** The sampler on concrete videos *)
Section SamplerRuns.
Import Examples.



(** C7 does not hold as stated: at 1.75 frames per second and an interval of
    one second the specification's step is round(1.75) = 2, but the frame of
    index 1 is extracted too (the code's step is int(1.75) = 1). *)
Lemma interval_step_is_truncated :
  Spec.interval_step (CAP_PROP_FPS cap_slow) 1 = 2 /\
  1 mod Spec.interval_step (CAP_PROP_FPS cap_slow) 1 <> 0 /\
  extract_frames write_ok cap_slow "v.mp4" "out" 1 =
    ([Makedirs "out"; Open "v.mp4"; Read; Imwrite "out/frame_0.00s.jpg";
      Read; Imwrite "out/frame_0.57s.jpg"; Read; Release],
     Return [(0%Q, "out/frame_0.00s.jpg"%string);
             (fdiv (float_of_int 1) (CAP_PROP_FPS cap_slow), "out/frame_0.57s.jpg"%string)]).
Proof. split; [reflexivity | split; [discriminate | reflexivity]]. Qed.

Lemma interval_sampling_witness :
  exists evs,
    extract_frames write_ok cap_slow "v.mp4" "out" 1 =
      ([Makedirs "out"; Open "v.mp4"] ++ evs ++ [Release],
       Return [(0%Q, "out/frame_0.00s.jpg"%string);
               (4 # 7, "out/frame_0.57s.jpg"%string)]) /\
    reads evs = 3%nat /\ seeks evs = false.
Proof.
  assert (Ho : isOpened cap_slow = true) by reflexivity.
  assert (Hfps : (0 < CAP_PROP_FPS cap_slow)%Q) by reflexivity.
  assert (Hstep : int_of_float (fmul (CAP_PROP_FPS cap_slow) 1) <> 0) by discriminate.
  exact (interval_sampling nat write_ok cap_slow "v.mp4" "out" 1 Ho Hfps Hstep).
Defined.

(** C8 does not hold as stated: a video of zero duration is not refused;
    the extraction returns the empty list. *)
Lemma zero_duration_returns_empty :
  extract_fixed_frames write_ok cap_empty "v.mp4" "out" 20 20 =
    ([Makedirs "out"; Open "v.mp4"; Release], Return []).
Proof. reflexivity. Qed.

Lemma unopened_and_zero_duration_witness :
  extract_fixed_frames write_ok cap_closed "v.mp4" "out" 20 20 =
    ([Makedirs "out"; Open "v.mp4"],
     Raise (ValueError "Error: Could not open video file v.mp4")) /\
  extract_fixed_frames write_ok cap_empty "v.mp4" "out" 20 20 =
    ([Makedirs "out"; Open "v.mp4"; Release], Return []).
Proof.
  split.
  - apply (proj1 (unopened_and_zero_duration nat write_ok cap_closed "v.mp4" "out" 20 20)).
    reflexivity.
  - apply (proj2 (unopened_and_zero_duration nat write_ok cap_empty "v.mp4" "out" 20 20));
      reflexivity.
Defined.

(** C1 fails on the code.  At 25 frames per second and 29 frames, with a
    window of 20 seconds and 30 frames requested, the count of the
    specification is [floor(25 * min(29/25, 20)) = 29], so every index of
    [0, 29) is to be selected.  Python evaluates [25.0 * (29 / 25.0)] to
    28.999999999999996 and truncates it to 28: the sampler is positioned at
    0, ..., 27, returns 28 frames and never reads the last frame, index 28,
    which decodes.  With exact products and quotients the same lines select
    all 29. *)
Theorem analysis_window_drops_last_frame :
  Spec.analysisFrameCount 25 (29 / 25) 20 = 29 /\
  (Binary64.fmul 25 (Binary64.fdiv 29 25) < 29)%Q /\
  analysis_frames_with Binary64.fmul Binary64.fdiv 25 29 20 = 28 /\
  seek_positions (fst (extract_fixed_frames_binary64 write_ok cap_25 "v.mp4" "out" 30 20))
    = range 28 /\
  (exists frames,
     snd (extract_fixed_frames_binary64 write_ok cap_25 "v.mp4" "out" 30 20)
       = Return frames /\
     List.length frames = 28%nat) /\
  read_at cap_25 28 = Some 28%nat /\
  seek_positions
    (fst (extract_fixed_frames_with write_ok fmul fdiv cap_25 "v.mp4" "out" 30 20))
    = range 29.
Proof.
  split; [reflexivity |]. split; [reflexivity |]. split; [vm_compute; reflexivity |].
  split; [vm_compute; reflexivity |]. split; [| split; vm_compute; reflexivity].
  destruct (snd (extract_fixed_frames_binary64 write_ok cap_25 "v.mp4" "out" 30 20))
    as [frames | e] eqn:E; [| vm_compute in E; discriminate].
  exists frames. split; [reflexivity |].
  vm_compute in E. injection E as <-. reflexivity.
Qed.

(** C9 fails on the code: with a frame rate of zero the division of line 30
    raises, and the handle opened at line 23 is still held when the
    exception leaves the function. *)
Theorem handle_held_after_error :
  extract_fixed_frames write_ok cap_no_rate "v.mp4" "out" 20 20 =
    ([Makedirs "out"; Open "v.mp4"], Raise (ZeroDivisionError "float division by zero")) /\
  handle_held false (fst (extract_fixed_frames write_ok cap_no_rate "v.mp4" "out" 20 20))
    = true.
Proof. split; reflexivity. Qed.

Lemma nonpositive_max_frames_witness :
  frame_indices (analysis_frames (CAP_PROP_FPS cap_gap)
                   (int_of_float (CAP_PROP_FRAME_COUNT cap_gap)) 20) (-3) = [] /\
  extract_fixed_frames write_ok cap_gap "v.mp4" "out" (-3) 20 =
    ([Makedirs "out"; Open "v.mp4"; Release], Return []).
Proof.
  apply (nonpositive_max_frames nat write_ok cap_gap "v.mp4" "out" (-3) 20).
  - reflexivity.
  - reflexivity.
  - lia.
Defined.

End SamplerRuns.

(** ** Batch Scheduler and Frame Analyzer *)
Section Scheduler.
Import Oracle GptUtils.

Variable files : string -> option (res string).
Variable FRAME_ANALYSIS_PROMPT : string.

Lemma mapM_app {A B : Type} (f : A -> M B) (a b : list A) (log : list request) :
  mapM f (a ++ b) log =
  let '(ra, log1) := mapM f a log in
  let '(rb, log2) := mapM f b log1 in
  (ra ++ rb, log2).
Proof.
  revert log. induction a as [| x a IH]; intros log; cbn [mapM app].
  - unfold ret. now destruct (mapM f b log).
  - unfold bind, ret. destruct (f x log) as [y log0].
    rewrite IH. destruct (mapM f a log0) as [ra log1].
    destruct (mapM f b log1) as [rb log2]. reflexivity.
Qed.

Lemma analyze_frame_async_run (svc : service) (path : string) (log : list request) :
  analyze_frame_async files svc FRAME_ANALYSIS_PROMPT path log =
  (analysis_of files svc FRAME_ANALYSIS_PROMPT path (List.length log),
   log ++ requests_of files FRAME_ANALYSIS_PROMPT path).
Proof.
  unfold analyze_frame_async, analysis_of, requests_of.
  destruct (encode_image_to_base64 files path) as [b64 | e].
  - unfold bind, create.
    now destruct (svc (List.length log) (frame_request FRAME_ANALYSIS_PROMPT b64)).
  - unfold ret. now rewrite app_nil_r.
Qed.

Lemma batch_tasks_run (svc : service) (i : Z) (batch : list (Q * string)) :
  forall (j0 : Z) (log : list request),
  let batch_tasks := map (fun '(j, (ts, path)) => (ts, path, i + j)) (enumerate_from j0 batch) in
  exists batch_results,
    mapM (fun '(_, path, _) => analyze_frame_async files svc FRAME_ANALYSIS_PROMPT path)
      batch_tasks log =
    (batch_results,
     log ++ flat_map (fun f => requests_of files FRAME_ANALYSIS_PROMPT (snd f)) batch) /\
    map (fun '((ts, path, frame_idx), analysis_result) =>
           with_metadata ts path frame_idx analysis_result)
      (combine batch_tasks batch_results) =
    results_from files svc FRAME_ANALYSIS_PROMPT (i + j0) (List.length log) batch.
Proof.
  induction batch as [| [ts path] rest IH]; intros j0 log; cbv zeta.
  - exists []. cbn. unfold ret. now rewrite app_nil_r.
  - cbn [enumerate_from map mapM results_from flat_map snd].
    unfold bind at 1. rewrite analyze_frame_async_run.
    destruct (IH (j0 + 1) (log ++ requests_of files FRAME_ANALYSIS_PROMPT path))
      as [rs [E1 E2]].
    cbv zeta in E1, E2. unfold bind. rewrite E1.
    exists (analysis_of files svc FRAME_ANALYSIS_PROMPT path (List.length log) :: rs).
    split.
    + unfold ret. now rewrite <- app_assoc.
    + cbn [combine map]. rewrite E2, length_app.
      now replace (i + (j0 + 1)) with (i + j0 + 1) by lia.
Qed.

Lemma analyze_batch_run (svc : service) (i : Z) (batch : list (Q * string))
    (log : list request) :
  analyze_batch files svc FRAME_ANALYSIS_PROMPT i batch log =
  (results_from files svc FRAME_ANALYSIS_PROMPT i (List.length log) batch,
   log ++ flat_map (fun f => requests_of files FRAME_ANALYSIS_PROMPT (snd f)) batch).
Proof.
  unfold analyze_batch, enumerate.
  destruct (batch_tasks_run svc i batch 0 log) as [rs [E1 E2]]. cbv zeta in E1, E2.
  unfold bind. rewrite E1. unfold ret. rewrite E2. now rewrite Z.add_0_r.
Qed.

Lemma results_from_app (svc : service) (a b : list (Q * string)) :
  forall (start : Z) (n : nat),
  results_from files svc FRAME_ANALYSIS_PROMPT start n (a ++ b) =
  results_from files svc FRAME_ANALYSIS_PROMPT start n a ++
  results_from files svc FRAME_ANALYSIS_PROMPT (start + Z.of_nat (List.length a))
    (n + List.length (flat_map (fun f => requests_of files FRAME_ANALYSIS_PROMPT (snd f)) a))
    b.
Proof.
  induction a as [| [ts path] a IH]; intros start n.
  - cbn. now rewrite Z.add_0_r, Nat.add_0_r.
  - cbn [app results_from flat_map snd List.length]. rewrite IH. f_equal.
    rewrite length_app, Nat.add_assoc. f_equal. f_equal. lia.
Qed.

Lemma batches_loop_run (svc : service) (frame_data : list (Q * string)) (batch_size : Z) :
  0 < batch_size ->
  forall (c k0 : nat) (log : list request),
  Z.of_nat (List.length frame_data) <= (Z.of_nat k0 + Z.of_nat c) * batch_size ->
  let rest := skipn (Z.to_nat (Z.of_nat k0 * batch_size)) frame_data in
  batches_loop files svc FRAME_ANALYSIS_PROMPT frame_data batch_size
    (map (fun k => k * batch_size) (map Z.of_nat (seq k0 c))) log =
  (results_from files svc FRAME_ANALYSIS_PROMPT (Z.of_nat k0 * batch_size)
     (List.length log) rest,
   log ++ flat_map (fun f => requests_of files FRAME_ANALYSIS_PROMPT (snd f)) rest).
Proof.
  intros HB. induction c as [| c IH]; intros k0 log Hlen rest.
  - assert (E : rest = []).
    { subst rest. apply skipn_all2. lia. }
    rewrite E. cbn. unfold ret. now rewrite app_nil_r.
  - cbn [seq map batches_loop]. unfold bind at 1. rewrite analyze_batch_run.
    set (i := Z.of_nat k0 * batch_size).
    set (chunk := slice frame_data i (i + batch_size)).
    set (log1 := log ++ flat_map (fun f => requests_of files FRAME_ANALYSIS_PROMPT (snd f)) chunk).
    assert (Hnext : Z.of_nat (List.length frame_data)
                    <= (Z.of_nat (S k0) + Z.of_nat c) * batch_size) by lia.
    specialize (IH (S k0) log1 Hnext). cbv zeta in IH.
    unfold bind. rewrite IH. unfold ret.
    assert (Hchunk : chunk = firstn (Z.to_nat batch_size) rest).
    { subst chunk rest. unfold slice. f_equal. f_equal. lia. }
    assert (Htail : skipn (Z.to_nat (Z.of_nat (S k0) * batch_size)) frame_data
                    = skipn (Z.to_nat batch_size) rest).
    { subst rest. rewrite skipn_skipn. f_equal. lia. }
    rewrite Htail.
    rewrite <- (firstn_skipn (Z.to_nat batch_size) rest) at 3 4.
    rewrite results_from_app, flat_map_app, <- Hchunk.
    subst log1. rewrite length_app, <- app_assoc.
    destruct (skipn (Z.to_nat batch_size) rest) as [| f tl] eqn:Etl; [reflexivity |].
    assert (Hfull : Z.of_nat (List.length chunk) = batch_size).
    { rewrite Hchunk, length_firstn.
      assert (L : (Z.to_nat batch_size < List.length rest)%nat).
      { destruct (Nat.lt_ge_cases (Z.to_nat batch_size) (List.length rest)) as [L | L];
          [exact L |].
        rewrite skipn_all2 in Etl by exact L. discriminate. }
      lia. }
    rewrite Hfull.
    now replace (Z.of_nat (S k0) * batch_size) with (i + batch_size) by (subst i; lia).
Qed.

(** With a positive batch size the batches are invisible: the scheduler
    returns what one pass over the frames returns. *)
Lemma analyze_multiple_frames_async_run (svc : service) (frame_data : list (Q * string))
    (batch_size : Z) (log : list request) :
  0 < batch_size ->
  analyze_multiple_frames_async files svc FRAME_ANALYSIS_PROMPT frame_data batch_size log =
  (Return (results_from files svc FRAME_ANALYSIS_PROMPT 0 (List.length log) frame_data),
   log ++ flat_map (fun f => requests_of files FRAME_ANALYSIS_PROMPT (snd f)) frame_data).
Proof.
  intros HB. unfold analyze_multiple_frames_async, range_step.
  rewrite (proj2 (Z.eqb_neq _ _)) by lia. rewrite (proj2 (Z.ltb_ge _ _)) by lia.
  unfold range, bind.
  set (total := Z.of_nat (List.length frame_data)).
  rewrite (batches_loop_run svc frame_data batch_size HB
             (Z.to_nat ((total + batch_size - 1) / batch_size)) 0 log).
  - reflexivity.
  - fold total.
    assert (0 <= (total + batch_size - 1) / batch_size)
      by (apply Z.div_pos; lia).
    rewrite Z2Nat.id by assumption. cbn [Z.of_nat Z.add].
    pose proof (Z.mul_succ_div_gt (total + batch_size - 1) batch_size HB).
    lia.
Qed.

Lemma length_results_from (svc : service) (frame_data : list (Q * string)) :
  forall (start : Z) (n : nat),
  List.length (results_from files svc FRAME_ANALYSIS_PROMPT start n frame_data)
  = List.length frame_data.
Proof.
  induction frame_data as [| [ts path] rest IH]; intros start n; cbn; [reflexivity |].
  now rewrite IH.
Qed.

Lemma nth_results_from (svc : service) (frame_data : list (Q * string)) :
  forall (start : Z) (n k : nat) (ts : Q) (path : string),
  nth_error frame_data k = Some (ts, path) ->
  nth_error (results_from files svc FRAME_ANALYSIS_PROMPT start n frame_data) k =
  Some (with_metadata ts path (start + Z.of_nat k)
          (analysis_of files svc FRAME_ANALYSIS_PROMPT path
             (call_number files FRAME_ANALYSIS_PROMPT n frame_data k))).
Proof.
  induction frame_data as [| [ts0 path0] rest IH]; intros start n k ts path H.
  - destruct k; discriminate.
  - destruct k as [| k]; cbn [nth_error results_from] in *.
    + injection H as -> ->. unfold call_number. cbn. now rewrite Z.add_0_r, Nat.add_0_r.
    + rewrite (IH _ _ _ _ _ H). f_equal. f_equal; [lia |]. f_equal.
      unfold call_number. cbn [firstn flat_map snd]. rewrite length_app. lia.
Qed.

Lemma analysis_of_ext (svc svc' : service) (path : string) (n : nat) :
  (forall req, svc' n req = svc n req) ->
  analysis_of files svc' FRAME_ANALYSIS_PROMPT path n =
  analysis_of files svc FRAME_ANALYSIS_PROMPT path n.
Proof.
  intros H. unfold analysis_of.
  destruct (encode_image_to_base64 files path); [now rewrite H | reflexivity].
Qed.

(** C2. For a positive batch size the scheduler returns one result per
    frame, in the order of the frames: result [k] carries the timestamp and
    path of frame [k] and the frame number [k + 1].  Whatever goes wrong for
    a frame (its file cannot be encoded, or the oracle's answer to its own
    request is an exception) is recorded in that frame's result as
    [success = false] with the error message, and nothing is raised; the
    result of a frame depends on the oracle only through the answer to that
    frame's own request, so an oracle that differs on one request changes no
    other frame's result. *)
Theorem batch_scheduler (svc : service) (frame_data : list (Q * string))
    (batch_size : Z) (log : list request) :
  0 < batch_size ->
  exists results,
    analyze_multiple_frames_async files svc FRAME_ANALYSIS_PROMPT frame_data batch_size log
      = (Return results,
         log ++ flat_map (fun f => requests_of files FRAME_ANALYSIS_PROMPT (snd f)) frame_data) /\
    List.length results = List.length frame_data /\
    (forall (k : nat) (ts : Q) (path : string),
       nth_error frame_data k = Some (ts, path) ->
       exists r,
         nth_error results k = Some r /\
         timestamp r = ts /\ frame_path r = path /\ frame_number r = Z.of_nat k + 1 /\
         match encode_image_to_base64 files path with
         | Raise e => records_failure r e
         | Return base64_image =>
             match svc (call_number files FRAME_ANALYSIS_PROMPT (List.length log) frame_data k)
                       (frame_request FRAME_ANALYSIS_PROMPT base64_image) with
             | Raise e => records_failure r e
             | Return response => records_response r response
             end
         end) /\
    (forall (svc' : service) (c : nat),
       (forall n req, n <> c -> svc' n req = svc n req) ->
       exists results',
         analyze_multiple_frames_async files svc' FRAME_ANALYSIS_PROMPT frame_data
           batch_size log
           = (Return results',
              log ++ flat_map (fun f => requests_of files FRAME_ANALYSIS_PROMPT (snd f))
                       frame_data) /\
         forall k,
           call_number files FRAME_ANALYSIS_PROMPT (List.length log) frame_data k <> c ->
           nth_error results' k = nth_error results k).
Proof.
  intros HB.
  exists (results_from files svc FRAME_ANALYSIS_PROMPT 0 (List.length log) frame_data).
  split; [now apply analyze_multiple_frames_async_run |].
  split; [apply length_results_from |].
  split.
  - intros k ts path Hk. eexists.
    split; [exact (nth_results_from svc frame_data 0 _ k ts path Hk) |].
    cbn [with_metadata timestamp frame_path frame_number].
    split; [reflexivity |]. split; [reflexivity |]. split; [lia |].
    unfold analysis_of, records_failure, records_response.
    destruct (encode_image_to_base64 files path) as [b64 | e]; [| now cbn].
    destruct (svc _ _) as [response | e]; now cbn.
  - intros svc' c Hsvc.
    exists (results_from files svc' FRAME_ANALYSIS_PROMPT 0 (List.length log) frame_data).
    split; [now apply analyze_multiple_frames_async_run |].
    intros k Hc. destruct (nth_error frame_data k) as [[ts path] |] eqn:Hk.
    + rewrite !(nth_results_from _ _ _ _ _ _ _ Hk). f_equal. f_equal.
      apply analysis_of_ext. intros req. now apply Hsvc.
    + apply nth_error_None in Hk.
      rewrite !(proj2 (nth_error_None _ _)); [reflexivity | |];
        now rewrite length_results_from.
Qed.

End Scheduler.

Section SchedulerRuns.
Import Oracle GptUtils Examples.

(** The scheduler on four frames in batches of three: the second frame's
    file is missing, the third frame's request times out. *)
Lemma batch_scheduler_witness :
  exists results,
    analyze_multiple_frames_async files_demo svc_demo "Describe the frame." frames_demo 3 []
      = (Return results,
         flat_map (fun f => requests_of files_demo "Describe the frame." (snd f)) frames_demo) /\
    List.length results = 4%nat /\
    map success results = [true; false; false; true] /\
    map frame_number results = [1; 2; 3; 4].
Proof.
  assert (HB : 0 < 3) by lia.
  destruct (batch_scheduler files_demo "Describe the frame." svc_demo frames_demo 3 [] HB)
    as [results [Hrun [Hlen _]]].
  exists results. split; [exact Hrun |]. split; [exact Hlen |].
  vm_compute in Hrun. injection Hrun as <-. split; reflexivity.
Defined.

End SchedulerRuns.

(** ** Video Summarizer and Similarity Engine *)
Section Similarity.
Import Oracle SimilarityAnalyzer.

Variable summary_prompt : VideoUtils.video_info -> list string -> string.
Variable create_similarity_prompt : list video_summary_info -> string.
Variable pair_prompt : video_summary_info -> video_summary_info -> string.

Lemma prepare_one_succeeded (i : Z) (r : video_result) :
  succeeded r = true <-> exists s, prepare_one i r = Some s.
Proof.
  unfold succeeded, prepare_one. destruct (breakdown_success r) as [[|] |]; split;
    try discriminate; try (intros [s H]; discriminate); eauto.
Qed.

Lemma length_prepare_from (video_results : list video_result) :
  forall i, List.length (prepare_from i video_results)
            = List.length (filter succeeded video_results).
Proof.
  induction video_results as [| r rest IH]; intros i; [reflexivity |].
  cbn [prepare_from filter]. unfold succeeded at 1, prepare_one.
  destruct (breakdown_success r) as [[|] |]; cbn [List.length]; now rewrite IH.
Qed.

(** The summaries keep the order of the succeeded videos. *)
Lemma prepare_from_urls (video_results : list video_result) :
  forall i, map url (prepare_from i video_results)
            = map (fun r => YoutubeUtils.url (download r)) (filter succeeded video_results).
Proof.
  induction video_results as [| r rest IH]; intros i; [reflexivity |].
  cbn [prepare_from filter]. unfold succeeded at 1, prepare_one.
  destruct (breakdown_success r) as [[|] |]; cbn [map url]; now rewrite IH.
Qed.

(** C3. Each of the three operations checks its input before it calls the
    oracle: with no successful frame result the summary, and with fewer than
    two succeeded videos the holistic and the pairwise comparison, return
    [success = false] with an error message and leave the request log as it
    was (no oracle call). *)
Theorem insufficient_input (svc : service) (log : list request) :
  (forall frame_analyses info,
     filter GptUtils.success frame_analyses = [] ->
     exists r,
       GptUtils.generate_comprehensive_summary svc summary_prompt frame_analyses info log
         = (r, log) /\
       GptUtils.s_success r = false /\
       GptUtils.s_error r = Some "No successful frame analyses to summarize"%string) /\
  (forall video_results,
     (List.length (filter succeeded video_results) < 2)%nat ->
     (exists r,
        analyze_similarities_async svc create_similarity_prompt video_results log = (r, log) /\
        sr_success r = false /\
        sr_error r = Some "Need at least 2 successfully analyzed videos for comparison"%string) /\
     (exists r,
        generate_pairwise_comparisons svc pair_prompt video_results log = (r, log) /\
        pr_success r = false /\
        pr_error r = Some "Need at least 2 successfully analyzed videos for comparison"%string)).
Proof.
  split.
  - intros frame_analyses info H. unfold GptUtils.generate_comprehensive_summary.
    rewrite H. cbn [map]. eexists. split; [reflexivity |]. now cbn.
  - intros video_results H.
    assert (L : (List.length (prepare_video_summaries video_results) <? 2)%nat = true).
    { apply Nat.ltb_lt. unfold prepare_video_summaries. now rewrite length_prepare_from. }
    split.
    + unfold analyze_similarities_async. rewrite L.
      eexists. split; [reflexivity |]. now cbn.
    + unfold generate_pairwise_comparisons. rewrite L.
      eexists. split; [reflexivity |]. now cbn.
Qed.

Lemma compare_pairs_run (svc : service)
    (ps : list ((Z * video_summary_info) * (Z * video_summary_info))) :
  forall log,
  mapM (compare_pair svc pair_prompt) ps log =
  (comparisons_from svc pair_prompt (List.length log) ps,
   log ++ map (fun p => pair_request pair_prompt (snd (fst p)) (snd (snd p))) ps).
Proof.
  induction ps as [| p rest IH]; intros log.
  - cbn. unfold ret. now rewrite app_nil_r.
  - cbn [mapM comparisons_from map]. unfold bind at 1. unfold compare_pair at 1.
    unfold bind at 1. unfold create, ret at 1. unfold bind. rewrite IH. unfold ret.
    rewrite length_app, <- app_assoc. cbn [List.length app].
    now rewrite Nat.add_1_r.
Qed.

Lemma length_comparisons_from (svc : service)
    (ps : list ((Z * video_summary_info) * (Z * video_summary_info))) :
  forall n, List.length (comparisons_from svc pair_prompt n ps) = List.length ps.
Proof. induction ps as [| p rest IH]; intros n; cbn; [reflexivity | now rewrite IH]. Qed.

Lemma nth_comparisons_from (svc : service)
    (ps : list ((Z * video_summary_info) * (Z * video_summary_info))) :
  forall n k p,
  nth_error ps k = Some p ->
  nth_error (comparisons_from svc pair_prompt n ps) k =
  Some (comparison_of p (svc (n + k)%nat (pair_request pair_prompt (snd (fst p)) (snd (snd p))))).
Proof.
  induction ps as [| p0 rest IH]; intros n k p H.
  - destruct k; discriminate.
  - destruct k as [| k]; cbn [nth_error comparisons_from] in *.
    + injection H as ->. now rewrite Nat.add_0_r.
    + rewrite (IH _ _ _ H). now rewrite Nat.add_succ_r.
Qed.

(** The number of pairs of [n] summaries, doubled. *)
Lemma length_pairs_from (summaries : list video_summary_info) :
  forall i,
  2 * Z.of_nat (List.length (pairs_from i summaries)) =
  Z.of_nat (List.length summaries) * (Z.of_nat (List.length summaries) - 1).
Proof.
  induction summaries as [| v rest IH]; intros i; [reflexivity |].
  cbn [pairs_from]. rewrite length_app, length_map, length_enumerate_from.
  rewrite Nat2Z.inj_add, Z.mul_add_distr_l, IH. cbn [List.length]. lia.
Qed.

(** The index pairs are those of the nested loops, in the loops' order. *)
Lemma pairs_from_indices (summaries : list video_summary_info) :
  forall i,
  map (fun p => (fst (fst p), fst (snd p))) (pairs_from i summaries) =
  flat_map (fun a => map (fun b => (a, b))
                       (range_from (a + 1) (i + Z.of_nat (List.length summaries))))
    (range_from i (i + Z.of_nat (List.length summaries))).
Proof.
  induction summaries as [| v rest IH]; intros i.
  - unfold range_from, range. cbn. now replace (Z.to_nat (i + 0 - i)) with 0%nat by lia.
  - cbn [pairs_from List.length]. rewrite map_app, map_map. cbn [fst snd].
    rewrite IH.
    assert (E : range_from i (i + Z.of_nat (S (List.length rest)))
                = i :: range_from (i + 1) (i + 1 + Z.of_nat (List.length rest))).
    { unfold range_from, range.
      replace (Z.to_nat (i + Z.of_nat (S (List.length rest)) - i))
        with (S (List.length rest)) by lia.
      replace (Z.to_nat (i + 1 + Z.of_nat (List.length rest) - (i + 1)))
        with (List.length rest) by lia.
      cbn [seq map]. f_equal; [lia |].
      rewrite <- seq_shift, !map_map. apply map_ext. intros k. lia. }
    rewrite E. cbn [flat_map]. f_equal.
    + rewrite <- (map_map fst (fun b => (i, b))), map_fst_enumerate_from.
      unfold range_from.
      now replace (i + Z.of_nat (S (List.length rest)) - (i + 1))
        with (Z.of_nat (List.length rest)) by lia.
    + apply flat_map_ext. intros a. f_equal. f_equal. lia.
Qed.

Lemma pairs_from_lookup (summaries : list video_summary_info) :
  forall i p,
  In p (pairs_from i summaries) ->
  i <= fst (fst p) < fst (snd p) /\
  fst (snd p) < i + Z.of_nat (List.length summaries) /\
  nth_error summaries (Z.to_nat (fst (fst p) - i)) = Some (snd (fst p)) /\
  nth_error summaries (Z.to_nat (fst (snd p) - i)) = Some (snd (snd p)).
Proof.
  induction summaries as [| v rest IH]; intros i p H; [contradiction |].
  cbn [pairs_from] in H. apply in_app_or in H. destruct H as [H | H].
  - apply in_map_iff in H. destruct H as [[j w] [<- H]].
    apply enumerate_from_lookup in H. destruct H as [B N].
    cbn [fst snd List.length]. repeat split; try lia.
    + now replace (Z.to_nat (i - i)) with 0%nat by lia.
    + replace (Z.to_nat (j - i)) with (S (Z.to_nat (j - (i + 1)))) by lia. exact N.
  - destruct (IH _ _ H) as [B [U [N1 N2]]]. cbn [List.length]. repeat split; try lia.
    + replace (Z.to_nat (fst (fst p) - i))
        with (S (Z.to_nat (fst (fst p) - (i + 1)))) by lia. exact N1.
    + replace (Z.to_nat (fst (snd p) - i))
        with (S (Z.to_nat (fst (snd p) - (i + 1)))) by lia. exact N2.
Qed.

(** With at least two succeeded videos the pairwise comparison makes one
    request per pair and succeeds. *)
Lemma generate_pairwise_comparisons_run (svc : service) (video_results : list video_result)
    (log : list request) :
  let ps := pairs_from 0 (prepare_video_summaries video_results) in
  let m := Z.of_nat (List.length (filter succeeded video_results)) in
  2 <= m ->
  Z.of_nat (List.length ps) = m * (m - 1) / 2 /\
  generate_pairwise_comparisons svc pair_prompt video_results log =
  ({| pr_success := true; pr_error := None;
      pairwise_comparisons := comparisons_from svc pair_prompt (List.length log) ps;
      total_pairs := Some (m * (m - 1) / 2);
      total_tokens_used :=
        Some (sum (map tokens_used (comparisons_from svc pair_prompt (List.length log) ps)));
      pr_videos_analyzed := Some m |},
   log ++ map (fun p => pair_request pair_prompt (snd (fst p)) (snd (snd p))) ps).
Proof.
  intros ps m Hm.
  set (summaries := prepare_video_summaries video_results) in *.
  assert (Hlen : Z.of_nat (List.length summaries) = m).
  { subst summaries m. unfold prepare_video_summaries. now rewrite length_prepare_from. }
  assert (L : (List.length summaries <? 2)%nat = false) by (apply Nat.ltb_ge; lia).
  assert (Hcount : Z.of_nat (List.length ps) = m * (m - 1) / 2).
  { pose proof (length_pairs_from summaries 0) as H. fold ps in H. rewrite Hlen in H.
    apply Z.div_unique_exact; lia. }
  split; [exact Hcount |].
  unfold generate_pairwise_comparisons. fold summaries. rewrite L.
  fold ps. unfold bind. rewrite compare_pairs_run. unfold ret.
  now rewrite length_comparisons_from, Hcount, Hlen.
Qed.

(** C4. With [m >= 2] succeeded videos the pairwise comparison succeeds
    with exactly [m * (m - 1) / 2] entries, one oracle request each, in the
    order of the nested loops over [i < j] (reported 1-based), the summaries
    being those of the succeeded videos in their input order.  Entry [k] is
    made from the oracle's answer to request [k] alone: an exception gives
    the text ["Error: " ++ message] and 0 tokens for that pair, a response
    gives its text and token count; an oracle that differs on one request
    changes no other entry.  The total is the sum of the entries' tokens. *)
Theorem pairwise_comparison (svc : service) (video_results : list video_result)
    (log : list request) :
  let summaries := prepare_video_summaries video_results in
  let m := Z.of_nat (List.length (filter succeeded video_results)) in
  2 <= m ->
  exists comparisons requests,
    generate_pairwise_comparisons svc pair_prompt video_results log =
      ({| pr_success := true; pr_error := None;
          pairwise_comparisons := comparisons;
          total_pairs := Some (m * (m - 1) / 2);
          total_tokens_used := Some (sum (map tokens_used comparisons));
          pr_videos_analyzed := Some m |},
       log ++ requests) /\
    Z.of_nat (List.length comparisons) = m * (m - 1) / 2 /\
    List.length requests = List.length comparisons /\
    map url summaries
      = map (fun r => YoutubeUtils.url (download r)) (filter succeeded video_results) /\
    map (fun c => (video1_index c, video2_index c)) comparisons
      = flat_map (fun i => map (fun j => (i + 1, j + 1)) (range_from (i + 1) m)) (range m) /\
    (forall k c,
       nth_error comparisons k = Some c ->
       exists i j video1 video2,
         0 <= i < j /\ j < m /\
         nth_error summaries (Z.to_nat i) = Some video1 /\
         nth_error summaries (Z.to_nat j) = Some video2 /\
         video1_index c = i + 1 /\ video2_index c = j + 1 /\
         video1_title c = title video1 /\ video2_title c = title video2 /\
         match svc (List.length log + k)%nat (pair_request pair_prompt video1 video2) with
         | Raise e =>
             comparison_text c = ("Error: " ++ str_exn e)%string /\ tokens_used c = 0
         | Return response =>
             comparison_text c = content response /\ tokens_used c = total_tokens response
         end) /\
    (forall (svc' : service) (n : nat),
       (forall n' req, n' <> n -> svc' n' req = svc n' req) ->
       exists r',
         generate_pairwise_comparisons svc' pair_prompt video_results log
           = (r', log ++ requests) /\
         forall k, (List.length log + k)%nat <> n ->
           nth_error (pairwise_comparisons r') k = nth_error comparisons k).
Proof.
  intros summaries m Hm.
  assert (Hlen : Z.of_nat (List.length summaries) = m).
  { subst summaries m. unfold prepare_video_summaries. now rewrite length_prepare_from. }
  set (ps := pairs_from 0 summaries).
  assert (Hrun : forall svc0,
            generate_pairwise_comparisons svc0 pair_prompt video_results log =
            ({| pr_success := true; pr_error := None;
                pairwise_comparisons := comparisons_from svc0 pair_prompt (List.length log) ps;
                total_pairs := Some (m * (m - 1) / 2);
                total_tokens_used :=
                  Some (sum (map tokens_used
                               (comparisons_from svc0 pair_prompt (List.length log) ps)));
                pr_videos_analyzed := Some m |},
             log ++ map (fun p => pair_request pair_prompt (snd (fst p)) (snd (snd p))) ps)).
  { intros svc0. now apply generate_pairwise_comparisons_run. }
  assert (Hcount : Z.of_nat (List.length ps) = m * (m - 1) / 2).
  { now apply (generate_pairwise_comparisons_run svc video_results log). }
  exists (comparisons_from svc pair_prompt (List.length log) ps),
         (map (fun p => pair_request pair_prompt (snd (fst p)) (snd (snd p))) ps).
  split; [apply Hrun |].
  split; [now rewrite length_comparisons_from |].
  split; [now rewrite length_map, length_comparisons_from |].
  split; [apply prepare_from_urls |].
  split; [| split].
  - pose proof (pairs_from_indices summaries 0) as H. fold ps in H.
    rewrite Hlen, !Z.add_0_l in H.
    assert (E : forall n qs,
              map (fun c => (video1_index c, video2_index c))
                (comparisons_from svc pair_prompt n qs)
              = map (fun q => (fst q + 1, snd q + 1))
                  (map (fun p => (fst (fst p), fst (snd p))) qs)).
    { intros n qs. revert n. induction qs as [| [[i v1] [j v2]] qs IH]; intros n;
        [reflexivity |]. cbn [comparisons_from map]. now rewrite IH. }
    assert (R : range_from 0 m = range m).
    { unfold range_from. rewrite Z.sub_0_r.
      rewrite (map_ext (fun k => 0 + k) (fun k => k)) by (intros; lia). apply map_id. }
    rewrite E, H, R.
    generalize (range m) as l. induction l as [| a l IH]; [reflexivity |].
    cbn [flat_map]. rewrite map_app, IH. f_equal. now rewrite map_map.
  - intros k c Hk.
    destruct (nth_error ps k) as [p |] eqn:Hp.
    + rewrite (nth_comparisons_from svc ps _ _ _ Hp) in Hk. injection Hk as <-.
      pose proof (pairs_from_lookup summaries 0 p (nth_error_In _ _ Hp))
        as [B [U [N1 N2]]].
      destruct p as [[i video1] [j video2]]. cbn [fst snd] in *.
      rewrite Z.sub_0_r in N1, N2.
      exists i, j, video1, video2. cbn [comparison_of video1_index video2_index
        video1_title video2_title comparison_text tokens_used].
      repeat split; try lia; try assumption.
      now destruct (svc _ _).
    + apply nth_error_None in Hp.
      assert (Hnone : nth_error (comparisons_from svc pair_prompt (List.length log) ps) k = None)
        by (apply nth_error_None; now rewrite length_comparisons_from).
      rewrite Hnone in Hk. discriminate.
  - intros svc' n Hsvc. eexists. split; [apply Hrun |].
    cbn [pairwise_comparisons]. intros k Hk.
    destruct (nth_error ps k) as [p |] eqn:Hp.
    + rewrite !(nth_comparisons_from _ ps _ _ _ Hp). now rewrite Hsvc.
    + apply nth_error_None in Hp.
      rewrite !(proj2 (nth_error_None _ _)); [reflexivity | |];
        now rewrite length_comparisons_from.
Qed.

End Similarity.

(** ** Batch Orchestrator *)
Section Orchestrator.
Import Oracle YoutubeUtils SimilarityAnalyzer BatchProcessor.

Variable get_video_info : string -> option yt_info.
Variable download_video : string -> Z -> option string.
Variable Frame : Type.
Variable path_exists : string -> bool.
Variable makedirs : string -> option exn.
Variable VideoCapture : string -> VideoUtils.VideoCapture Frame.
Variable imwrite : string -> Frame -> bool.
Variable files : string -> option (res string).
Variable svc : service.
Variable FRAME_ANALYSIS_PROMPT : string.
Variable summary_prompt : VideoUtils.video_info -> list string -> string.
Variable create_similarity_prompt : list video_summary_info -> string.
Variable pair_prompt : video_summary_info -> video_summary_info -> string.
Variable write_json : string -> option exn.
Variable output_dir : string.

Lemma download_one_shape (u : string) (duration_seconds : Z) :
  YoutubeUtils.url (download_one get_video_info download_video u duration_seconds) = u /\
  well_formed (download_one get_video_info download_video u duration_seconds).
Proof.
  unfold download_one, well_formed. destruct (get_video_info u) as [i |]; cbn.
  - destruct (download_video u duration_seconds); cbn; repeat split; auto; discriminate.
  - auto.
Qed.

Lemma slice_to_nonneg {A : Type} (l : list A) (k : Z) :
  0 <= k -> (if Z.of_nat (List.length l) >? k then slice_to l k else l)
            = firstn (Z.to_nat k) l.
Proof.
  intros H. unfold slice_to. rewrite (proj2 (Z.ltb_ge _ _) H).
  destruct (Z.gtb_spec (Z.of_nat (List.length l)) k) as [G | G]; [reflexivity |].
  symmetry. apply firstn_all2. lia.
Qed.

Lemma download_multiple_videos_urls (urls : list string) (duration_seconds max_videos : Z) :
  0 <= max_videos ->
  map YoutubeUtils.url
    (download_multiple_videos get_video_info download_video urls duration_seconds max_videos)
  = firstn (Z.to_nat max_videos) (filter is_valid_youtube_url urls).
Proof.
  intros H. unfold download_multiple_videos, validate_urls.
  rewrite slice_to_nonneg by exact H. rewrite map_map.
  rewrite (map_ext _ (fun u => u)); [apply map_id |].
  intros u. apply download_one_shape.
Qed.

Lemma download_multiple_videos_shape (urls : list string) (duration_seconds max_videos : Z) :
  Forall well_formed
    (download_multiple_videos get_video_info download_video urls duration_seconds max_videos).
Proof.
  unfold download_multiple_videos, validate_urls. apply Forall_forall.
  intros r Hr. apply in_map_iff in Hr. destruct Hr as [u [<- _]].
  apply download_one_shape.
Qed.

Lemma process_single_video_shape (d : download_result)
    (duration_seconds max_frames_per_video batch_size video_index : Z)
    (log : list request) :
  let r := fst (process_single_video Frame path_exists makedirs VideoCapture imwrite files svc
                  FRAME_ANALYSIS_PROMPT summary_prompt write_json output_dir d
                  duration_seconds max_frames_per_video batch_size video_index log) in
  download r = d /\ settled r.
Proof.
  assert (F : forall msg, download (breakdown_failed d msg) = d /\
                          settled (breakdown_failed d msg)).
  { intros msg. split; [reflexivity |]. right. cbn. eauto. }
  cbv zeta. unfold process_single_video.
  destruct (YoutubeUtils.video_path d) as [video_path |]; [| apply F].
  destruct (negb _); [apply F |].
  destruct (VideoUtils.get_video_info _ _) as [detailed_info | e]; [| apply F].
  destruct (YoutubeUtils.info d) as [video_info |]; [| apply F].
  destruct (makedirs _) as [e |] eqn:Mk; [apply F |].
  unfold VideoUtils.extract_fixed_frames_fs. rewrite Mk.
  destruct (snd _) as [[| f extracted] | e]; [apply F | | apply F].
  unfold bind.
  destruct (GptUtils.analyze_multiple_frames_async _ _ _ _ _ _) as [[frame_analyses | e] log1];
    [| apply F].
  destruct (GptUtils.generate_comprehensive_summary _ _ _ _ _) as [video_summary log2].
  destruct (write_json _); [apply F |].
  split; [reflexivity |]. now left.
Qed.

Lemma mapM_Forall2 {A B : Type} (f : A -> M B) (P : A -> B -> Prop) :
  (forall x log, P x (fst (f x log))) ->
  forall l log, Forall2 P l (fst (mapM f l log)).
Proof.
  intros H. induction l as [| x l IH]; intros log; cbn [mapM].
  - constructor.
  - unfold bind. pose proof (H x log) as Hx. destruct (f x log) as [y log1].
    specialize (IH log1). destruct (mapM f l log1) as [ys log2]. cbn in *.
    now constructor.
Qed.

Lemma map_snd_enumerate_from {A : Type} (l : list A) :
  forall start, map snd (enumerate_from start l) = l.
Proof. induction l as [| x l IH]; intros start; cbn; [reflexivity | now rewrite IH]. Qed.

Lemma analyze_similarities_async_compared (video_results : list video_result)
    (log : list request) :
  let m := Z.of_nat (List.length (filter succeeded video_results)) in
  2 <= m ->
  sr_videos_compared
    (fst (analyze_similarities_async svc create_similarity_prompt video_results log))
  = Some m.
Proof.
  intros m Hm. unfold analyze_similarities_async.
  assert (Hlen : Z.of_nat (List.length (prepare_video_summaries video_results)) = m).
  { subst m. unfold prepare_video_summaries. now rewrite length_prepare_from. }
  rewrite (proj2 (Nat.ltb_ge _ _)) by lia.
  unfold bind, create. destruct (svc _ _); cbn; now rewrite Hlen.
Qed.

Lemma analyze_video_similarities_shape (video_results : list video_result)
    (log : list request) :
  let m := Z.of_nat (List.length (filter succeeded video_results)) in
  let sim := fst (analyze_video_similarities svc create_similarity_prompt pair_prompt
                    write_json output_dir video_results log) in
  2 <= m ->
  match write_json (os_path_join (similarity_dir output_dir) "similarity_analysis.json") with
  | Some e => sa_success sim = Some false /\ sa_error sim = Some (str_exn e)
  | None =>
      exists sr pr,
        comprehensive_analysis sim = Some sr /\ pairwise sim = Some pr /\
        sr_videos_compared sr = Some m /\ pr_success pr = true /\
        Z.of_nat (List.length (pairwise_comparisons pr)) = m * (m - 1) / 2
  end.
Proof.
  intros m sim Hm. subst sim. unfold analyze_video_similarities, bind.
  pose proof (analyze_similarities_async_compared video_results log Hm) as Hsr.
  destruct (analyze_similarities_async svc create_similarity_prompt video_results log)
    as [sr log1].
  destruct (generate_pairwise_comparisons_run pair_prompt svc video_results log1 Hm)
    as [Hcount Hrun].
  rewrite Hrun.
  destruct (write_json _) as [e |]; cbn; [auto |].
  eexists. eexists. repeat split; try reflexivity; [exact Hsr |].
  cbn. now rewrite length_comparisons_from.
Qed.

(** Two runs on the same video agree on whether it counts as analysed and
    on the error message, whatever the request logs they start from: the
    videos processed before leave no mark on this one. *)
Lemma process_single_video_alone (d : download_result)
    (duration_seconds max_frames_per_video batch_size video_index : Z)
    (log log' : list request) :
  let r := fst (process_single_video Frame path_exists makedirs VideoCapture imwrite files
                  svc FRAME_ANALYSIS_PROMPT summary_prompt write_json output_dir d
                  duration_seconds max_frames_per_video batch_size video_index log) in
  let alone := fst (process_single_video Frame path_exists makedirs VideoCapture imwrite
                      files svc FRAME_ANALYSIS_PROMPT summary_prompt write_json output_dir d
                      duration_seconds max_frames_per_video batch_size video_index log') in
  breakdown_success r = breakdown_success alone /\
  breakdown_error r = breakdown_error alone.
Proof.
  cbv zeta. unfold process_single_video.
  destruct (YoutubeUtils.video_path d) as [video_path |]; [| now split].
  destruct (negb _); [now split |].
  destruct (VideoUtils.get_video_info _ _) as [detailed_info | e]; [| now split].
  destruct (YoutubeUtils.info d) as [video_info |]; [| now split].
  destruct (makedirs _) as [e |]; [now split |].
  destruct (snd _) as [[| f extracted] | e]; [now split | | now split].
  unfold bind, GptUtils.analyze_multiple_frames_async.
  destruct (range_step _ batch_size) as [starts | e]; [| now split].
  unfold bind.
  destruct (GptUtils.batches_loop _ _ _ _ _ _ log) as [results log1].
  destruct (GptUtils.batches_loop _ _ _ _ _ _ log') as [results' log1'].
  unfold ret.
  destruct (GptUtils.generate_comprehensive_summary _ _ _ _ log1) as [vs log2].
  destruct (GptUtils.generate_comprehensive_summary _ _ _ _ log1') as [vs' log2'].
  destruct (write_json _); now split.
Qed.

Lemma download_multiple_videos_entries (urls : list string)
    (duration_seconds max_videos : Z) :
  0 <= max_videos ->
  download_multiple_videos get_video_info download_video urls duration_seconds max_videos
  = map (fun u => download_one get_video_info download_video u duration_seconds)
      (firstn (Z.to_nat max_videos) (filter is_valid_youtube_url urls)).
Proof.
  intros H. unfold download_multiple_videos, validate_urls.
  now rewrite slice_to_nonneg by exact H.
Qed.

(** C6, as the code has it.  The download results hold one entry per valid
    YouTube URL of the input, in input order, up to the video limit (a URL
    that fails validation gets no entry); the entry of a URL is the outcome
    of its own lookup and download, a success with a file and metadata or a
    failure with an error message.  Unless no download succeeded, every
    successful download is processed, in order: the k-th result is the
    result of [process_single_video] on the k-th successful download, a
    success or a failure with an error message, and whether it succeeded
    and with which message is what processing that video alone gives,
    whatever happened to the others.  With two or more processed
    successfully the similarity stage compares them all, or reports a
    failure when its file cannot be written.  The run raises only when the
    report cannot be written. *)
Theorem batch_orchestrator (urls : list string)
    (duration_seconds max_videos max_frames_per_video batch_size : Z)
    (log : list request) :
  let downloads :=
    download_multiple_videos get_video_info download_video urls duration_seconds
      max_videos in
  let process d i :=
    process_single_video Frame path_exists makedirs VideoCapture imwrite files svc
      FRAME_ANALYSIS_PROMPT summary_prompt write_json output_dir d duration_seconds
      max_frames_per_video batch_size i in
  (0 <= max_videos ->
     downloads
     = map (fun u => download_one get_video_info download_video u duration_seconds)
         (firstn (Z.to_nat max_videos) (filter is_valid_youtube_url urls)) /\
     map YoutubeUtils.url downloads
     = firstn (Z.to_nat max_videos) (filter is_valid_youtube_url urls)) /\
  Forall well_formed downloads /\
  match fst (process_youtube_urls get_video_info download_video Frame path_exists makedirs
               VideoCapture imwrite files svc FRAME_ANALYSIS_PROMPT summary_prompt
               create_similarity_prompt pair_prompt write_json output_dir urls
               duration_seconds max_videos max_frames_per_video batch_size log) with
  | Return (NoDownloads _ reported) =>
      reported = downloads /\ filter YoutubeUtils.success downloads = []
  | Return (Done final_report) =>
      let m := Z.of_nat (List.length (filter succeeded (video_analyses final_report))) in
      download_results final_report = downloads /\
      map download (video_analyses final_report) = filter YoutubeUtils.success downloads /\
      Forall settled (video_analyses final_report) /\
      Forall2 (fun slot r =>
                 (exists log_k, r = fst (process (snd slot) (fst slot) log_k)) /\
                 (forall log_alone,
                    breakdown_success r
                      = breakdown_success (fst (process (snd slot) (fst slot) log_alone)) /\
                    breakdown_error r
                      = breakdown_error (fst (process (snd slot) (fst slot) log_alone))))
        (enumerate_from 1 (filter YoutubeUtils.success downloads))
        (video_analyses final_report) /\
      (2 <= m ->
       match write_json (os_path_join (similarity_dir output_dir)
                           "similarity_analysis.json") with
       | Some e =>
           sa_success (similarity final_report) = Some false /\
           sa_error (similarity final_report) = Some (str_exn e)
       | None =>
           exists sr pr,
             comprehensive_analysis (similarity final_report) = Some sr /\
             pairwise (similarity final_report) = Some pr /\
             sr_videos_compared sr = Some m /\ pr_success pr = true /\
             Z.of_nat (List.length (pairwise_comparisons pr)) = m * (m - 1) / 2
       end)
  | Raise e => write_json (os_path_join output_dir "batch_analysis_report.json") = Some e
  end.
Proof.
  intros downloads process.
  split.
  { intros H. split; [now apply download_multiple_videos_entries |].
    now apply download_multiple_videos_urls. }
  split; [apply download_multiple_videos_shape |].
  unfold process_youtube_urls. fold downloads.
  destruct (filter YoutubeUtils.success downloads) as [| d0 ds] eqn:Hs; [now cbn |].
  unfold bind.
  set (step := fun '(i, download_result) =>
                 process_single_video Frame path_exists makedirs VideoCapture imwrite files svc
                   FRAME_ANALYSIS_PROMPT summary_prompt write_json output_dir
                   download_result duration_seconds max_frames_per_video batch_size i).
  assert (Hstep : forall x log0,
            (download (fst (step x log0)) = snd x /\ settled (fst (step x log0))) /\
            (exists log_k, fst (step x log0) = fst (process (snd x) (fst x) log_k)) /\
            (forall log_alone,
               breakdown_success (fst (step x log0))
                 = breakdown_success (fst (process (snd x) (fst x) log_alone)) /\
               breakdown_error (fst (step x log0))
                 = breakdown_error (fst (process (snd x) (fst x) log_alone)))).
  { intros [i d] log0. cbn [fst snd step]. split; [| split].
    - apply process_single_video_shape.
    - now exists log0.
    - intros log_alone. apply process_single_video_alone. }
  pose proof (mapM_Forall2 step
                (fun x r =>
                   (download r = snd x /\ settled r) /\
                   (exists log_k, r = fst (process (snd x) (fst x) log_k)) /\
                   (forall log_alone,
                      breakdown_success r
                        = breakdown_success (fst (process (snd x) (fst x) log_alone)) /\
                      breakdown_error r
                        = breakdown_error (fst (process (snd x) (fst x) log_alone))))
                Hstep (enumerate_from 1 (d0 :: ds)) log) as HF.
  destruct (mapM step (enumerate_from 1 (d0 :: ds)) log) as [video_results log1].
  cbn [fst] in HF.
  pose proof (analyze_video_similarities_shape video_results log1) as HS.
  cbv zeta in HS.
  destruct (analyze_video_similarities svc create_similarity_prompt pair_prompt write_json
              output_dir video_results log1) as [sim log2].
  cbn [fst] in HS.
  destruct (write_json (os_path_join output_dir "batch_analysis_report.json")) as [e |];
    [reflexivity |].
  cbn [fst ret generate_final_report download_results video_analyses similarity].
  split; [reflexivity |].
  assert (HD : map download video_results = d0 :: ds /\ Forall settled video_results).
  { rewrite <- (map_snd_enumerate_from (d0 :: ds) 1) at 1.
    clear - HF. induction HF as [| x r l rs [[H1 H2] _] _ IH]; [split; constructor |].
    destruct IH as [IH1 IH2]. cbn [map]. rewrite H1, IH1. split; [reflexivity |].
    now constructor. }
  destruct HD as [HD1 HD2].
  split; [exact HD1 |]. split; [exact HD2 |]. split; [| exact HS].
  clear - HF. induction HF as [| x r l rs [_ H] _ IH]; constructor; assumption.
Qed.

End Orchestrator.

Section SimilarityRuns.
Import Oracle SimilarityAnalyzer Examples.

(** The three checks on inputs that are too small: three failed frame
    results, and one succeeded video among two. *)
Lemma insufficient_input_witness :
  (exists r,
     GptUtils.generate_comprehensive_summary svc_demo prompt_of_summary failed_frames
       {| fps := 1; total_frames := 3; duration_seconds := 3;
          width := 640; height := 360; resolution := "640x360" |} [] = (r, []) /\
     GptUtils.s_success r = false) /\
  (exists r,
     analyze_similarities_async svc_demo prompt_of_videos
       [video_done url_a "First" "A talk."; video_broken url_c] [] = (r, []) /\
     sr_success r = false) /\
  (exists r,
     generate_pairwise_comparisons svc_demo prompt_of_pair
       [video_done url_a "First" "A talk."; video_broken url_c] [] = (r, []) /\
     pr_success r = false).
Proof.
  destruct (insufficient_input prompt_of_summary prompt_of_videos prompt_of_pair svc_demo [])
    as [H1 H2].
  split.
  - destruct (H1 failed_frames
                {| fps := 1; total_frames := 3; duration_seconds := 3;
                   width := 640; height := 360; resolution := "640x360" |} eq_refl)
      as [r [Hr [Hs _]]].
    exists r. auto.
  - assert (L : (List.length (filter succeeded
                   [video_done url_a "First" "A talk."; video_broken url_c]) < 2)%nat)
      by (cbn; lia).
    destruct (H2 _ L) as [[r [Hr [Hs _]]] [r' [Hr' [Hs' _]]]].
    split; [exists r | exists r']; auto.
Defined.

(** Three succeeded videos among four: three comparisons, the second of
    which records the oracle's failure on the second request. *)
Lemma pairwise_comparison_witness :
  exists r log,
    generate_pairwise_comparisons svc_demo prompt_of_pair videos_demo [] = (r, log) /\
    pr_success r = true /\ total_pairs r = Some 3 /\ List.length log = 3%nat /\
    map (fun c => (video1_index c, video2_index c)) (pairwise_comparisons r)
      = [(1, 2); (1, 3); (2, 3)] /\
    map comparison_text (pairwise_comparisons r)
      = ["A person at a desk."; "Error: Request timed out."; "A person at a desk."]%string /\
    map tokens_used (pairwise_comparisons r) = [321; 0; 321] /\
    total_tokens_used r = Some 642.
Proof.
  assert (Hm : 2 <= Z.of_nat (List.length (filter succeeded videos_demo))) by (cbn; lia).
  destruct (pairwise_comparison prompt_of_pair svc_demo videos_demo [] Hm)
    as [comparisons [requests [Hrun _]]].
  eexists. eexists. split; [exact Hrun |].
  assert (Hc : comparisons
               = pairwise_comparisons
                   (fst (generate_pairwise_comparisons svc_demo prompt_of_pair videos_demo [])))
    by now rewrite Hrun.
  assert (Hq : requests
               = snd (generate_pairwise_comparisons svc_demo prompt_of_pair videos_demo []))
    by now rewrite Hrun.
  vm_compute in Hc, Hq. subst comparisons requests.
  repeat split; reflexivity.
Defined.

End SimilarityRuns.

Section OrchestratorRuns.
Import Oracle YoutubeUtils SimilarityAnalyzer BatchProcessor Examples.

(** C6 does not hold as stated: the second of the four requested URLs is no
    YouTube URL, and the download results hold no entry for it. *)
Lemma invalid_url_has_no_entry :
  In url_b urls_demo /\
  map YoutubeUtils.url (download_multiple_videos info_demo download_demo urls_demo 20 10)
    = [url_a; url_c; url_d] /\
  ~ In url_b
      (map YoutubeUtils.url
         (download_multiple_videos info_demo download_demo urls_demo 20 10)).
Proof.
  split; [right; now left |]. split; [reflexivity |].
  intros H. vm_compute in H. repeat (destruct H as [H | H]; [discriminate |]). exact H.
Qed.

(** The batch of four URLs: three entries in the download results, one of
    them a failed download; the two downloaded videos are both processed and
    compared. *)
Lemma batch_orchestrator_witness :
  map YoutubeUtils.url (download_multiple_videos info_demo download_demo urls_demo 20 10)
    = firstn 10 (filter is_valid_youtube_url urls_demo) /\
  Forall well_formed (download_multiple_videos info_demo download_demo urls_demo 20 10) /\
  exists final_report,
    fst batch_demo = Return (Done final_report) /\
    map download (video_analyses final_report)
      = filter YoutubeUtils.success
          (download_multiple_videos info_demo download_demo urls_demo 20 10) /\
    Forall settled (video_analyses final_report).
Proof.
  pose proof (batch_orchestrator info_demo download_demo nat (fun _ => true) world_makedirs
                world_capture write_ok world_files svc_demo "Describe the frame."
                prompt_of_summary prompt_of_videos prompt_of_pair world_json
                "batch_outputs" urls_demo 20 10 20 5 []) as [H1 [H2 H3]].
  split; [apply H1; lia |]. split; [exact H2 |].
  fold batch_demo in H3.
  destruct (fst batch_demo) as [[msg reported | final_report] | e] eqn:E.
  - vm_compute in E. discriminate.
  - exists final_report. destruct H3 as [_ [H3 [H4 _]]]. auto.
  - vm_compute in E. discriminate.
Defined.

End OrchestratorRuns.

(** * Further properties of the code *)

(** ** video_utils.py: the decoder trace and the analysis window *)
Section SamplerTrace.

Variable Frame : Type.
Variable imwrite : string -> Frame -> bool.

Lemma frame_indices_in_window (n max_frames : Z) :
  Forall (fun i => 0 <= i < n) (frame_indices n max_frames).
Proof.
  apply Forall_forall. intros i Hi.
  destruct (Z.leb_spec n max_frames) as [H | H].
  - rewrite frame_indices_dense in Hi by exact H. now apply in_range.
  - destruct (Z.leb_spec max_frames 0) as [H0 | H0].
    + unfold frame_indices in Hi. rewrite (proj2 (Z.leb_gt _ _) H) in Hi.
      rewrite range_nonpos in Hi by exact H0. contradiction.
    + rewrite frame_indices_sparse in Hi by lia.
      apply in_map_iff in Hi. destruct Hi as [k [<- Hk]]. apply in_range in Hk.
      unfold Spec.index. split.
      * apply Z.div_pos; nia.
      * apply Z.div_lt_upper_bound; nia.
Qed.

Lemma extract_loop_trace (cap : VideoCapture Frame) (output_dir : string) (fps : Q)
    (todo : list (Z * Z)) :
  let evs := fst (extract_loop imwrite cap output_dir fps todo) in
  seek_positions evs = map snd todo /\
  reads evs = List.length todo /\
  written_paths evs
    = map (fun slot => snd (sampled output_dir fps slot))
        (filter (fun slot => match read_at cap (snd slot) with
                             | Some _ => true
                             | None => false
                             end) todo) /\
  (forall held, handle_held held evs = held).
Proof.
  induction todo as [| [i frame_index] rest IH]; cbv zeta.
  - cbn. auto.
  - cbn [extract_loop]. cbv zeta in IH.
    destruct (extract_loop imwrite cap output_dir fps rest) as [evs out].
    cbn [fst] in IH. destruct IH as [IH1 [IH2 [IH3 IH4]]].
    cbn [filter snd]. destruct (read_at cap frame_index) as [frame |]; cbn [fst].
    + cbn [seek_positions written_paths map snd handle_held]. unfold reads in *.
      cbn [filter List.length]. rewrite IH1, IH2, IH3. auto.
    + cbn [seek_positions written_paths map snd handle_held]. unfold reads in *.
      cbn [filter List.length]. rewrite IH1, IH2, IH3. auto.
Qed.

Lemma handle_held_app (evs1 evs2 : list event) (held : bool) :
  handle_held held (evs1 ++ evs2) = handle_held (handle_held held evs1) evs2.
Proof.
  revert held. induction evs1 as [| e evs1 IH]; intros held; [reflexivity |].
  destruct e; cbn [app handle_held]; apply IH.
Qed.





(** X2. After a successful extraction at a positive frame rate every
    returned timestamp lies in the analysis window: it is at least 0 and
    strictly below both the video's duration and [max_duration]. *)
Theorem timestamps_in_window (cap : VideoCapture Frame) (video_path output_dir : string)
    (max_frames : Z) (max_duration : Q) (evs : list event) (frames : list (Q * string)) :
  (0 < CAP_PROP_FPS cap)%Q ->
  extract_fixed_frames imwrite cap video_path output_dir max_frames max_duration
    = (evs, Return frames) ->
  let duration :=
    (float_of_int (int_of_float (CAP_PROP_FRAME_COUNT cap)) / CAP_PROP_FPS cap)%Q in
  Forall (fun f => (0 <= fst f)%Q /\ (fst f < duration)%Q /\ (fst f < max_duration)%Q) frames.
Proof.
  intros Hfps Hrun duration.
  assert (Ho : isOpened cap = true).
  { unfold extract_fixed_frames in Hrun. destruct (isOpened cap); [reflexivity |].
    cbn [negb] in Hrun. discriminate. }
  rewrite extract_fixed_frames_opened in Hrun by auto using fzero_pos.
  cbv zeta in Hrun. injection Hrun as _ <-.
  set (fps := CAP_PROP_FPS cap) in *.
  set (total := int_of_float (CAP_PROP_FRAME_COUNT cap)) in *.
  set (n := analysis_frames fps total max_duration).
  apply Forall_forall. intros f Hf. apply in_map_iff in Hf.
  destruct Hf as [[i idx] [<- Hin]]. apply filter_In in Hin. destruct Hin as [Hin _].
  assert (Hidx : 0 <= idx < n).
  { pose proof (frame_indices_in_window n max_frames) as W. rewrite Forall_forall in W.
    apply W. unfold enumerate in Hin.
    rewrite <- (map_snd_enumerate_from (frame_indices n max_frames) 0).
    apply (in_map snd) in Hin. exact Hin. }
  cbn [sampled fst snd]. unfold fdiv. rewrite Qred_correct.
  set (x := (fps * Qmin (float_of_int total / fps) max_duration)%Q).
  assert (Hx : (inject_Z (idx + 1) <= x)%Q).
  { assert (Hn : n = int_of_float x) by apply analysis_frames_value.
    assert (Hpos : (0 <= x)%Q).
    { destruct (Qlt_le_dec x 0) as [L | L]; [| exact L].
      pose proof (int_of_float_sign x (Qlt_le_weak _ _ L)). lia. }
    rewrite (int_of_float_nonneg x Hpos) in Hn.
    apply Qle_trans with (inject_Z n).
    - rewrite <- Zle_Qle. lia.
    - rewrite Hn. apply Qfloor_le. }
  assert (Hlt : (float_of_int idx / fps < Qmin (float_of_int total / fps) max_duration)%Q).
  { apply Qlt_shift_div_r; [exact Hfps |].
    apply Qlt_le_trans with (inject_Z (idx + 1)).
    - unfold float_of_int. rewrite <- Zlt_Qlt. lia.
    - subst x. now rewrite Qmult_comm. }
  split; [| split].
  - apply Qle_shift_div_l; [exact Hfps |]. rewrite Qmult_0_l.
    unfold float_of_int. change 0%Q with (inject_Z 0). rewrite <- Zle_Qle. lia.
  - eapply Qlt_le_trans; [exact Hlt | apply Q.le_min_l].
  - eapply Qlt_le_trans; [exact Hlt | apply Q.le_min_r].
Qed.

(** X3. Interval sampling with a step that truncates to zero: when the first
    picture decodes the scan stops at once with [ZeroDivisionError], nothing
    is written and the handle is not released; when no picture decodes the
    scan returns the empty list. *)
Theorem interval_zero_step (cap : VideoCapture Frame) (video_path output_dir : string)
    (interval_seconds : Q) :
  isOpened cap = true -> fzero (CAP_PROP_FPS cap) = false ->
  int_of_float (fmul (CAP_PROP_FPS cap) interval_seconds) = 0 ->
  let run := extract_frames imwrite cap video_path output_dir interval_seconds in
  match readable (pictures cap) with
  | [] => run = ([Makedirs output_dir; Open video_path; Read; Release], Return [])
  | _ :: _ =>
      run = ([Makedirs output_dir; Open video_path; Read],
             Raise (ZeroDivisionError "integer modulo by zero")) /\
      handle_held false (fst run) = true /\ written_paths (fst run) = []
  end.
Proof.
  intros Ho Hz Hstep run. subst run. unfold extract_frames.
  rewrite Ho, Hz, Hstep. cbn [negb].
  destruct (pictures cap) as [| [frame |] rest]; cbn; auto.
Qed.

Lemma div_ceil_succ (n a : Z) :
  0 <= n -> 0 < a ->
  (n + 1 + a - 1) / a = (n + a - 1) / a + (if n mod a =? 0 then 1 else 0).
Proof.
  intros Hn Ha.
  pose proof (Z.div_mod n a ltac:(lia)) as D.
  pose proof (Z.mod_pos_bound n a Ha) as B.
  assert (E1 : (n + 1 + a - 1) / a = n / a + 1).
  { symmetry. apply (Z.div_unique _ _ _ (n mod a)); lia. }
  rewrite E1. destruct (Z.eqb_spec (n mod a) 0) as [Z0 | Z0].
  - assert (E2 : (n + a - 1) / a = n / a).
    { symmetry. apply (Z.div_unique _ _ _ (a - 1)); lia. }
    lia.
  - assert (E2 : (n + a - 1) / a = n / a + 1).
    { symmetry. apply (Z.div_unique _ _ _ (n mod a - 1)); lia. }
    lia.
Qed.

Lemma mod_abs_zero (i s : Z) : s <> 0 -> (i mod s =? 0) = (i mod Z.abs s =? 0).
Proof.
  intros Hs. destruct (Z.abs_spec s) as [[_ ->] | [Hneg ->]]; [reflexivity |].
  apply Bool.eq_true_iff_eq. rewrite !Z.eqb_eq.
  rewrite (Z.mod_divide i s) by lia. rewrite (Z.mod_divide i (- s)) by lia.
  symmetry. apply Z.divide_opp_l.
Qed.

(** The number of multiples of [s] among [0 .. n - 1]. *)
Lemma count_multiples (s : Z) (n : nat) :
  s <> 0 ->
  Z.of_nat (List.length (filter (fun i => i mod s =? 0) (map Z.of_nat (seq 0 n))))
  = (Z.of_nat n + Z.abs s - 1) / Z.abs s.
Proof.
  intros Hs. assert (Ha : 0 < Z.abs s) by lia.
  induction n as [| n IH].
  - cbn [seq map filter List.length Z.of_nat]. symmetry. apply Z.div_small. lia.
  - rewrite seq_S, map_app, filter_app, length_app, Nat2Z.inj_add, IH.
    cbn [Nat.add map filter].
    replace (Z.of_nat (S n) + Z.abs s - 1) with (Z.of_nat n + 1 + Z.abs s - 1) by lia.
    rewrite div_ceil_succ by lia. rewrite (mod_abs_zero _ s Hs).
    now destruct (Z.of_nat n mod Z.abs s =? 0).
Qed.

Lemma enumerate_from_fst_sorted {A : Type} (l : list A) :
  forall start, StronglySorted (fun p q => fst p < fst q) (enumerate_from start l).
Proof.
  induction l as [| x l IH]; intros start; cbn [enumerate_from]; constructor; [apply IH |].
  apply Forall_forall. intros [j y] Hj. apply enumerate_from_lookup in Hj. cbn [fst]. lia.
Qed.

Lemma length_filter_fst {A : Type} (p : Z -> bool) (l : list (Z * A)) :
  List.length (filter (fun slot => p (fst slot)) l) = List.length (filter p (map fst l)).
Proof.
  induction l as [| x l IH]; [reflexivity |]. cbn [filter map].
  destruct (p (fst x)); cbn [List.length]; now rewrite IH.
Qed.

(** X4. Interval sampling on an opened video with a positive frame rate and
    a nonzero step returns normally, with strictly increasing timestamps and
    at most ceil(N / |step|) frames, [N] being the number of pictures the scan
    delivers; it returns exactly that many when every image is written. *)
Theorem interval_sampling_count (cap : VideoCapture Frame) (video_path output_dir : string)
    (interval_seconds : Q) :
  isOpened cap = true -> (0 < CAP_PROP_FPS cap)%Q ->
  let step := int_of_float (fmul (CAP_PROP_FPS cap) interval_seconds) in
  let delivered := Z.of_nat (List.length (readable (pictures cap))) in
  step <> 0 ->
  exists frames,
    snd (extract_frames imwrite cap video_path output_dir interval_seconds) = Return frames /\
    StronglySorted Qlt (map fst frames) /\
    Z.of_nat (List.length frames) <= (delivered + Z.abs step - 1) / Z.abs step /\
    ((forall path frame, imwrite path frame = true) ->
     Z.of_nat (List.length frames) = (delivered + Z.abs step - 1) / Z.abs step).
Proof.
  intros Ho Hfps step delivered Hstep. unfold extract_frames.
  rewrite Ho, (fzero_pos _ Hfps). cbn [negb]. fold step.
  pose proof (scan_loop_value Frame imwrite output_dir (CAP_PROP_FPS cap) step
                (pictures cap) 0 Hstep) as H.
  destruct (scan_loop imwrite output_dir (CAP_PROP_FPS cap) step (pictures cap) 0)
    as [evs r].
  destruct H as [-> _]. cbn [snd]. eexists. split; [reflexivity |].
  set (slots := enumerate_from 0 (readable (pictures cap))).
  assert (Hcount : Z.of_nat (List.length (filter (fun slot => fst slot mod step =? 0) slots))
                   = (delivered + Z.abs step - 1) / Z.abs step).
  { rewrite (length_filter_fst (fun i => i mod step =? 0)). subst slots.
    rewrite map_fst_enumerate_from.
    rewrite (map_ext (fun k => 0 + k) (fun k => k)) by (intros; lia). rewrite map_id.
    unfold range. rewrite Nat2Z.id. now apply count_multiples. }
  split; [| split].
  - rewrite map_map. apply sorted_map. apply sorted_filter.
    eapply sorted_weaken; [| apply enumerate_from_fst_sorted].
    intros a b Hab. cbn [interval_sampled fst]. now apply fdiv_lt.
  - rewrite length_map, <- Hcount. apply inj_le.
    unfold interval_kept. clear. induction slots as [| x l IH]; [apply Nat.le_refl |].
    cbn [filter]. destruct (fst x mod step =? 0); cbn [andb].
    + destruct (imwrite _ _); cbn [List.length]; lia.
    + exact IH.
  - intros Hw. rewrite length_map, <- Hcount. f_equal. f_equal.
    apply filter_ext. intros x. unfold interval_kept. now rewrite Hw, andb_true_r.
Qed.

(** X5. When [get_video_info] returns, the stream opened and its frame
    rate is not zero; the values returned are the measured ones, the counts
    truncated to integers, and the resolution reads width x height.
    Fixed-count extraction on the same capture then raises only when its
    output directory cannot be created: otherwise it returns normally, with
    the handle released (after [get_video_info] the exception branch of
    [process_single_video] is taken for the directory alone). *)
Theorem video_info_consistent (makedirs : string -> option exn) (cap : VideoCapture Frame)
    (video_path output_dir : string) (max_frames : Z) (max_duration : Q)
    (info : video_info) :
  get_video_info cap video_path = Return info ->
  isOpened cap = true /\ fzero (CAP_PROP_FPS cap) = false /\
  fps info = CAP_PROP_FPS cap /\
  total_frames info = int_of_float (CAP_PROP_FRAME_COUNT cap) /\
  width info = int_of_float (CAP_PROP_FRAME_WIDTH cap) /\
  height info = int_of_float (CAP_PROP_FRAME_HEIGHT cap) /\
  resolution info = (str_int (width info) ++ "x" ++ str_int (height info))%string /\
  match makedirs output_dir with
  | Some e =>
      extract_fixed_frames_fs imwrite makedirs cap video_path output_dir max_frames
        max_duration = ([Makedirs output_dir], Raise e)
  | None =>
      exists evs frames,
        extract_fixed_frames_fs imwrite makedirs cap video_path output_dir max_frames
          max_duration = (evs, Return frames) /\
        handle_held false evs = false
  end.
Proof.
  unfold get_video_info. destruct (isOpened cap) eqn:Ho; cbn [negb]; [| discriminate].
  destruct (fzero (CAP_PROP_FPS cap)) eqn:Hz; [discriminate |].
  intros H. injection H as <-. cbn [fps total_frames resolution width height].
  repeat (split; [reflexivity |]).
  unfold extract_fixed_frames_fs. destruct (makedirs output_dir) as [e |]; [reflexivity |].
  rewrite extract_fixed_frames_opened by assumption. cbv zeta.
  eexists. eexists. split; [reflexivity |].
  pose proof (extract_loop_trace cap output_dir (CAP_PROP_FPS cap)
                (enumerate (frame_indices
                   (analysis_frames (CAP_PROP_FPS cap)
                      (int_of_float (CAP_PROP_FRAME_COUNT cap)) max_duration)
                   max_frames))) as [_ [_ [_ H4]]].
  cbn [app handle_held]. rewrite handle_held_app, H4. reflexivity.
Qed.

End SamplerTrace.

(** ** gpt_utils.py: the synchronous analyzer, progress calls and the summary *)
Section AnalyzerMore.
Import Oracle GptUtils.

Variable files : string -> option (res string).
Variable FRAME_ANALYSIS_PROMPT : string.
Variable summary_prompt : video_info -> list string -> string.

(** The call a progress callback receives for a result. *)
Lemma progress_calls_of_batch (total : Z) (tasks : list (Q * string * Z))
    (answers : list analysis) :
  let results :=
    map (fun '((ts, path, frame_idx), analysis_result) =>
           with_metadata ts path frame_idx analysis_result)
      (combine tasks answers) in
  map (fun '((_, _, frame_idx), result) => (frame_idx + 1, total, result))
    (combine tasks results)
  = map (fun r => (frame_number r, total, r)) results.
Proof.
  cbv zeta. revert answers.
  induction tasks as [| [[ts path] idx] tasks IH]; intros answers; [reflexivity |].
  destruct answers as [| a answers]; [reflexivity |].
  cbn [combine map]. now rewrite IH.
Qed.

Lemma analyze_batch_cb_run (svc : service) (total i : Z) (batch : list (Q * string))
    (log : list request) :
  analyze_batch_cb files svc FRAME_ANALYSIS_PROMPT total i batch log =
  let '(results, log') := analyze_batch files svc FRAME_ANALYSIS_PROMPT i batch log in
  ((results, map (fun r => (frame_number r, total, r)) results), log').
Proof.
  unfold analyze_batch_cb, analyze_batch, bind.
  destruct (mapM _ _ log) as [answers log']. unfold ret.
  now rewrite progress_calls_of_batch.
Qed.

Lemma batches_loop_cb_run (svc : service) (frame_data : list (Q * string))
    (batch_size : Z) (starts : list Z) :
  forall log,
  batches_loop_cb files svc FRAME_ANALYSIS_PROMPT frame_data batch_size starts log =
  let '(results, log') :=
    batches_loop files svc FRAME_ANALYSIS_PROMPT frame_data batch_size starts log in
  ((results,
    map (fun r => (frame_number r, Z.of_nat (List.length frame_data), r)) results), log').
Proof.
  induction starts as [| i rest IH]; intros log; [reflexivity |].
  cbn [batches_loop_cb batches_loop]. unfold bind.
  rewrite analyze_batch_cb_run.
  destruct (analyze_batch _ _ _ _ _ log) as [here log1].
  rewrite IH. destruct (batches_loop _ _ _ _ _ _ log1) as [later log2].
  unfold ret. cbn [fst snd]. now rewrite map_app.
Qed.

Lemma analyze_frames_loop_run (svc : service) (total : Z) (frame_data : list (Q * string)) :
  forall (start : Z) (log : list request),
  analyze_frames_loop files svc FRAME_ANALYSIS_PROMPT total
    (enumerate_from start frame_data) log =
  let results :=
    results_from files svc FRAME_ANALYSIS_PROMPT start (List.length log) frame_data in
  ((results, map (fun r => (frame_number r, total, r)) results),
   log ++ flat_map (fun f => requests_of files FRAME_ANALYSIS_PROMPT (snd f)) frame_data).
Proof.
  induction frame_data as [| [ts path] rest IH]; intros start log; cbv zeta.
  - cbn. unfold ret. now rewrite app_nil_r.
  - cbn [enumerate_from analyze_frames_loop results_from flat_map snd map].
    unfold bind at 1.
    change (analyze_frame files svc FRAME_ANALYSIS_PROMPT path None log)
      with (analyze_frame_async files svc FRAME_ANALYSIS_PROMPT path log).
    rewrite analyze_frame_async_run. unfold bind. rewrite IH. cbv zeta. unfold ret.
    cbn [fst snd frame_number with_metadata]. now rewrite length_app, <- app_assoc.
Qed.

(** X6. The sequential analyzer and the batched one agree: for every
    positive batch size the batched analysis returns the results of the
    sequential loop and leaves the same request log, so the batch size never
    changes what is returned. *)
Theorem sequential_and_batched_agree (svc : service) (frame_data : list (Q * string))
    (batch_size : Z) (log : list request) :
  0 < batch_size ->
  analyze_multiple_frames_async files svc FRAME_ANALYSIS_PROMPT frame_data batch_size log
  = (Return (fst (fst (analyze_multiple_frames files svc FRAME_ANALYSIS_PROMPT
                         frame_data log))),
     snd (analyze_multiple_frames files svc FRAME_ANALYSIS_PROMPT frame_data log)).
Proof.
  intros HB. rewrite analyze_multiple_frames_async_run by exact HB.
  unfold analyze_multiple_frames, enumerate. now rewrite analyze_frames_loop_run.
Qed.

(** X7. A progress callback is called exactly once per frame, in the order
    of the frames, with the running count 1, 2, ..., N, the total N and that
    frame's result; this holds for the sequential loop and, for every
    positive batch size, for the batched one, whose results are those of the
    run without a callback. *)
Theorem progress_calls (svc : service) (frame_data : list (Q * string))
    (batch_size : Z) (log : list request) :
  0 < batch_size ->
  let total := Z.of_nat (List.length frame_data) in
  let '(results, calls) :=
    fst (analyze_multiple_frames files svc FRAME_ANALYSIS_PROMPT frame_data log) in
  calls = map (fun r => (frame_number r, total, r)) results /\
  map (fun c => fst (fst c)) calls = map (fun k => k + 1) (range total) /\
  analyze_multiple_frames_async_cb files svc FRAME_ANALYSIS_PROMPT frame_data batch_size log
  = (Return (results, calls),
     snd (analyze_multiple_frames_async files svc FRAME_ANALYSIS_PROMPT frame_data
            batch_size log)).
Proof.
  intros HB total. unfold analyze_multiple_frames, enumerate.
  rewrite analyze_frames_loop_run. cbv zeta. cbn [fst].
  set (results := results_from files svc FRAME_ANALYSIS_PROMPT 0 (List.length log) frame_data).
  split; [reflexivity |]. split.
  - rewrite map_map. cbn [fst]. subst results total.
    unfold range. rewrite Nat2Z.id.
    generalize (List.length log) as n.
    rewrite <- (map_ext (fun k => 0 + k + 1) (fun k => k + 1)) by (intros; lia).
    generalize 0 as start.
    induction frame_data as [| [ts path] rest IH]; intros start n; [reflexivity |].
    cbn [results_from map List.length seq frame_number with_metadata]. f_equal; [lia |].
    rewrite IH, <- seq_shift, !map_map. apply map_ext. intros k. lia.
  - rewrite analyze_multiple_frames_async_run by exact HB. cbn [snd].
    unfold analyze_multiple_frames_async_cb, range_step.
    rewrite (proj2 (Z.eqb_neq _ _)) by lia. rewrite (proj2 (Z.ltb_ge _ _)) by lia.
    unfold bind. rewrite batches_loop_cb_run.
    pose proof (analyze_multiple_frames_async_run files FRAME_ANALYSIS_PROMPT svc
                  frame_data batch_size log HB) as Hrun.
    unfold analyze_multiple_frames_async, range_step in Hrun.
    rewrite (proj2 (Z.eqb_neq _ _)) in Hrun by lia.
    rewrite (proj2 (Z.ltb_ge _ _)) in Hrun by lia.
    unfold bind in Hrun.
    destruct (batches_loop _ _ _ _ _ _ log) as [rs log'].
    unfold ret in *. injection Hrun as -> ->. reflexivity.
Qed.

(** X8. The frame analyzer makes at most one request.  A missing image file
    is reported as ["Image file not found: <path>"] without any request; a
    file that cannot be read is reported with its error, again without a
    request; otherwise exactly one request goes out, to gpt-4o with a budget
    of 1000 tokens, carrying the image as a JPEG data URL and the custom
    prompt, or the default prompt when none or an empty one is given. *)
Theorem frame_analyzer_requests (svc : service) (image_path : string)
    (custom_prompt : option string) (log : list request) :
  let '(a, log') :=
    analyze_frame files svc FRAME_ANALYSIS_PROMPT image_path custom_prompt log in
  match files image_path with
  | None =>
      log' = log /\ a_success a = false /\
      a_error a = Some ("Image file not found: " ++ image_path)%string
  | Some (Raise e) =>
      log' = log /\ a_success a = false /\ a_error a = Some (str_exn e)
  | Some (Return base64_image) =>
      exists req,
        log' = log ++ [req] /\
        req_model req = "gpt-4o"%string /\ req_max_tokens req = 1000 /\
        req_image_url req = Some ("data:image/jpeg;base64," ++ base64_image)%string /\
        req_text req = match custom_prompt with
                       | Some p => if String.eqb p "" then FRAME_ANALYSIS_PROMPT else p
                       | None => FRAME_ANALYSIS_PROMPT
                       end /\
        a_success a = match svc (List.length log) req with
                      | Return _ => true
                      | Raise _ => false
                      end
  end.
Proof.
  unfold analyze_frame, encode_image_to_base64.
  destruct (files image_path) as [[b64 | e] |]; cbn; auto.
  unfold bind, create.
  destruct (svc (List.length log) _) as [response | e] eqn:E; cbn;
    eexists; repeat split; try reflexivity; cbn; now rewrite E.
Qed.

(** X9. The summary is made from the successful frame results only: failed
    results can be dropped from the input without changing the outcome or
    the request.  With at least one successful result exactly one request
    goes out (text only, budget 1500); a response gives a successful summary
    that counts the successful frames, an exception gives [success = false]
    with the error and the text ["Error generating summary: ..."]. *)
Theorem summary_of_successful_frames (svc : service)
    (frame_analyses : list frame_result) (info : video_info) (log : list request) :
  GptUtils.generate_comprehensive_summary svc summary_prompt frame_analyses info log
  = GptUtils.generate_comprehensive_summary svc summary_prompt
      (filter success frame_analyses) info log /\
  (filter success frame_analyses <> [] ->
   let '(r, log') :=
     GptUtils.generate_comprehensive_summary svc summary_prompt frame_analyses info log in
   exists req,
     log' = log ++ [req] /\
     req_image_url req = None /\ req_max_tokens req = 1500 /\
     req_text req
       = summary_prompt info (map description_line (filter success frame_analyses)) /\
     match svc (List.length log) req with
     | Return response =>
         s_success r = true /\ s_summary r = Some (content response) /\
         s_tokens_used r = Some (total_tokens response) /\
         s_frames_analyzed r
           = Some (Z.of_nat (List.length (filter success frame_analyses)))
     | Raise e =>
         s_success r = false /\ s_error r = Some (str_exn e) /\
         s_summary r = Some ("Error generating summary: " ++ str_exn e)%string
     end).
Proof.
  split.
  - unfold GptUtils.generate_comprehensive_summary.
    assert (E : filter success (filter success frame_analyses)
                = filter success frame_analyses).
    { induction frame_analyses as [| x l IH]; [reflexivity |]. cbn [filter].
      destruct (success x) eqn:Hx; [| exact IH]. cbn [filter]. now rewrite Hx, IH. }
    now rewrite E.
  - intros Hne. unfold GptUtils.generate_comprehensive_summary.
    destruct (filter success frame_analyses) as [| f fs] eqn:Hf; [congruence |].
    cbn [map]. unfold bind, create.
    match goal with |- context [svc (List.length log) ?q] => set (req := q) end.
    destruct (svc (List.length log) req) as [response | e] eqn:E; unfold ret;
      exists req; rewrite E; cbn [s_success s_summary s_tokens_used s_frames_analyzed
                                   s_error req_image_url req_max_tokens req_text req];
      repeat split.
    cbn [List.length]. now rewrite length_map.
Qed.

End AnalyzerMore.

(** ** youtube_utils.py: validation, limits and URL normalisation *)
Section Urls.
Import YoutubeUtils.

Variable get_video_info : string -> option yt_info.
Variable download_video : string -> Z -> option string.

(** X10. [validate_urls] splits the input: every URL goes to exactly one of
    the two lists, each list keeps the input order, and the valid list holds
    exactly the URLs the validator accepts. *)
Theorem validate_urls_partition (urls : list string) :
  let '(valid_urls, invalid_urls) := validate_urls urls in
  (List.length valid_urls + List.length invalid_urls = List.length urls)%nat /\
  (forall u, In u valid_urls <-> In u urls /\ is_valid_youtube_url u = true) /\
  (forall u, In u invalid_urls <-> In u urls /\ is_valid_youtube_url u = false) /\
  (forall u, count_occ string_dec valid_urls u + count_occ string_dec invalid_urls u
             = count_occ string_dec urls u)%nat.
Proof.
  unfold validate_urls. split; [| split; [| split]].
  - induction urls as [| u l IH]; [reflexivity |]. cbn [filter].
    destruct (is_valid_youtube_url u); cbn [negb List.length]; lia.
  - intros u. apply filter_In.
  - intros u. rewrite filter_In.
    destruct (is_valid_youtube_url u); cbn [negb]; intuition congruence.
  - intros u. induction urls as [| v l IH]; [reflexivity |]. cbn [filter].
    destruct (is_valid_youtube_url v); cbn [negb count_occ];
      destruct (string_dec v u); lia.
Qed.

Lemma strip_prefix_length (pre s rest : string) :
  strip_prefix pre s = Some rest ->
  String.length s = (String.length pre + String.length rest)%nat.
Proof.
  revert s. induction pre as [| a pre IH]; intros s H; cbn [strip_prefix String.length] in *.
  - now injection H as ->.
  - destruct s as [| b s]; [discriminate |]. cbn [String.length].
    destruct (Ascii.eqb a b); [| discriminate]. apply IH in H. lia.
Qed.

Lemma strip_prefix_app (pre s t : string) :
  (String.length pre <= String.length s)%nat ->
  strip_prefix pre (s ++ t) = option_map (fun rest => (rest ++ t)%string) (strip_prefix pre s).
Proof.
  revert s. induction pre as [| a pre IH]; intros s L; cbn [strip_prefix] in *.
  - reflexivity.
  - destruct s as [| b s]; [cbn in L; lia |]. cbn [append strip_prefix].
    destruct (Ascii.eqb a b); [| reflexivity]. apply IH. cbn in L. lia.
Qed.

Lemma skip_optional_app (pre s t : string) :
  (String.length pre <= String.length s)%nat ->
  skip_optional pre (s ++ t) = (skip_optional pre s ++ t)%string.
Proof.
  intros L. unfold skip_optional. rewrite strip_prefix_app by exact L.
  now destruct (strip_prefix pre s).
Qed.

Lemma skip_optional_length (pre s : string) :
  (String.length (skip_optional pre s) <= String.length s)%nat.
Proof.
  unfold skip_optional. destruct (strip_prefix pre s) as [rest |] eqn:E; [| lia].
  apply strip_prefix_length in E. lia.
Qed.

Lemma matches_pattern_app (lit url t : string) :
  (7 <= String.length lit)%nat ->
  matches_pattern lit url = true -> matches_pattern lit (url ++ t) = true.
Proof.
  intros Hlit. unfold matches_pattern.
  set (A := match strip_prefix "https://" url with
            | Some rest => rest
            | None => skip_optional "http://" url
            end).
  set (W := skip_optional "www." A).
  destruct (strip_prefix lit W) as [[| c r] |] eqn:EW; try discriminate. intros Hc.
  assert (LW : (8 <= String.length W)%nat).
  { apply strip_prefix_length in EW. cbn [String.length] in EW. lia. }
  assert (LA : (8 <= String.length A)%nat).
  { pose proof (skip_optional_length "www." A). fold W in H. lia. }
  assert (LU : (8 <= String.length url)%nat).
  { subst A. destruct (strip_prefix "https://" url) as [rest |] eqn:E.
    - apply strip_prefix_length in E. lia.
    - pose proof (skip_optional_length "http://" url). lia. }
  assert (EA : match strip_prefix "https://" (url ++ t) with
               | Some rest => rest
               | None => skip_optional "http://" (url ++ t)
               end = (A ++ t)%string).
  { rewrite strip_prefix_app by (cbn; lia). subst A.
    destruct (strip_prefix "https://" url); cbn [option_map]; [reflexivity |].
    apply skip_optional_app. cbn. lia. }
  rewrite EA, skip_optional_app by (cbn; lia). fold W.
  rewrite strip_prefix_app by (apply strip_prefix_length in EW; lia).
  rewrite EW. exact Hc.
Qed.

(** X11. The validator only looks at the head of the URL: whatever is
    appended to an accepted URL, the result is accepted too. *)
Theorem valid_url_extends (url extra : string) :
  is_valid_youtube_url url = true -> is_valid_youtube_url (url ++ extra) = true.
Proof.
  unfold is_valid_youtube_url. intros H. apply existsb_exists in H.
  destruct H as [lit [Hin Hm]]. apply existsb_exists. exists lit. split; [exact Hin |].
  apply matches_pattern_app; [| exact Hm].
  cbn in Hin. repeat (destruct Hin as [<- | Hin]; [cbn; lia |]). contradiction.
Qed.

Lemma valid_url_extends_witness :
  is_valid_youtube_url "https://youtu.be/abc?list=<not checked>" = true.
Proof.
  apply (valid_url_extends "https://youtu.be/abc" "?list=<not checked>"). reflexivity.
Defined.

Lemma in_firstn {A : Type} (n : nat) (l : list A) (x : A) :
  In x (firstn n l) -> In x l.
Proof.
  intros H. rewrite <- (firstn_skipn n l). apply in_or_app. now left.
Qed.

(** X12. The download results never outnumber the input URLs, and every
    entry belongs to a URL of the input that the validator accepts.  A limit
    that is not negative bounds the number of entries; a negative limit
    does not empty the list but cuts that many valid URLs off its end. *)
Theorem download_limits (urls : list string) (duration_seconds max_videos : Z) :
  let results :=
    download_multiple_videos get_video_info download_video urls duration_seconds
      max_videos in
  let valid_urls := filter is_valid_youtube_url urls in
  (List.length results <= List.length urls)%nat /\
  Forall (fun r => In (YoutubeUtils.url r) urls /\
                   is_valid_youtube_url (YoutubeUtils.url r) = true) results /\
  (0 <= max_videos -> Z.of_nat (List.length results) <= max_videos) /\
  (max_videos < 0 ->
   map YoutubeUtils.url results
   = firstn (Z.to_nat (Z.of_nat (List.length valid_urls) + max_videos)) valid_urls).
Proof.
  intros results valid_urls.
  assert (U : map YoutubeUtils.url results
              = if Z.of_nat (List.length valid_urls) >? max_videos
                then slice_to valid_urls max_videos else valid_urls).
  { subst results. unfold download_multiple_videos, validate_urls. fold valid_urls.
    rewrite map_map. rewrite (map_ext _ (fun u => u)); [apply map_id |].
    intros u. apply download_one_shape. }
  assert (S : forall u, In u (map YoutubeUtils.url results) -> In u valid_urls).
  { intros u. rewrite U. unfold slice_to.
    destruct (_ >? _); [| auto]. destruct (max_videos <? 0); apply in_firstn. }
  assert (L : (List.length results <= List.length valid_urls)%nat).
  { rewrite <- (length_map YoutubeUtils.url results), U. unfold slice_to.
    destruct (_ >? _); [| lia]. destruct (max_videos <? 0); rewrite length_firstn; lia. }
  split; [| split; [| split]].
  - pose proof (filter_length_le is_valid_youtube_url urls). fold valid_urls in H. lia.
  - apply Forall_forall. intros r Hr. apply (in_map YoutubeUtils.url) in Hr.
    apply S in Hr. now apply filter_In in Hr.
  - intros H. rewrite <- (length_map YoutubeUtils.url results), U.
    rewrite slice_to_nonneg by exact H. rewrite length_firstn. lia.
  - intros H. rewrite U. rewrite (proj2 (Z.gtb_lt _ _)) by lia.
    unfold slice_to. now rewrite (proj2 (Z.ltb_lt _ _) H).
Qed.

Lemma id_run_idem (s : string) : id_run (id_run s) = id_run s.
Proof.
  induction s as [| c s IH]; [reflexivity |]. cbn [id_run].
  destruct (is_id_char c) eqn:E; [| reflexivity]. cbn [id_run]. now rewrite E, IH.
Qed.

Lemma match_here_sound (lits : list string) (s vid : string) :
  match_here lits s = Some vid -> id_run vid = vid /\ (6 <= String.length vid)%nat.
Proof.
  induction lits as [| lit more IH]; cbn [match_here]; [discriminate |].
  destruct (strip_prefix lit s) as [rest |]; [| exact IH].
  destruct (6 <=? String.length (id_run rest))%nat eqn:E; [| exact IH].
  intros H. injection H as <-. split; [apply id_run_idem | now apply Nat.leb_le].
Qed.

Lemma search_id_sound (lits : list string) (s vid : string) :
  search_id lits s = Some vid -> id_run vid = vid /\ (6 <= String.length vid)%nat.
Proof.
  induction s as [| c s IH]; cbn [search_id].
  - destruct (match_here lits "") eqn:E; [| discriminate].
    intros H. injection H as ->. now apply (match_here_sound lits "").
  - destruct (match_here lits (String c s)) eqn:E; [| exact IH].
    intros H. injection H as ->. now apply (match_here_sound lits (String c s)).
Qed.

Lemma extract_video_id_sound (url vid : string) :
  extract_video_id url = Some vid -> id_run vid = vid /\ (6 <= String.length vid)%nat.
Proof.
  unfold extract_video_id.
  repeat match goal with
         | |- context [search_id ?l url] =>
             let E := fresh "E" in
             destruct (search_id l url) eqn:E;
             [intros H; injection H as ->; now apply (search_id_sound l url) |]
         end.
  discriminate.
Qed.

(** The watch URL of an identifier yields that identifier again. *)
Lemma extract_video_id_watch (vid : string) :
  id_run vid = vid -> (6 <= String.length vid)%nat ->
  extract_video_id ("https://www.youtube.com/watch?v=" ++ vid) = Some vid.
Proof.
  intros Hrun Hlen. unfold extract_video_id.
  assert (S : search_id ["?v="; "&v="]%string ("https://www.youtube.com/watch?v=" ++ vid)
              = Some vid).
  { cbn [append].
    repeat (cbn [search_id match_here strip_prefix]; cbv [Ascii.eqb Bool.eqb]).
    rewrite Hrun. now rewrite (proj2 (Nat.leb_le _ _) Hlen). }
  now rewrite S.
Qed.

Lemma is_valid_watch (vid : string) :
  id_run vid = vid -> (6 <= String.length vid)%nat ->
  is_valid_youtube_url ("https://www.youtube.com/watch?v=" ++ vid) = true.
Proof.
  intros Hrun Hlen. destruct vid as [| c vid]; [cbn in Hlen; lia |].
  cbn [id_run] in Hrun. destruct (is_id_char c) eqn:E; [| discriminate].
  unfold is_valid_youtube_url. cbn [existsb]. apply orb_true_iff. left.
  unfold matches_pattern, skip_optional. cbn [append].
  repeat (cbn [strip_prefix]; cbv [Ascii.eqb Bool.eqb]). exact E.
Qed.

(** X13. [normalize_to_watch_url] leaves a URL without an
    identifier unchanged; otherwise it builds the watch URL of the
    identifier found, which consists of at least six [[\w-]] characters.
    The watch URL is accepted by the validator and yields the same
    identifier, so normalising twice changes nothing. *)
Theorem normalize_to_watch_url_idempotent (url : string) :
  match extract_video_id url with
  | Some vid =>
      normalize_to_watch_url url = ("https://www.youtube.com/watch?v=" ++ vid)%string /\
      id_run vid = vid /\ (6 <= String.length vid)%nat /\
      is_valid_youtube_url (normalize_to_watch_url url) = true /\
      extract_video_id (normalize_to_watch_url url) = Some vid
  | None => normalize_to_watch_url url = url
  end /\
  normalize_to_watch_url (normalize_to_watch_url url) = normalize_to_watch_url url.
Proof.
  destruct (extract_video_id url) as [vid |] eqn:E.
  - destruct (extract_video_id_sound url vid E) as [Hrun Hlen].
    pose proof (extract_video_id_watch vid Hrun Hlen) as W.
    assert (N : normalize_to_watch_url url
                = ("https://www.youtube.com/watch?v=" ++ vid)%string).
    { unfold normalize_to_watch_url. now rewrite E. }
    rewrite N. split.
    + split; [reflexivity |]. split; [exact Hrun |]. split; [exact Hlen |].
      split; [now apply is_valid_watch | exact W].
    + unfold normalize_to_watch_url. now rewrite W.
  - assert (N : normalize_to_watch_url url = url).
    { unfold normalize_to_watch_url. now rewrite E. }
    rewrite N. split; [reflexivity | exact N].
Qed.

Lemma id_take_sound (n : nat) :
  forall s vid, id_take n s = Some vid -> String.length vid = n /\ id_run vid = vid.
Proof.
  induction n as [| n IH]; intros s vid H; cbn [id_take] in H.
  - destruct s; injection H as <-; now split.
  - destruct s as [| c s]; [discriminate |].
    destruct (is_id_char c) eqn:E; [| discriminate].
    destruct (id_take n s) as [v |] eqn:T; [| discriminate].
    cbn [option_map] in H. injection H as <-. destruct (IH s v T) as [L R].
    cbn [String.length id_run]. now rewrite E, L, R.
Qed.

Lemma match_exact_sound (lits : list string) (s vid : string) :
  match_exact lits s = Some vid ->
  exists lit rest, In lit lits /\ strip_prefix lit s = Some rest /\ id_take 11 rest = Some vid.
Proof.
  induction lits as [| lit more IH]; cbn [match_exact]; [discriminate |].
  destruct (strip_prefix lit s) as [rest |] eqn:P.
  - destruct (id_take 11 rest) as [v |] eqn:T.
    + intros H. injection H as <-. exists lit, rest. cbn [In]. auto.
    + intros H. destruct (IH H) as [l [r [? ?]]]. exists l, r. cbn [In]. auto.
  - intros H. destruct (IH H) as [l [r [? ?]]]. exists l, r. cbn [In]. auto.
Qed.

Lemma search_exact_found (lits : list string) (url vid : string) :
  search_exact lits url = Some vid ->
  exists before s, url = (before ++ s)%string /\ match_exact lits s = Some vid.
Proof.
  induction url as [| c url IH]; cbn [search_exact].
  - destruct (match_exact lits "") eqn:E; [| discriminate].
    intros H. injection H as ->. now exists ""%string, ""%string.
  - destruct (match_exact lits (String c url)) eqn:E.
    + intros H. injection H as ->. now exists ""%string, (String c url).
    + intros H. destruct (IH H) as [before [s [-> M]]].
      now exists (String c before), s.
Qed.

Lemma search_exact_later (lits : list string) (before s : string) :
  match_exact lits s <> None -> search_exact lits (before ++ s) <> None.
Proof.
  intros M. induction before as [| c before IH]; cbn [append].
  - destruct s; cbn [search_exact]; destruct (match_exact lits _); congruence.
  - cbn [search_exact]. destruct (match_exact lits (String c (before ++ s))); congruence.
Qed.

Lemma strip_prefix_spec (pre s rest : string) :
  strip_prefix pre s = Some rest -> s = (pre ++ rest)%string.
Proof.
  revert s. induction pre as [| a pre IH]; intros s H; cbn [strip_prefix append] in *.
  - now injection H as ->.
  - destruct s as [| b s]; [discriminate |].
    destruct (Ascii.eqb_spec a b) as [-> |]; [| discriminate]. f_equal. now apply IH.
Qed.

(** A match of a pattern whose literal ends in a slash gives a match of the
    first pattern, at that slash if not before. *)
Lemma slash_pattern_covered (lit url vid : string) :
  search_exact [(lit ++ "/")%string] url = Some vid ->
  search_exact ["v="; "/"]%string url <> None.
Proof.
  intros H. destruct (search_exact_found _ _ _ H) as [before [s [-> M]]].
  destruct (match_exact_sound _ _ _ M) as [l [rest [Hl [P T]]]].
  destruct Hl as [<- | []]. apply strip_prefix_spec in P. subst s.
  replace (before ++ (lit ++ "/") ++ rest)%string
    with ((before ++ lit) ++ String "/" rest)%string
    by (now rewrite !string_app_assoc).
  apply search_exact_later. cbn [match_exact strip_prefix].
  cbv [Ascii.eqb Bool.eqb]. now rewrite T.
Qed.

(** X14. In [extract_video_id_from_url] the first pattern decides alone: the
    patterns for [embed/], [youtu.be/] and [shorts/] all end in a slash, and
    wherever one of them matches the first pattern matches too, so the
    result is always that of the first pattern.  An identifier that is
    returned has exactly 11 characters of [[0-9A-Za-z_-]]. *)
Theorem first_pattern_decides (url : string) :
  extract_video_id_from_url url = search_exact ["v="; "/"]%string url /\
  (forall vid, extract_video_id_from_url url = Some vid ->
     String.length vid = 11%nat /\ id_run vid = vid).
Proof.
  assert (E : extract_video_id_from_url url = search_exact ["v="; "/"]%string url).
  { unfold extract_video_id_from_url. cbn [first_found].
    destruct (search_exact ["v="; "/"]%string url) as [v |] eqn:S1; [reflexivity |].
    destruct (search_exact ["embed/"]%string url) as [v |] eqn:S2.
    { exfalso. apply (slash_pattern_covered "embed" url v S2). exact S1. }
    destruct (search_exact ["youtu.be/"]%string url) as [v |] eqn:S3.
    { exfalso. apply (slash_pattern_covered "youtu.be" url v S3). exact S1. }
    destruct (search_exact ["shorts/"]%string url) as [v |] eqn:S4.
    { exfalso. apply (slash_pattern_covered "shorts" url v S4). exact S1. }
    reflexivity. }
  split; [exact E |]. intros vid H. rewrite E in H.
  destruct (search_exact_found _ _ _ H) as [before [s [_ M]]].
  destruct (match_exact_sound _ _ _ M) as [l [rest [_ [_ T]]]].
  now apply (id_take_sound 11 rest).
Qed.

End Urls.

(** ** youtube_batch_analyzer.py: reading the URL file *)
Section UrlFile.
Import YoutubeBatchAnalyzer.

Lemma lstrip_head (s : string) : head_kept (lstrip s).
Proof.
  induction s as [| c s IH]; cbn [lstrip]; [exact I |].
  destruct (is_space c) eqn:E; [exact IH | exact E].
Qed.

Lemma rstrip_head (s : string) : head_kept s -> head_kept (rstrip s).
Proof.
  destruct s as [| c s]; cbn [rstrip]; [auto |]. intros H. cbn in H.
  destruct (rstrip s); [rewrite H |]; exact H.
Qed.

Lemma lstrip_fixed (s : string) : head_kept s -> lstrip s = s.
Proof. destruct s as [| c s]; cbn; [auto |]. now intros ->. Qed.

Lemma rstrip_idem (s : string) : rstrip (rstrip s) = rstrip s.
Proof.
  induction s as [| c s IH]; [reflexivity |]. cbn [rstrip].
  destruct (rstrip s) as [| d kept] eqn:R.
  - destruct (is_space c) eqn:E; [reflexivity |]. cbn [rstrip]. now rewrite E.
  - cbn [rstrip] in *. now rewrite IH.
Qed.

Lemma strip_idem (s : string) : strip (strip s) = strip s.
Proof.
  unfold strip. rewrite (lstrip_fixed (rstrip (lstrip s))).
  - apply rstrip_idem.
  - apply rstrip_head, lstrip_head.
Qed.

(** X15. [read_urls_from_file] returns clean lines only: no returned URL is
    empty, starts with [#], or begins or ends with white space (stripping
    it again changes nothing); a line that is blank or a comment once
    stripped is dropped, even when indented.  Reading a file made of the
    returned lines gives the same list, and a file that cannot be read
    gives the empty list. *)
Theorem read_urls_from_file_clean (file : res (list string)) :
  let urls := read_urls_from_file file in
  Forall (fun u => u <> ""%string /\ starts_with_char "#" u = false /\ strip u = u) urls /\
  (forall lines line,
     file = Return lines -> In line lines ->
     (In (strip line) urls <->
      strip line <> ""%string /\ starts_with_char "#" (strip line) = false)) /\
  read_urls_from_file (Return urls) = urls /\
  (forall e, file = Raise e -> urls = []).
Proof.
  cbv zeta. split; [| split; [| split]].
  - destruct file as [lines | e]; cbn [read_urls_from_file]; [| constructor].
    apply Forall_forall. intros u Hu. apply filter_In in Hu. destruct Hu as [Hin Hk].
    apply in_map_iff in Hin. destruct Hin as [line [<- _]].
    unfold is_url_line in Hk. apply andb_true_iff in Hk. destruct Hk as [H1 H2].
    apply negb_true_iff in H1, H2. apply String.eqb_neq in H1.
    split; [exact H1 |]. split; [exact H2 | apply strip_idem].
  - intros lines line -> Hin. cbn [read_urls_from_file]. rewrite filter_In.
    unfold is_url_line. rewrite andb_true_iff, !negb_true_iff, String.eqb_neq.
    split; [tauto |]. intros H. split; [| exact H]. now apply in_map.
  - destruct file as [lines | e]; cbn [read_urls_from_file]; [| reflexivity].
    induction lines as [| line lines IH]; [reflexivity |]. cbn [map filter].
    destruct (is_url_line (strip line)) eqn:K; [| exact IH].
    cbn [map filter]. rewrite strip_idem, K. f_equal. exact IH.
  - now intros e ->.
Qed.

End UrlFile.

(** ** batch_processor.py and similarity_analyzer.py: accounting *)
Section Accounting.
Import Oracle YoutubeUtils SimilarityAnalyzer BatchProcessor.

Variable get_video_info : string -> option yt_info.
Variable download_video : string -> Z -> option string.
Variable Frame : Type.
Variable path_exists : string -> bool.
Variable makedirs : string -> option exn.
Variable VideoCapture : string -> VideoUtils.VideoCapture Frame.
Variable imwrite : string -> Frame -> bool.
Variable files : string -> option (res string).
Variable svc : service.
Variable FRAME_ANALYSIS_PROMPT : string.
Variable summary_prompt : VideoUtils.video_info -> list string -> string.
Variable create_similarity_prompt : list video_summary_info -> string.
Variable pair_prompt : video_summary_info -> video_summary_info -> string.
Variable write_json : string -> option exn.
Variable output_dir : string.

Lemma answered_tokens_app (a b : list request) :
  forall n,
  answered_tokens svc n (a ++ b)
  = answered_tokens svc n a + answered_tokens svc (n + List.length a) b.
Proof.
  induction a as [| q a IH]; intros n; cbn [app answered_tokens List.length].
  - now rewrite Nat.add_0_r.
  - rewrite IH. replace (S n + List.length a)%nat with (n + S (List.length a))%nat by lia.
    lia.
Qed.

Lemma tokens_of_frames_cons (r : GptUtils.frame_result) (l : list GptUtils.frame_result) :
  tokens_of_frames (r :: l)
  = (if GptUtils.success r
     then match GptUtils.tokens_used r with Some t => t | None => 0 end
     else 0) + tokens_of_frames l.
Proof.
  unfold tokens_of_frames. cbn [filter]. destruct (GptUtils.success r); reflexivity.
Qed.

Lemma tokens_of_results (frame_data : list (Q * string)) :
  forall (start : Z) (n : nat),
  tokens_of_frames (GptUtils.results_from files svc FRAME_ANALYSIS_PROMPT start n frame_data)
  = answered_tokens svc n
      (flat_map (fun f => GptUtils.requests_of files FRAME_ANALYSIS_PROMPT (snd f)) frame_data).
Proof.
  induction frame_data as [| [ts path] rest IH]; intros start n; [reflexivity |].
  cbn [GptUtils.results_from flat_map snd]. rewrite tokens_of_frames_cons, IH.
  rewrite answered_tokens_app. f_equal.
  unfold GptUtils.analysis_of, GptUtils.requests_of.
  destruct (GptUtils.encode_image_to_base64 files path) as [b64 | e]; [| reflexivity].
  cbn [answered_tokens]. destruct (svc n _) as [response | e]; cbn; lia.
Qed.

Lemma successes_le_requests (frame_data : list (Q * string)) :
  forall (start : Z) (n : nat),
  (List.length (filter GptUtils.success
                  (GptUtils.results_from files svc FRAME_ANALYSIS_PROMPT start n frame_data))
   <= List.length (flat_map (fun f => GptUtils.requests_of files FRAME_ANALYSIS_PROMPT (snd f))
                     frame_data)
   <= List.length frame_data)%nat.
Proof.
  induction frame_data as [| [ts path] rest IH]; intros start n; [cbn; lia |].
  cbn [GptUtils.results_from flat_map snd filter]. rewrite length_app.
  specialize (IH (start + 1)
                (n + List.length (GptUtils.requests_of files FRAME_ANALYSIS_PROMPT path))%nat).
  unfold GptUtils.analysis_of, GptUtils.requests_of in *.
  destruct (GptUtils.encode_image_to_base64 files path) as [b64 | e].
  - destruct (svc n _); cbn [GptUtils.with_metadata GptUtils.success GptUtils.analysis_done
                               GptUtils.analysis_failed GptUtils.a_success List.length] in *;
      lia.
  - cbn [GptUtils.with_metadata GptUtils.success GptUtils.analysis_failed
           GptUtils.a_success List.length] in *. lia.
Qed.

Lemma range_step_backwards (stop step : Z) :
  0 <= stop -> step < 0 -> range_step stop step = Return [].
Proof.
  intros Hs Hn. unfold range_step.
  rewrite (proj2 (Z.eqb_neq _ _)) by lia. rewrite (proj2 (Z.ltb_lt _ _)) by lia.
  rewrite range_nonpos; [reflexivity |].
  assert ((- stop - step - 1) / - step < 1) by (apply Z.div_lt_upper_bound; lia). lia.
Qed.

(** The frame analysis of a video, for any batch size: what it returns, the
    requests it adds to the log, and the tokens those requests were
    answered with. *)
Lemma analyze_frames_account (frame_data : list (Q * string)) (batch_size : Z)
    (log : list request) :
  exists out reqs,
    GptUtils.analyze_multiple_frames_async files svc FRAME_ANALYSIS_PROMPT frame_data
      batch_size log = (out, log ++ reqs) /\
    match out with
    | Raise e => batch_size = 0 /\ e = ValueError "range() arg 3 must not be zero" /\ reqs = []
    | Return results =>
        batch_size <> 0 /\
        tokens_of_frames results = answered_tokens svc (List.length log) reqs /\
        (List.length (filter GptUtils.success results) <= List.length reqs
         <= List.length frame_data)%nat
    end.
Proof.
  destruct (Z.lt_trichotomy batch_size 0) as [Hn | [-> | Hp]].
  - exists (Return []), []. unfold GptUtils.analyze_multiple_frames_async.
    rewrite range_step_backwards by lia. cbn. rewrite app_nil_r.
    repeat split; try lia.
  - exists (Raise (ValueError "range() arg 3 must not be zero")), [].
    unfold GptUtils.analyze_multiple_frames_async, range_step. cbn.
    now rewrite app_nil_r.
  - eexists. eexists. split.
    + apply analyze_multiple_frames_async_run. exact Hp.
    + split; [lia |]. split; [apply tokens_of_results | apply successes_le_requests].
Qed.

Lemma summary_account (frame_analyses : list GptUtils.frame_result)
    (info : VideoUtils.video_info) (log : list request) :
  exists video_summary reqs,
    GptUtils.generate_comprehensive_summary svc summary_prompt frame_analyses info log
      = (video_summary, log ++ reqs) /\
    tokens_of_summary video_summary = answered_tokens svc (List.length log) reqs /\
    (List.length reqs <= 1)%nat.
Proof.
  unfold GptUtils.generate_comprehensive_summary.
  destruct (map GptUtils.description_line (filter GptUtils.success frame_analyses))
    as [| line lines].
  - eexists. exists []. unfold ret. rewrite app_nil_r. repeat split. cbn. lia.
  - unfold bind, create.
    match goal with |- context [svc (List.length log) ?q] => set (req := q) end.
    destruct (svc (List.length log) req) as [response | e] eqn:E; unfold ret;
      eexists; exists [req]; (split; [reflexivity |]);
      cbn [answered_tokens List.length]; rewrite E; cbn; split; lia.
Qed.

Lemma extract_fixed_frames_length (cap : VideoUtils.VideoCapture Frame)
    (video_path dir : string) (max_frames : Z) (max_duration : Q)
    (frames : list (Q * string)) :
  snd (VideoUtils.extract_fixed_frames imwrite cap video_path dir max_frames max_duration)
    = Return frames ->
  Z.of_nat (List.length frames) <= Z.max 0 max_frames.
Proof.
  unfold VideoUtils.extract_fixed_frames.
  destruct (negb (isOpened cap)) eqn:Ho; [discriminate |].
  destruct (fzero (CAP_PROP_FPS cap)) eqn:Hz; [discriminate |].
  apply negb_false_iff in Ho. intros H.
  pose proof (extract_fixed_frames_opened Frame imwrite cap video_path dir max_frames
                max_duration Ho Hz) as R.
  cbv zeta in R. unfold VideoUtils.extract_fixed_frames in R.
  rewrite Ho, Hz in R. cbn [negb] in R. rewrite R in H. cbn [snd] in H.
  injection H as <-. rewrite length_map.
  etransitivity; [| apply (length_frame_indices
                             (analysis_frames (CAP_PROP_FPS cap)
                                (int_of_float (CAP_PROP_FRAME_COUNT cap)) max_duration)
                             max_frames)].
  apply inj_le. etransitivity; [apply filter_length_le |].
  unfold enumerate. now rewrite length_enumerate_from.
Qed.

(** One video: the requests it adds to the log and, when it counts as
    analysed, what its result records. *)
Lemma process_single_video_account (d : download_result)
    (duration_seconds max_frames_per_video batch_size video_index : Z)
    (log : list request) :
  exists r reqs,
    process_single_video Frame path_exists makedirs VideoCapture imwrite files svc
      FRAME_ANALYSIS_PROMPT summary_prompt write_json output_dir d duration_seconds
      max_frames_per_video batch_size video_index log = (r, log ++ reqs) /\
    download r = d /\
    (succeeded r = true ->
     exists extracted analysed,
       frames_extracted r = Some extracted /\ frames_analyzed r = Some analysed /\
       1 <= extracted <= max_frames_per_video /\
       0 <= analysed <= extracted /\
       analysed <= Z.of_nat (List.length reqs) <= extracted + 1 /\
       vr_video_index r = Some video_index /\
       vr_total_tokens r = Some (answered_tokens svc (List.length log) reqs)).
Proof.
  assert (F : forall msg reqs,
            download (breakdown_failed d msg) = d /\
            (succeeded (breakdown_failed d msg) = true ->
             exists extracted analysed,
               frames_extracted (breakdown_failed d msg) = Some extracted /\
               frames_analyzed (breakdown_failed d msg) = Some analysed /\
               1 <= extracted <= max_frames_per_video /\
               0 <= analysed <= extracted /\
               analysed <= Z.of_nat (List.length reqs) <= extracted + 1 /\
               vr_video_index (breakdown_failed d msg) = Some video_index /\
               vr_total_tokens (breakdown_failed d msg)
                 = Some (answered_tokens svc (List.length log) reqs))).
  { intros msg reqs. split; [reflexivity | discriminate]. }
  assert (Q0 : forall msg,
            exists r reqs,
              ret (breakdown_failed d msg) log = (r, log ++ reqs) /\
              download r = d /\
              (succeeded r = true ->
               exists extracted analysed,
                 frames_extracted r = Some extracted /\ frames_analyzed r = Some analysed /\
                 1 <= extracted <= max_frames_per_video /\
                 0 <= analysed <= extracted /\
                 analysed <= Z.of_nat (List.length reqs) <= extracted + 1 /\
                 vr_video_index r = Some video_index /\
                 vr_total_tokens r = Some (answered_tokens svc (List.length log) reqs))).
  { intros msg. exists (breakdown_failed d msg), []. unfold ret. rewrite app_nil_r.
    split; [reflexivity | apply F]. }
  unfold process_single_video.
  destruct (YoutubeUtils.video_path d) as [video_path |]; [| apply Q0].
  destruct (negb _); [apply Q0 |].
  destruct (VideoUtils.get_video_info _ _) as [detailed_info | e]; [| apply Q0].
  destruct (YoutubeUtils.info d) as [video_info |]; [| apply Q0].
  destruct (makedirs _) as [e |] eqn:Mk; [apply Q0 |].
  unfold VideoUtils.extract_fixed_frames_fs. rewrite Mk.
  destruct (snd _) as [[| f extracted] | e] eqn:X; [apply Q0 | | apply Q0].
  apply extract_fixed_frames_length in X.
  set (extracted_frames := f :: extracted) in *.
  unfold bind.
  destruct (analyze_frames_account extracted_frames batch_size log)
    as [out [reqs1 [-> A]]].
  destruct out as [frame_analyses | e].
  2:{ exists (breakdown_failed d (str_exn e)), reqs1. unfold ret.
      split; [reflexivity | apply F]. }
  destruct A as [_ [T1 L1]].
  destruct (summary_account frame_analyses detailed_info (log ++ reqs1))
    as [video_summary [reqs2 [-> [T2 L2]]]].
  rewrite <- app_assoc.
  destruct (write_json _).
  { eexists. exists (reqs1 ++ reqs2). unfold ret. split; [reflexivity | apply F]. }
  eexists. exists (reqs1 ++ reqs2). unfold ret. split; [reflexivity |].
  split; [reflexivity |]. intros _.
  cbn [frames_extracted frames_analyzed vr_video_index vr_total_tokens].
  eexists. eexists. split; [reflexivity |]. split; [reflexivity |].
  assert (Hlen : 1 <= Z.of_nat (List.length extracted_frames)).
  { subst extracted_frames. cbn [List.length]. lia. }
  rewrite length_app. split; [lia |]. split; [lia |]. split; [lia |].
  split; [reflexivity |].
  rewrite answered_tokens_app, T1, T2, length_app. reflexivity.
Qed.

(** X16. Whether a video counts as analysed does not depend on the oracle
    or on the image files: with the same download, decoder, image writer,
    JSON writer and directory creation, two runs against any two oracles, image stores, prompts and
    request logs agree on [breakdown_success], the error message, the path
    of the breakdown file, the number of frames extracted and the video
    index.  Failed frame analyses never make a video fail. *)
Theorem video_outcome_ignores_oracle (files' : string -> option (res string))
    (svc' : service) (FRAME_ANALYSIS_PROMPT' : string)
    (summary_prompt' : VideoUtils.video_info -> list string -> string)
    (d : download_result)
    (duration_seconds max_frames_per_video batch_size video_index : Z)
    (log log' : list request) :
  let r := fst (process_single_video Frame path_exists makedirs VideoCapture imwrite files svc
                  FRAME_ANALYSIS_PROMPT summary_prompt write_json output_dir d
                  duration_seconds max_frames_per_video batch_size video_index log) in
  let r' := fst (process_single_video Frame path_exists makedirs VideoCapture imwrite files' svc'
                   FRAME_ANALYSIS_PROMPT' summary_prompt' write_json output_dir d
                   duration_seconds max_frames_per_video batch_size video_index log') in
  breakdown_success r = breakdown_success r' /\
  breakdown_error r = breakdown_error r' /\
  breakdown_path r = breakdown_path r' /\
  frames_extracted r = frames_extracted r' /\
  vr_video_index r = vr_video_index r' /\
  download r = download r'.
Proof.
  cbv zeta. unfold process_single_video.
  destruct (YoutubeUtils.video_path d) as [video_path |]; [| cbn; auto 10].
  destruct (negb _); [cbn; auto 10 |].
  destruct (VideoUtils.get_video_info _ _) as [detailed_info | e]; [| cbn; auto 10].
  destruct (YoutubeUtils.info d) as [video_info |]; [| cbn; auto 10].
  destruct (makedirs _) as [e |] eqn:Mk; [cbn; auto 10 |].
  unfold VideoUtils.extract_fixed_frames_fs. rewrite Mk.
  destruct (snd _) as [[| f extracted] | e]; [cbn; auto 10 | | cbn; auto 10].
  unfold bind, GptUtils.analyze_multiple_frames_async.
  destruct (range_step _ batch_size) as [starts | e]; [| cbn; auto 10].
  unfold bind.
  destruct (GptUtils.batches_loop files svc _ _ _ _ log) as [results log1].
  destruct (GptUtils.batches_loop files' svc' _ _ _ _ log') as [results' log1'].
  unfold ret.
  destruct (GptUtils.generate_comprehensive_summary svc _ _ _ log1) as [vs log2].
  destruct (GptUtils.generate_comprehensive_summary svc' _ _ _ log1') as [vs' log2'].
  destruct (write_json _); cbn; auto 10.
Qed.

(** X17. A video that counts as analysed records consistent numbers: at
    least one and at most [max_frames_per_video] frames extracted, no more
    frames analysed than extracted, the index it was processed under, and
    as its tokens exactly the tokens of the responses to the requests this
    video added to the log, of which there are at most one per extracted
    frame plus one for the summary.  The log only grows. *)
Theorem video_accounting (d : download_result)
    (duration_seconds max_frames_per_video batch_size video_index : Z)
    (log : list request) :
  let '(r, log') :=
    process_single_video Frame path_exists makedirs VideoCapture imwrite files svc
      FRAME_ANALYSIS_PROMPT summary_prompt write_json output_dir d duration_seconds
      max_frames_per_video batch_size video_index log in
  exists reqs,
    log' = log ++ reqs /\
    (succeeded r = true ->
     exists extracted analysed,
       frames_extracted r = Some extracted /\ frames_analyzed r = Some analysed /\
       1 <= extracted <= max_frames_per_video /\
       0 <= analysed <= extracted /\
       analysed <= Z.of_nat (List.length reqs) <= extracted + 1 /\
       vr_video_index r = Some video_index /\
       vr_total_tokens r = Some (answered_tokens svc (List.length log) reqs)).
Proof.
  destruct (process_single_video_account d duration_seconds max_frames_per_video
              batch_size video_index log) as [r [reqs [-> [_ H]]]].
  exists reqs. split; [reflexivity | exact H].
Qed.

(** X18. The ways a downloaded video can fail.  For a well-formed
    successful download, and a decoder and image writer that do not raise,
    the result is a success, or a failure with one of six messages: the
    file does not exist or does not open; the frame rate is zero; the frame
    directory cannot be created; no frame could be extracted; the batch
    size is zero; or the breakdown file could not be written.  A missing
    path or missing metadata never occurs, and the analysis of a frame
    never makes the video fail. *)
Theorem video_failure_reasons (d : download_result)
    (duration_seconds max_frames_per_video batch_size video_index : Z)
    (log : list request) :
  well_formed d -> YoutubeUtils.success d = true ->
  let r := fst (process_single_video Frame path_exists makedirs VideoCapture imwrite files
                  svc FRAME_ANALYSIS_PROMPT summary_prompt write_json output_dir d
                  duration_seconds max_frames_per_video batch_size video_index log) in
  exists video_path,
    YoutubeUtils.video_path d = Some video_path /\
    (succeeded r = true \/
     breakdown_success r = Some false /\
     ((VideoUtils.validate_video_file (path_exists video_path) (VideoCapture video_path)
         = false /\
       breakdown_error r = Some "Video file validation failed"%string) \/
      (fzero (CAP_PROP_FPS (VideoCapture video_path)) = true /\
       breakdown_error r = Some "float division by zero"%string) \/
      (exists e dir, makedirs dir = Some e /\ breakdown_error r = Some (str_exn e)) \/
      breakdown_error r = Some "No frames were extracted"%string \/
      (batch_size = 0 /\
       breakdown_error r = Some "range() arg 3 must not be zero"%string) \/
      (exists e path, write_json path = Some e /\ breakdown_error r = Some (str_exn e)))).
Proof.
  intros W S. unfold well_formed in W. rewrite S in W. destruct W as [_ [Wp Wi]].
  cbv zeta. unfold process_single_video.
  destruct (YoutubeUtils.video_path d) as [video_path |]; [| congruence].
  exists video_path. split; [reflexivity |].
  destruct (VideoUtils.validate_video_file _ _) eqn:V; cbn [negb].
  2:{ right. split; [reflexivity |]. left. now split. }
  assert (Ho : isOpened (VideoCapture video_path) = true).
  { unfold VideoUtils.validate_video_file in V. destruct (negb _); [discriminate | exact V]. }
  destruct (VideoUtils.get_video_info _ _) as [detailed_info | e] eqn:G.
  2:{ unfold VideoUtils.get_video_info in G. rewrite Ho in G. cbn [negb] in G.
      destruct (fzero (CAP_PROP_FPS (VideoCapture video_path))) eqn:Hz; [| discriminate].
      injection G as <-. right. split; [reflexivity |]. right. left. now split. }
  assert (Hz : fzero (CAP_PROP_FPS (VideoCapture video_path)) = false).
  { unfold VideoUtils.get_video_info in G. rewrite Ho in G. cbn [negb] in G.
    now destruct (fzero (CAP_PROP_FPS (VideoCapture video_path))). }
  destruct (YoutubeUtils.info d) as [video_info |]; [| congruence].
  destruct (makedirs _) as [e |] eqn:Mk.
  { right. split; [reflexivity |]. do 2 right. left. eauto. }
  unfold VideoUtils.extract_fixed_frames_fs. rewrite Mk.
  rewrite extract_fixed_frames_opened by assumption. cbv zeta. cbn [snd].
  destruct (map _ _) as [| f extracted].
  { right. split; [reflexivity |]. do 3 right. now left. }
  set (extracted_frames := f :: extracted).
  unfold bind.
  destruct (analyze_frames_account extracted_frames batch_size log)
    as [out [reqs1 [-> A]]].
  destruct out as [frame_analyses | e].
  2:{ destruct A as [-> [-> _]]. right. split; [reflexivity |]. do 4 right. left.
      now split. }
  destruct (GptUtils.generate_comprehensive_summary _ _ _ _ _) as [vs log2].
  destruct (write_json _) as [e |] eqn:J.
  - right. split; [reflexivity |]. do 5 right. eauto.
  - now left.
Qed.

Lemma comparison_tokens (ps : list ((Z * video_summary_info) * (Z * video_summary_info))) :
  forall n,
  sum (map tokens_used (comparisons_from svc pair_prompt n ps))
  = answered_tokens svc n
      (map (fun p => pair_request pair_prompt (snd (fst p)) (snd (snd p))) ps).
Proof.
  induction ps as [| [[i video1] [j video2]] ps IH]; intros n; [reflexivity |].
  cbn [comparisons_from map answered_tokens fst snd]. unfold sum in *. cbn [fold_right].
  rewrite IH. unfold comparison_of. cbn [tokens_used].
  now destruct (svc n _).
Qed.

(** The request of the holistic analysis (lines 105-114). *)
Lemma analyze_similarities_async_run (video_results : list video_result)
    (log : list request) :
  let summaries := prepare_video_summaries video_results in
  let req := {| req_model := "gpt-4o"; req_text := create_similarity_prompt summaries;
                req_image_url := None; req_max_tokens := 2000 |} in
  (2 <= List.length (filter succeeded video_results))%nat ->
  exists r,
    analyze_similarities_async svc create_similarity_prompt video_results log
      = (r, log ++ [req]) /\
    match sr_tokens_used r with Some t => t | None => 0 end
      = answered_tokens svc (List.length log) [req] /\
    (sr_success r = true -> sr_video_titles r = Some (map title summaries)).
Proof.
  intros summaries req Hm. unfold analyze_similarities_async. fold summaries.
  assert (L : (List.length summaries <? 2)%nat = false).
  { apply Nat.ltb_ge. subst summaries. unfold prepare_video_summaries.
    now rewrite length_prepare_from. }
  rewrite L. unfold bind, create. fold req.
  destruct (svc (List.length log) req) as [response | e] eqn:E; unfold ret;
    eexists; (split; [reflexivity |]); cbn [answered_tokens sr_tokens_used sr_success
                                             sr_video_titles];
    rewrite E; split; try lia; try discriminate; auto.
Qed.

Lemma analyze_video_similarities_run (video_results : list video_result)
    (log : list request) :
  let summaries := prepare_video_summaries video_results in
  let m := Z.of_nat (List.length (filter succeeded video_results)) in
  let expected :=
    if m <? 2 then []
    else {| req_model := "gpt-4o"; req_text := create_similarity_prompt summaries;
            req_image_url := None; req_max_tokens := 2000 |}
         :: map (fun p => pair_request pair_prompt (snd (fst p)) (snd (snd p)))
              (pairs_from 0 summaries) in
  let '(sim, log') :=
    analyze_video_similarities svc create_similarity_prompt pair_prompt write_json
      output_dir video_results log in
  log' = log ++ expected /\
  match write_json (os_path_join (similarity_dir output_dir) "similarity_analysis.json") with
  | None => sa_total_tokens_used sim = Some (answered_tokens svc (List.length log) expected)
  | Some e =>
      sa_success sim = Some false /\ sa_error sim = Some (str_exn e) /\
      sa_total_tokens_used sim = None
  end.
Proof.
  intros summaries m expected. unfold analyze_video_similarities, bind.
  destruct (Z.ltb_spec m 2) as [Hm | Hm].
  - assert (L : (List.length summaries <? 2)%nat = true).
    { apply Nat.ltb_lt. subst summaries m. unfold prepare_video_summaries.
      rewrite length_prepare_from. lia. }
    unfold analyze_similarities_async, generate_pairwise_comparisons.
    fold summaries. rewrite L. unfold ret. subst expected. rewrite app_nil_r.
    destruct (write_json _); cbn; auto.
  - subst summaries.
    destruct (analyze_similarities_async_run video_results log ltac:(lia))
      as [sr [-> [T1 _]]].
    set (req := {| req_model := "gpt-4o";
                   req_text := create_similarity_prompt
                                 (prepare_video_summaries video_results);
                   req_image_url := None; req_max_tokens := 2000 |}) in *.
    pose proof (generate_pairwise_comparisons_run pair_prompt svc video_results
                  (log ++ [req]) Hm) as [_ R].
    cbv beta iota. rewrite R.
    assert (Hl : (log ++ [req]) ++
                 map (fun p => pair_request pair_prompt (snd (fst p)) (snd (snd p)))
                   (pairs_from 0 (prepare_video_summaries video_results))
                 = log ++ expected).
    { subst expected. now rewrite <- app_assoc. }
    rewrite Hl.
    destruct (write_json _); unfold ret; cbv beta iota; (split; [reflexivity |]).
    + now split.
    + cbn [sa_total_tokens_used total_tokens_used]. f_equal.
      rewrite T1, comparison_tokens. subst expected.
      rewrite length_app. cbn [List.length answered_tokens]. rewrite Nat.add_1_r. lia.
Qed.

(** X19. The requests of the similarity stage.  With fewer than two
    analysed videos it makes none.  With [m >= 2] it makes exactly
    [1 + m (m - 1) / 2]: first the holistic request (text only, budget
    2000), then one request per pair in the order of the pairs (text only,
    budget 300), whether or not the result can be written; and when it is
    written, the tokens it reports are exactly the tokens of the responses
    to these requests. *)
Theorem similarity_stage_requests (video_results : list video_result)
    (log : list request) :
  let summaries := prepare_video_summaries video_results in
  let m := Z.of_nat (List.length (filter succeeded video_results)) in
  let expected :=
    if m <? 2 then []
    else {| req_model := "gpt-4o"; req_text := create_similarity_prompt summaries;
            req_image_url := None; req_max_tokens := 2000 |}
         :: map (fun p => pair_request pair_prompt (snd (fst p)) (snd (snd p)))
              (pairs_from 0 summaries) in
  let '(sim, log') :=
    analyze_video_similarities svc create_similarity_prompt pair_prompt write_json
      output_dir video_results log in
  log' = log ++ expected /\
  Z.of_nat (List.length expected) = (if m <? 2 then 0 else 1 + m * (m - 1) / 2) /\
  Forall (fun req => req_image_url req = None /\ req_model req = "gpt-4o"%string) expected /\
  Forall (fun req => req_max_tokens req = 300) (tl expected) /\
  match write_json (os_path_join (similarity_dir output_dir) "similarity_analysis.json") with
  | None => sa_total_tokens_used sim = Some (answered_tokens svc (List.length log) expected)
  | Some e =>
      sa_success sim = Some false /\ sa_error sim = Some (str_exn e) /\
      sa_total_tokens_used sim = None
  end.
Proof.
  intros summaries m expected.
  pose proof (analyze_video_similarities_run video_results log) as H. cbv zeta in H.
  destruct (analyze_video_similarities _ _ _ _ _ _ _) as [sim log'].
  destruct H as [Hlog Ht]. split; [exact Hlog |]. clear Hlog.
  split; [| split; [| split; [| exact Ht]]]; clear Ht; subst expected.
  - destruct (Z.ltb_spec m 2) as [Hm | Hm]; [reflexivity |].
    cbn [List.length]. rewrite length_map.
    pose proof (length_pairs_from summaries 0) as P.
    assert (N : Z.of_nat (List.length summaries) = m).
    { subst summaries m. unfold prepare_video_summaries. now rewrite length_prepare_from. }
    rewrite N in P.
    replace (m * (m - 1)) with (Z.of_nat (List.length (pairs_from 0 summaries)) * 2) by lia.
    rewrite Z.div_mul by lia. lia.
  - destruct (m <? 2); constructor; [now split |].
    apply Forall_forall. intros req Hin. apply in_map_iff in Hin.
    destruct Hin as [pair [<- _]]. now split.
  - destruct (m <? 2); cbn [tl]; [constructor |].
    apply Forall_forall. intros req Hin. apply in_map_iff in Hin.
    now destruct Hin as [pair [<- _]].
Qed.

Lemma answered_tokens_nonneg (reqs : list request) :
  (forall n req response, svc n req = Return response -> 0 <= total_tokens response) ->
  forall n, 0 <= answered_tokens svc n reqs.
Proof.
  intros H. induction reqs as [| q reqs IH]; intros n; cbn [answered_tokens]; [lia |].
  specialize (IH (S n)). destruct (svc n q) as [response | e] eqn:E; [| lia].
  apply H in E. lia.
Qed.

Lemma sum_of_cons (key : video_result -> option Z) (r : video_result)
    (l : list video_result) :
  sum_of key (r :: l) = match key r with Some n => n | None => 0 end + sum_of key l.
Proof. reflexivity. Qed.

(** The loop over the downloaded videos (lines 103-115). *)
Lemma videos_account (ds : list download_result)
    (duration_seconds max_frames_per_video batch_size : Z) :
  forall (i : Z) (log : list request),
  exists videos reqs,
    mapM (fun '(i, download_result) =>
            process_single_video Frame path_exists makedirs VideoCapture imwrite files svc
              FRAME_ANALYSIS_PROMPT summary_prompt write_json output_dir download_result
              duration_seconds max_frames_per_video batch_size i)
      (enumerate_from i ds) log = (videos, log ++ reqs) /\
    map download videos = ds /\
    (forall k r, nth_error videos k = Some r -> succeeded r = true ->
       vr_video_index r = Some (i + Z.of_nat k)) /\
    Forall (fun r => succeeded r = true ->
              exists extracted analysed,
                frames_extracted r = Some extracted /\ frames_analyzed r = Some analysed /\
                1 <= extracted <= max_frames_per_video /\ 0 <= analysed <= extracted)
      videos /\
    ((forall n req response, svc n req = Return response -> 0 <= total_tokens response) ->
     sum_of vr_total_tokens (filter succeeded videos)
     <= answered_tokens svc (List.length log) reqs) /\
    (Forall (fun r => succeeded r = true) videos ->
     sum_of vr_total_tokens (filter succeeded videos)
     = answered_tokens svc (List.length log) reqs).
Proof.
  induction ds as [| d ds IH]; intros i log.
  - exists [], []. cbn. unfold ret. rewrite app_nil_r.
    repeat split; auto; try lia. intros [| k] r; discriminate.
  - cbn [enumerate_from mapM]. unfold bind at 1.
    destruct (process_single_video_account d duration_seconds max_frames_per_video
                batch_size i log) as [r [reqs1 [-> [Hd Hr]]]].
    unfold bind.
    destruct (IH (i + 1) (log ++ reqs1)) as [videos [reqs2 [-> [Hm [Hi [Hf [Hle Heq]]]]]]].
    unfold ret. exists (r :: videos), (reqs1 ++ reqs2). rewrite <- app_assoc.
    split; [reflexivity |]. split; [cbn [map]; now rewrite Hd, Hm |].
    rewrite length_app in Hle, Heq.
    split; [| split; [| split]].
    + intros [| k] r' Hk Hs; cbn [nth_error] in Hk.
      * injection Hk as <-. destruct (Hr Hs) as [fe [fa [_ [_ [_ [_ [_ [Hv _]]]]]]]].
        rewrite Hv. f_equal. lia.
      * rewrite (Hi k r' Hk Hs). f_equal. lia.
    + constructor; [| exact Hf]. intros Hs.
      destruct (Hr Hs) as [fe [fa [H1 [H2 [H3 [H4 _]]]]]]. eauto 10.
    + intros Hpos. specialize (Hle Hpos). rewrite answered_tokens_app.
      cbn [filter]. destruct (succeeded r) eqn:Hs.
      * destruct (Hr eq_refl) as [fe [fa [_ [_ [_ [_ [_ [_ Ht]]]]]]]].
        rewrite sum_of_cons, Ht. lia.
      * pose proof (answered_tokens_nonneg reqs1 Hpos (List.length log)). lia.
    + intros Hall. inversion Hall as [| ? ? Hs Hrest]; subst.
      specialize (Heq Hrest). rewrite answered_tokens_app.
      cbn [filter]. rewrite Hs.
      destruct (Hr Hs) as [fe [fa [_ [_ [_ [_ [_ [_ Ht]]]]]]]].
      rewrite sum_of_cons, Ht. lia.
Qed.

Lemma download_multiple_videos_length (urls : list string)
    (duration_seconds max_videos : Z) :
  (List.length (download_multiple_videos get_video_info download_video urls
                  duration_seconds max_videos) <= List.length urls)%nat /\
  (0 <= max_videos ->
   Z.of_nat (List.length (download_multiple_videos get_video_info download_video urls
                            duration_seconds max_videos)) <= max_videos).
Proof.
  unfold download_multiple_videos, validate_urls. rewrite length_map.
  pose proof (filter_length_le is_valid_youtube_url urls) as L.
  set (valid_urls := filter is_valid_youtube_url urls) in *.
  destruct (Z.gtb_spec (Z.of_nat (List.length valid_urls)) max_videos) as [G | G].
  - unfold slice_to. destruct (Z.ltb_spec max_videos 0);
      rewrite length_firstn; split; lia.
  - split; lia.
Qed.

Lemma frame_sums (max_frames_per_video : Z) (videos : list video_result) :
  Forall (fun r => succeeded r = true ->
            exists extracted analysed,
              frames_extracted r = Some extracted /\ frames_analyzed r = Some analysed /\
              1 <= extracted <= max_frames_per_video /\ 0 <= analysed <= extracted)
    videos ->
  let counted := filter succeeded videos in
  let n := Z.of_nat (List.length counted) in
  n <= sum_of frames_extracted counted <= n * max_frames_per_video /\
  0 <= sum_of frames_analyzed counted <= sum_of frames_extracted counted.
Proof.
  induction 1 as [| r videos Hr _ IH]; cbv zeta in *; [cbn; lia |].
  cbn [filter]. destruct (succeeded r) eqn:Hs; [| exact IH].
  destruct (Hr eq_refl) as [fe [fa [E1 [E2 [B1 B2]]]]].
  rewrite !sum_of_cons, E1, E2. cbn [List.length]. nia.
Qed.

Lemma indices_agree (videos : list video_result) :
  forall i,
  (forall k r, nth_error videos k = Some r -> succeeded r = true ->
     vr_video_index r = Some (i + 1 + Z.of_nat k)) ->
  map (fun s => Some (video_index s)) (prepare_from i videos)
  = map vr_video_index (filter succeeded videos).
Proof.
  induction videos as [| r videos IH]; intros i H; [reflexivity |].
  assert (T : map (fun s => Some (video_index s)) (prepare_from (i + 1) videos)
              = map vr_video_index (filter succeeded videos)).
  { apply IH. intros k r' Hk Hs. rewrite (H (S k) r' Hk Hs). f_equal. lia. }
  cbn [prepare_from filter]. pose proof (H 0%nat r eq_refl) as H0.
  unfold prepare_one, succeeded in *.
  destruct (breakdown_success r) as [[|] |]; try exact T.
  cbn [map video_index]. rewrite T, H0 by reflexivity. f_equal. f_equal. lia.
Qed.

(** A run of the whole batch once a download has succeeded. *)
Lemma process_youtube_urls_run (urls : list string)
    (duration_seconds max_videos max_frames_per_video batch_size : Z)
    (log : list request) :
  let downloads :=
    download_multiple_videos get_video_info download_video urls duration_seconds
      max_videos in
  filter YoutubeUtils.success downloads <> [] ->
  exists videos sim reqs1 reqs2,
    process_youtube_urls get_video_info download_video Frame path_exists makedirs VideoCapture
      imwrite files svc FRAME_ANALYSIS_PROMPT summary_prompt create_similarity_prompt
      pair_prompt write_json output_dir urls duration_seconds max_videos
      max_frames_per_video batch_size log
    = (match write_json (os_path_join output_dir "batch_analysis_report.json") with
       | Some e => Raise e
       | None => Return (Done (generate_final_report downloads videos sim))
       end, log ++ reqs1 ++ reqs2) /\
    map download videos = filter YoutubeUtils.success downloads /\
    (forall k r, nth_error videos k = Some r -> succeeded r = true ->
       vr_video_index r = Some (1 + Z.of_nat k)) /\
    Forall (fun r => succeeded r = true ->
              exists extracted analysed,
                frames_extracted r = Some extracted /\ frames_analyzed r = Some analysed /\
                1 <= extracted <= max_frames_per_video /\ 0 <= analysed <= extracted)
      videos /\
    ((forall n req response, svc n req = Return response -> 0 <= total_tokens response) ->
     sum_of vr_total_tokens (filter succeeded videos)
     <= answered_tokens svc (List.length log) reqs1) /\
    (Forall (fun r => succeeded r = true) videos ->
     sum_of vr_total_tokens (filter succeeded videos)
     = answered_tokens svc (List.length log) reqs1) /\
    match write_json (os_path_join (similarity_dir output_dir) "similarity_analysis.json") with
    | None =>
        sa_total_tokens_used sim
        = Some (answered_tokens svc (List.length (log ++ reqs1)) reqs2)
    | Some e => sa_total_tokens_used sim = None
    end.
Proof.
  intros downloads Hne. unfold process_youtube_urls. fold downloads.
  destruct (filter YoutubeUtils.success downloads) as [| d ds] eqn:Hs; [congruence |].
  destruct (videos_account (d :: ds) duration_seconds max_frames_per_video batch_size 1 log)
    as [videos [reqs1 [Hrun Hv]]].
  pose proof (analyze_video_similarities_run videos (log ++ reqs1)) as Hsim.
  cbv zeta in Hsim.
  destruct (analyze_video_similarities _ _ _ _ _ videos (log ++ reqs1)) as [sim log2] eqn:Es.
  destruct Hsim as [Hlog Ht].
  match type of Hlog with _ = _ ++ ?reqs2 => exists videos, sim, reqs1, reqs2 end.
  split.
  { unfold bind at 1. rewrite Hrun. unfold bind. rewrite Es.
    rewrite app_assoc, <- Hlog.
    now destruct (write_json (os_path_join output_dir "batch_analysis_report.json")). }
  destruct Hv as [V1 [V2 [V3 [V4 V5]]]].
  repeat (split; [assumption |]).
  destruct (write_json (os_path_join (similarity_dir output_dir) "similarity_analysis.json"));
    [tauto | exact Ht].
Qed.

(** X20. The index of a video is the same everywhere: in a finished batch
    the [video_index] that the similarity stage gives a video (its position
    among the processed videos) is the index it was processed under, which
    names its frame directory and breakdown file; both count the
    successfully downloaded videos from 1, failed ones included. *)
Theorem summary_indices_match (urls : list string)
    (duration_seconds max_videos max_frames_per_video batch_size : Z)
    (log : list request) (final_report : report) :
  fst (process_youtube_urls get_video_info download_video Frame path_exists makedirs VideoCapture
         imwrite files svc FRAME_ANALYSIS_PROMPT summary_prompt create_similarity_prompt
         pair_prompt write_json output_dir urls duration_seconds max_videos
         max_frames_per_video batch_size log) = Return (Done final_report) ->
  let videos := video_analyses final_report in
  map (fun s => Some (video_index s)) (prepare_video_summaries videos)
    = map vr_video_index (filter succeeded videos) /\
  (forall k r, nth_error videos k = Some r -> succeeded r = true ->
     vr_video_index r = Some (Z.of_nat k + 1)).
Proof.
  intros H.
  destruct (filter YoutubeUtils.success
              (download_multiple_videos get_video_info download_video urls
                 duration_seconds max_videos)) as [| d ds] eqn:Hs.
  { unfold process_youtube_urls in H. rewrite Hs in H. discriminate. }
  destruct (process_youtube_urls_run urls duration_seconds max_videos max_frames_per_video
              batch_size log) as [videos [sim [reqs1 [reqs2 [R [_ [Hi _]]]]]]];
    [rewrite Hs; discriminate |].
  rewrite R in H. cbn [fst] in H.
  destruct (write_json (os_path_join output_dir "batch_analysis_report.json"));
    [discriminate |].
  injection H as <-. cbn [video_analyses generate_final_report].
  split.
  - apply indices_agree. intros k r Hk Hsucc. rewrite (Hi k r Hk Hsucc). f_equal.
  - intros k r Hk Hsucc. rewrite (Hi k r Hk Hsucc). f_equal. lia.
Qed.

(** X21. The numbers of the final report are consistent.  What it calls
    [total_urls_provided] is the number of download attempts, which never
    exceeds the number of URLs given nor a limit that is not negative; at
    least one download succeeded; the videos analysed are no more than the
    successful downloads, one entry each; every analysed video contributes
    between 1 and [max_frames_per_video] extracted frames, and no more
    analysed frames than extracted ones; and there is one title per
    analysed video. *)
Theorem report_accounting (urls : list string)
    (duration_seconds max_videos max_frames_per_video batch_size : Z)
    (log : list request) (final_report : report) :
  fst (process_youtube_urls get_video_info download_video Frame path_exists makedirs VideoCapture
         imwrite files svc FRAME_ANALYSIS_PROMPT summary_prompt create_similarity_prompt
         pair_prompt write_json output_dir urls duration_seconds max_videos
         max_frames_per_video batch_size log) = Return (Done final_report) ->
  let n := n_successful_analyses final_report in
  total_urls_provided final_report <= Z.of_nat (List.length urls) /\
  (0 <= max_videos -> total_urls_provided final_report <= max_videos) /\
  1 <= successful_downloads final_report <= total_urls_provided final_report /\
  Z.of_nat (List.length (video_analyses final_report)) = successful_downloads final_report /\
  0 <= n <= successful_downloads final_report /\
  n <= sum_frames_extracted final_report <= n * max_frames_per_video /\
  0 <= sum_frames_analyzed final_report <= sum_frames_extracted final_report /\
  Z.of_nat (List.length (video_titles final_report)) = n.
Proof.
  intros H.
  destruct (filter YoutubeUtils.success
              (download_multiple_videos get_video_info download_video urls
                 duration_seconds max_videos)) as [| d ds] eqn:Hs.
  { unfold process_youtube_urls in H. rewrite Hs in H. discriminate. }
  destruct (process_youtube_urls_run urls duration_seconds max_videos max_frames_per_video
              batch_size log) as [videos [sim [reqs1 [reqs2 [R [Hm [_ [Hf _]]]]]]]];
    [rewrite Hs; discriminate |].
  rewrite R in H. cbn [fst] in H.
  destruct (write_json (os_path_join output_dir "batch_analysis_report.json"));
    [discriminate |].
  injection H as <-.
  cbn [generate_final_report total_urls_provided successful_downloads n_successful_analyses
         sum_frames_extracted sum_frames_analyzed video_titles video_analyses].
  destruct (download_multiple_videos_length urls duration_seconds max_videos) as [L1 L2].
  pose proof (filter_length_le YoutubeUtils.success
                (download_multiple_videos get_video_info download_video urls
                   duration_seconds max_videos)) as L3.
  pose proof (filter_length_le succeeded videos) as L4.
  assert (L5 : List.length videos
               = List.length (filter YoutubeUtils.success
                                (download_multiple_videos get_video_info download_video urls
                                   duration_seconds max_videos))).
  { now rewrite <- Hm, length_map. }
  pose proof (frame_sums max_frames_per_video videos Hf) as [S1 S2].
  rewrite length_map. rewrite Hs in *. cbn [List.length] in *.
  repeat split; try lia.
Qed.

(** X22. The tokens of the final report never exceed what the oracle
    charged.  The run only adds requests to the log, and none when no
    download succeeded.  When no response carries a negative token count,
    the total of a finished batch is at most the tokens of the responses to
    the requests of the run; the requests of a video that failed after its
    frames were analysed are paid for but not counted.  The two are equal
    when every processed video succeeded and the similarity result was
    written. *)
Theorem report_tokens_bounded (urls : list string)
    (duration_seconds max_videos max_frames_per_video batch_size : Z)
    (log : list request) :
  (forall n req response, svc n req = Return response -> 0 <= total_tokens response) ->
  let '(outcome, log') :=
    process_youtube_urls get_video_info download_video Frame path_exists makedirs VideoCapture
      imwrite files svc FRAME_ANALYSIS_PROMPT summary_prompt create_similarity_prompt
      pair_prompt write_json output_dir urls duration_seconds max_videos
      max_frames_per_video batch_size log in
  exists reqs,
    log' = log ++ reqs /\
    match outcome with
    | Return (NoDownloads _ _) => reqs = []
    | Return (Done final_report) =>
        sum_tokens_used final_report <= answered_tokens svc (List.length log) reqs /\
        (Forall (fun r => succeeded r = true) (video_analyses final_report) ->
         write_json (os_path_join (similarity_dir output_dir) "similarity_analysis.json")
           = None ->
         sum_tokens_used final_report = answered_tokens svc (List.length log) reqs)
    | Raise _ => True
    end.
Proof.
  intros Hpos.
  destruct (filter YoutubeUtils.success
              (download_multiple_videos get_video_info download_video urls
                 duration_seconds max_videos)) as [| d ds] eqn:Hs.
  { unfold process_youtube_urls. rewrite Hs. unfold ret. exists [].
    now rewrite app_nil_r. }
  destruct (process_youtube_urls_run urls duration_seconds max_videos max_frames_per_video
              batch_size log) as [videos [sim [reqs1 [reqs2 [R [_ [_ [_ [Hle [Heq Ht]]]]]]]]]];
    [rewrite Hs; discriminate |].
  rewrite R. exists (reqs1 ++ reqs2). split; [reflexivity |].
  destruct (write_json (os_path_join output_dir "batch_analysis_report.json")); [exact I |].
  cbn [generate_final_report sum_tokens_used video_analyses].
  rewrite answered_tokens_app. rewrite length_app in Ht. specialize (Hle Hpos).
  destruct (write_json (os_path_join (similarity_dir output_dir) "similarity_analysis.json")).
  - rewrite Ht. pose proof (answered_tokens_nonneg reqs2 Hpos
                              (List.length log + List.length reqs1)%nat).
    split; [lia | discriminate].
  - rewrite Ht. split; [lia |]. intros Hall _. rewrite (Heq Hall). reflexivity.
Qed.

End Accounting.

Section UrlRuns.
Import YoutubeUtils.

Lemma download_limits_witness :
  Z.of_nat (List.length
              (download_multiple_videos Examples.info_demo Examples.download_demo
                 Examples.urls_demo 20 2)) <= 2 /\
  map YoutubeUtils.url
    (download_multiple_videos Examples.info_demo Examples.download_demo
       Examples.urls_demo 20 (-1))
  = [Examples.url_a; Examples.url_c].
Proof.
  split.
  - apply (download_limits Examples.info_demo Examples.download_demo Examples.urls_demo 20 2). lia.
  - rewrite (proj2 (proj2 (proj2 (download_limits Examples.info_demo
                                      Examples.download_demo Examples.urls_demo 20 (-1)))))
      by lia.
    reflexivity.
Defined.

End UrlRuns.

(** ** The further properties on the concrete videos and batches *)
Section FurtherRuns.
Import Oracle GptUtils YoutubeUtils SimilarityAnalyzer BatchProcessor Examples.



Lemma timestamps_in_window_witness :
  Forall (fun f => (0 <= fst f)%Q /\
                   (fst f < float_of_int (int_of_float (CAP_PROP_FRAME_COUNT cap_gap))
                            / CAP_PROP_FPS cap_gap)%Q /\
                   (fst f < 20)%Q)
    [(0%Q, "out/frame_01_0.00s.jpg"%string); (2%Q, "out/frame_03_2.00s.jpg"%string)].
Proof.
  assert (Hfps : (0 < CAP_PROP_FPS cap_gap)%Q) by reflexivity.
  assert (Hrun : extract_fixed_frames write_ok cap_gap "v.mp4" "out" 3 20 =
    ([Makedirs "out"; Open "v.mp4"; Seek 0; Read; Imwrite "out/frame_01_0.00s.jpg";
      Seek 1; Read; Seek 2; Read; Imwrite "out/frame_03_2.00s.jpg"; Release],
     Return [(0%Q, "out/frame_01_0.00s.jpg"%string);
             (2%Q, "out/frame_03_2.00s.jpg"%string)])) by reflexivity.
  exact (timestamps_in_window nat write_ok cap_gap "v.mp4" "out" 3 20 _ _ Hfps Hrun).
Defined.

Lemma interval_zero_step_witness :
  extract_frames write_ok cap_slow "v.mp4" "out" (1 # 2)
  = ([Makedirs "out"; Open "v.mp4"; Read],
     Raise (ZeroDivisionError "integer modulo by zero")).
Proof.
  assert (Ho : isOpened cap_slow = true) by reflexivity.
  assert (Hz : fzero (CAP_PROP_FPS cap_slow) = false) by reflexivity.
  assert (Hstep : int_of_float (fmul (CAP_PROP_FPS cap_slow) (1 # 2)) = 0) by reflexivity.
  exact (proj1 (interval_zero_step nat write_ok cap_slow "v.mp4" "out" (1 # 2) Ho Hz Hstep)).
Defined.

Lemma interval_sampling_count_witness :
  exists frames,
    snd (extract_frames write_ok cap_slow "v.mp4" "out" 1) = Return frames /\
    Z.of_nat (List.length frames) = 2.
Proof.
  assert (Ho : isOpened cap_slow = true) by reflexivity.
  assert (Hfps : (0 < CAP_PROP_FPS cap_slow)%Q) by reflexivity.
  assert (Hstep : int_of_float (fmul (CAP_PROP_FPS cap_slow) 1) <> 0) by discriminate.
  destruct (interval_sampling_count nat write_ok cap_slow "v.mp4" "out" 1 Ho Hfps Hstep)
    as [frames [H1 [_ [_ H4]]]].
  exists frames. split; [exact H1 |]. rewrite H4; [reflexivity | intros; reflexivity].
Defined.

Lemma video_info_consistent_witness :
  exists info,
    get_video_info cap_gap "v.mp4" = Return info /\
    total_frames info = 3 /\ resolution info = "640x360"%string /\
    exists evs frames,
      extract_fixed_frames_fs write_ok world_makedirs cap_gap "v.mp4" "out" 3 20
        = (evs, Return frames) /\
      handle_held false evs = false.
Proof.
  destruct (get_video_info cap_gap "v.mp4") as [info | e] eqn:E;
    [| vm_compute in E; discriminate].
  destruct (video_info_consistent nat write_ok world_makedirs cap_gap "v.mp4" "out" 3 20
              info E) as [_ [_ [_ [H1 [_ [_ [H2 H3]]]]]]].
  exists info. split; [reflexivity |]. split; [exact H1 |]. split; [| exact H3].
  rewrite H2. vm_compute in E. injection E as <-. reflexivity.
Defined.

Lemma sequential_and_batched_agree_witness :
  analyze_multiple_frames_async files_demo svc_demo "Describe the frame." frames_demo 3 []
  = (Return (fst (fst (analyze_multiple_frames files_demo svc_demo "Describe the frame."
                         frames_demo []))),
     snd (analyze_multiple_frames files_demo svc_demo "Describe the frame." frames_demo [])).
Proof.
  apply (sequential_and_batched_agree files_demo "Describe the frame." svc_demo
           frames_demo 3 []).
  reflexivity.
Defined.

Lemma progress_calls_witness :
  map (fun c => fst (fst c))
    (snd (fst (analyze_multiple_frames files_demo svc_demo "Describe the frame."
                 frames_demo [])))
  = [1; 2; 3; 4].
Proof.
  assert (HB : 0 < 3) by reflexivity.
  pose proof (progress_calls files_demo "Describe the frame." svc_demo frames_demo 3 [] HB)
    as H.
  cbv zeta in H.
  destruct (fst (analyze_multiple_frames files_demo svc_demo "Describe the frame."
                   frames_demo [])) as [results calls].
  destruct H as [_ [H _]]. exact H.
Defined.

Lemma video_failure_reasons_witness :
  succeeded
    (fst (process_single_video nat (fun _ => true) world_makedirs world_capture write_ok
            world_files svc_demo "Describe the frame." prompt_of_summary world_json
            "batch_outputs" (download_one info_demo download_demo url_a 20) 20 20 5 1 []))
    = true /\
  breakdown_error
    (fst (process_single_video nat (fun _ => true) world_makedirs (fun _ => cap_no_rate)
            write_ok world_files svc_demo "Describe the frame." prompt_of_summary
            world_json "batch_outputs" (download_one info_demo download_demo url_a 20)
            20 20 5 1 []))
    = Some "float division by zero"%string /\
  breakdown_error
    (fst (process_single_video nat (fun _ => true)
            (fun _ => Some (OtherError "[Errno 13] Permission denied")) world_capture
            write_ok world_files svc_demo "Describe the frame." prompt_of_summary
            world_json "batch_outputs" (download_one info_demo download_demo url_a 20)
            20 20 5 1 []))
    = Some "[Errno 13] Permission denied"%string.
Proof.
  assert (W : well_formed (download_one info_demo download_demo url_a 20)).
  { vm_compute. repeat split; discriminate. }
  assert (S : YoutubeUtils.success (download_one info_demo download_demo url_a 20) = true)
    by reflexivity.
  split; [| split].
  - destruct (video_failure_reasons nat (fun _ => true) world_makedirs world_capture
                write_ok world_files svc_demo "Describe the frame." prompt_of_summary
                world_json "batch_outputs"
                (download_one info_demo download_demo url_a 20) 20 20 5 1 [] W S)
      as [video_path [_ [H | [H _]]]]; [exact H |].
    vm_compute in H. discriminate.
  - destruct (video_failure_reasons nat (fun _ => true) world_makedirs
                (fun _ => cap_no_rate) write_ok world_files svc_demo
                "Describe the frame." prompt_of_summary world_json "batch_outputs"
                (download_one info_demo download_demo url_a 20) 20 20 5 1 [] W S)
      as [video_path [_ [H | [_ [[H _] | [[_ H] | [[e [dir [H _]]] | [H | [[H _] |
           [e [path [H _]]]]]]]]]]]];
      try exact H; vm_compute in H; discriminate.
  - destruct (video_failure_reasons nat (fun _ => true)
                (fun _ => Some (OtherError "[Errno 13] Permission denied"))
                world_capture write_ok world_files svc_demo "Describe the frame."
                prompt_of_summary world_json "batch_outputs"
                (download_one info_demo download_demo url_a 20) 20 20 5 1 [] W S)
      as [video_path [_ [H | [_ [[H _] | [[H _] | [[e [dir [Hm H]]] | [H | [[H _] |
           [e [path [H _]]]]]]]]]]]].
    + vm_compute in H. discriminate.
    + vm_compute in H. discriminate.
    + vm_compute in H. discriminate.
    + injection Hm as <-. exact H.
    + vm_compute in H. discriminate.
    + discriminate.
    + vm_compute in H. discriminate.
Defined.

Lemma summary_indices_match_witness :
  exists final_report,
    fst batch_demo = Return (Done final_report) /\
    map (fun s => Some (video_index s))
      (prepare_video_summaries (video_analyses final_report))
    = map vr_video_index (filter succeeded (video_analyses final_report)).
Proof.
  destruct (fst batch_demo) as [[msg reported | final_report] | e] eqn:E.
  - vm_compute in E. discriminate.
  - exists final_report. split; [reflexivity |].
    apply (summary_indices_match info_demo download_demo nat (fun _ => true) world_makedirs
             world_capture write_ok world_files svc_demo "Describe the frame."
             prompt_of_summary prompt_of_videos prompt_of_pair world_json
             "batch_outputs" urls_demo 20 10 20 5 [] final_report E).
  - vm_compute in E. discriminate.
Defined.

Lemma report_accounting_witness :
  exists final_report,
    fst batch_demo = Return (Done final_report) /\
    1 <= successful_downloads final_report <= total_urls_provided final_report /\
    sum_frames_analyzed final_report <= sum_frames_extracted final_report.
Proof.
  destruct (fst batch_demo) as [[msg reported | final_report] | e] eqn:E.
  - vm_compute in E. discriminate.
  - exists final_report. split; [reflexivity |].
    pose proof (report_accounting info_demo download_demo nat (fun _ => true) world_makedirs
                  world_capture write_ok world_files svc_demo "Describe the frame."
                  prompt_of_summary prompt_of_videos prompt_of_pair world_json
                  "batch_outputs" urls_demo 20 10 20 5 [] final_report E) as H.
    cbv zeta in H. split; [apply H |]. apply H.
  - vm_compute in E. discriminate.
Defined.

Lemma report_tokens_bounded_witness :
  exists reqs, snd batch_demo = [] ++ reqs.
Proof.
  assert (Hpos : forall n req response,
            svc_demo n req = Return response -> 0 <= total_tokens response).
  { intros n req response H. unfold svc_demo in H.
    destruct (Nat.eqb n 1); [discriminate |]. injection H as <-. cbn. lia. }
  pose proof (report_tokens_bounded info_demo download_demo nat (fun _ => true) world_makedirs
                world_capture write_ok world_files svc_demo "Describe the frame."
                prompt_of_summary prompt_of_videos prompt_of_pair world_json
                "batch_outputs" urls_demo 20 10 20 5 [] Hpos) as H.
  fold batch_demo in H. destruct batch_demo as [outcome log'].
  destruct H as [reqs [H _]]. exists reqs. exact H.
Defined.

End FurtherRuns.
